(** * IBAMR: IBHierarchyIntegrator and the conservative mass transport integrator

    A shallow embedding of

    - [src/src/IB/IBHierarchyIntegrator.cpp]: the member functions
      [preprocessIntegrateHierarchy], [initializeHierarchyIntegrator] and
      [initializePatchHierarchy] of class [IBHierarchyIntegrator] and, in a
      module of their own, [registerBodyForceFunction],
      [postprocessIntegrateHierarchy], [regridHierarchyBeginSpecialized],
      [regridHierarchyEndSpecialized], [atRegridPointSpecialized],
      [putToDatabaseSpecialized], [getFromInput], [getFromRestart] and the
      end of the constructor;
    - [src/include/ibamr/AdvDiffConservativeMassTransportQuantityIntegrator.h]:
      the contract of [computeConvectiveDerivative] (a declaration only: the
      body is in a translation unit that is not among the repository's files
      here).

    Conventions.  A C++ [double] is a binary64 [float], with its rounding.
    [int] is [Z]; the remainder of [atRegridPointSpecialized] is undefined
    where C++ leaves it undefined.
    A [tbox::Pointer<T>] or raw pointer is [option addr], [None] being the
    null pointer.  [TBOX_ERROR] ends the process: it is the outcome
    [Aborted], which keeps the world as it was when the macro ran.
    Undefined behaviour of C++ (dereferencing a null pointer, indexing an
    empty deque) is the outcome [Undefined]. *)

From Stdlib Require Import ZArith List String Ascii Bool Lia Floats DecimalString.
Import ListNotations.

(* ===================================================================== *)
(** ** Outcomes and the integrator monad *)
(* ===================================================================== *)

Section Outcome.
Variables W D : Type.

Inductive outcome (A : Type) : Type :=
| Returned (a : A) (w : W)
| Aborted (d : D) (w : W)
| Undefined.
Arguments Returned {A} a w.
Arguments Aborted {A} d w.
Arguments Undefined {A}.

Definition M (A : Type) : Type := W -> outcome A.

Definition ret {A} (a : A) : M A := fun w => Returned a w.

Definition bind {A B} (m : M A) (k : A -> M B) : M B :=
  fun w =>
    match m w with
    | Returned a w' => k a w'
    | Aborted d w' => Aborted d w'
    | Undefined => Undefined
    end.

Definition TBOX_ERROR {A} (d : D) : M A := fun w => Aborted d w.
Definition undefined {A} : M A := fun _ => Undefined.
Definition gets {A} (f : W -> A) : M A := fun w => Returned (f w) w.
Definition modify (f : W -> W) : M unit := fun w => Returned tt (f w).

Definition when (b : bool) (m : M unit) : M unit := if b then m else ret tt.

(** [for (x : l) body] *)
Fixpoint for_each {A} (l : list A) (body : A -> M unit) : M unit :=
  match l with
  | [] => ret tt
  | x :: l' => bind (body x) (fun _ => for_each l' body)
  end.
End Outcome.

Arguments Returned {W D A} a w.
Arguments Aborted {W D A} d w.
Arguments Undefined {W D A}.
Arguments ret {W D A} a _.
Arguments TBOX_ERROR {W D A} d _.
Arguments undefined {W D A} _.
Arguments gets {W D A} f _.
Arguments modify {W D} f _.
Arguments bind {W D A B} m k _.
Arguments when {W D} b m _.
Arguments for_each {W D A} l body _.

Declare Scope integrator_scope.
Delimit Scope integrator_scope with integrator.
Notation "x <- m ;; k" := (bind m (fun x => k))
  (at level 61, m at next level, right associativity) : integrator_scope.
Notation "m ;; k" := (bind m (fun _ => k))
  (at level 61, right associativity) : integrator_scope.

(** [for (int ln = lo; ln <= hi; ++ln)]: the values [ln] takes. *)
Definition levels (lo hi : Z) : list Z :=
  map (fun k => (lo + Z.of_nat k)%Z) (seq 0 (Z.to_nat (hi - lo + 1))).

Definition nl : string := String (ascii_of_nat 10) EmptyString.
Definition show_int (z : Z) : string := NilZero.string_of_int (Z.to_int z).

(* ===================================================================== *)
(** ** IBHierarchyIntegrator (src/src/IB/IBHierarchyIntegrator.cpp) *)
(* ===================================================================== *)

Module IBHierarchyIntegrator.

Local Open Scope string_scope.
Local Open Scope Z_scope.
Local Open Scope integrator_scope.

(** *** Data *)

Definition addr := positive.
Definition Pointer := option addr.
Definition IntVector := list Z.
Definition ComponentSelector := list Z.

(** The run-time class of a [Variable<NDIM>], which decides the casts to
    [CellVariable<NDIM, double>] and [SideVariable<NDIM, double>]. *)
Inductive VariableClass : Type :=
| CellVariable_double
| SideVariable_double
| LMarkerSetVariable
| OtherVariable.

Record hier_Variable : Type := { var_class : VariableClass; var_name : string }.

(** The enumerators of [TimeSteppingType] that the function names; the switch of
    [initializeHierarchyIntegrator] sends every other one to [default]. *)
Inductive TimeSteppingType : Type :=
| FORWARD_EULER
| TRAPEZOIDAL_RULE
| OTHER_TIME_STEPPING_TYPE.

(** What the [TBOX_ERROR]s of IBHierarchyIntegrator.cpp report. *)
Inductive Diagnostic : Type :=
| CycleCountMismatch (object_name : string) (current_num_cycles ins_num_cycles : Z)
| TimeStepSizeChange (object_name : string)
| UnsupportedVelocityCentering
| UnsupportedPressureCentering.

Definition message (d : Diagnostic) : string :=
  match d with
  | CycleCountMismatch name cur ins =>
      name ++ "::preprocessIntegrateHierarchy():" ++ nl
      ++ "  attempting to perform " ++ show_int cur
      ++ " cycles of fixed point iteration." ++ nl
      ++ "  number of cycles required by Navier-Stokes solver = " ++ show_int ins ++ "." ++ nl
      ++ "  current implementation requires either that both solvers "
      ++ "use the same number of cycles," ++ nl
      ++ "  or that the IB solver use only a single cycle." ++ nl
  | TimeStepSizeChange name =>
      name ++ "::preprocessIntegrateHierarchy():  Time step size change encountered." ++ nl
      ++ "Aborting." ++ nl
  | UnsupportedVelocityCentering =>
      "IBHierarchyIntegrator::initializeHierarchy(): unsupported velocity data "
      ++ "centering" ++ nl
  | UnsupportedPressureCentering =>
      "IBHierarchyIntegrator::initializeHierarchy(): unsupported pressure data "
      ++ "centering" ++ nl
  end.

Definition dt_change_warning (name : string) : string :=
  name ++ "::preprocessIntegrateHierarchy():  WARNING: Time step size change encountered." ++ nl
  ++ "Suggest reducing maximum time step size in input file." ++ nl.

(** Members of the object, grouped by their C++ type. *)
Inductive PointerMember : Type :=
| d_hierarchy | d_gridding_alg | d_ins_hier_integrator | d_ib_method_ops
| d_hier_velocity_data_ops | d_hier_pressure_data_ops | d_hier_cc_data_ops
| d_u_phys_bdry_op | d_p_phys_bdry_op
| d_u_ghostfill_alg | d_u_ghostfill_op | d_u_coarsen_alg | d_u_coarsen_op
| d_f_prolong_alg | d_f_prolong_op
| d_p_ghostfill_alg | d_p_ghostfill_op | d_p_coarsen_alg | d_p_coarsen_op
| d_q_prolong_alg | d_q_prolong_op.

Inductive VariableMember : Type := d_u_var | d_p_var | d_f_var | d_q_var | d_mark_var.

Inductive ContextMember : Type :=
| d_current_context | d_scratch_context | d_new_context | d_ib_context.

Inductive IndexMember : Type :=
| d_u_idx | d_p_idx | d_f_idx | d_f_current_idx | d_q_idx
| d_mark_current_idx | d_mark_new_idx | d_mark_scratch_idx.

Definition PointerMember_eq_dec (a b : PointerMember) : {a = b} + {a <> b}.
Proof. decide equality. Defined.
Definition VariableMember_eq_dec (a b : VariableMember) : {a = b} + {a <> b}.
Proof. decide equality. Defined.
Definition IndexMember_eq_dec (a b : IndexMember) : {a = b} + {a <> b}.
Proof. decide equality. Defined.

(** The members of an [IBHierarchyIntegrator] (its own and those of its base
    class [HierarchyIntegrator]) that the embedded functions read or write. *)
Record Object : Type := {
  d_object_name : string;
  pointer : PointerMember -> Pointer;
  variable : VariableMember -> option hier_Variable;
  context : ContextMember -> Pointer;
  index : IndexMember -> Z;
  d_integrator_is_initialized : bool;
  d_hierarchy_is_initialized : bool;
  d_error_on_dt_change : bool;
  d_warn_on_dt_change : bool;
  d_time_stepping_type : TimeSteppingType;
  d_integrator_time : float;
  d_start_time : float;
  d_end_time : float;
  d_dt_previous : list float;
  d_integrator_step : Z;
  d_current_num_cycles : Z;
  d_tag_buffer : list Z;
  d_scratch_data : ComponentSelector;
  d_new_data : ComponentSelector;
  d_mark_file_name : string;
  d_mark_init_posns : list (list float)
}.

Definition upd {K V} (eq_dec : forall a b : K, {a = b} + {a <> b})
  (k : K) (v : V) (f : K -> V) : K -> V :=
  fun k' => if eq_dec k' k then v else f k'.

Definition set_pointer (v : PointerMember -> Pointer) (s : Object) : Object :=
  {| d_object_name := d_object_name s;
     pointer := v;
     variable := variable s;
     context := context s;
     index := index s;
     d_integrator_is_initialized := d_integrator_is_initialized s;
     d_hierarchy_is_initialized := d_hierarchy_is_initialized s;
     d_error_on_dt_change := d_error_on_dt_change s;
     d_warn_on_dt_change := d_warn_on_dt_change s;
     d_time_stepping_type := d_time_stepping_type s;
     d_integrator_time := d_integrator_time s;
     d_start_time := d_start_time s;
     d_end_time := d_end_time s;
     d_dt_previous := d_dt_previous s;
     d_integrator_step := d_integrator_step s;
     d_current_num_cycles := d_current_num_cycles s;
     d_tag_buffer := d_tag_buffer s;
     d_scratch_data := d_scratch_data s;
     d_new_data := d_new_data s;
     d_mark_file_name := d_mark_file_name s;
     d_mark_init_posns := d_mark_init_posns s |}.

Definition set_variable (v : VariableMember -> option hier_Variable) (s : Object) : Object :=
  {| d_object_name := d_object_name s;
     pointer := pointer s;
     variable := v;
     context := context s;
     index := index s;
     d_integrator_is_initialized := d_integrator_is_initialized s;
     d_hierarchy_is_initialized := d_hierarchy_is_initialized s;
     d_error_on_dt_change := d_error_on_dt_change s;
     d_warn_on_dt_change := d_warn_on_dt_change s;
     d_time_stepping_type := d_time_stepping_type s;
     d_integrator_time := d_integrator_time s;
     d_start_time := d_start_time s;
     d_end_time := d_end_time s;
     d_dt_previous := d_dt_previous s;
     d_integrator_step := d_integrator_step s;
     d_current_num_cycles := d_current_num_cycles s;
     d_tag_buffer := d_tag_buffer s;
     d_scratch_data := d_scratch_data s;
     d_new_data := d_new_data s;
     d_mark_file_name := d_mark_file_name s;
     d_mark_init_posns := d_mark_init_posns s |}.

Definition set_index (v : IndexMember -> Z) (s : Object) : Object :=
  {| d_object_name := d_object_name s;
     pointer := pointer s;
     variable := variable s;
     context := context s;
     index := v;
     d_integrator_is_initialized := d_integrator_is_initialized s;
     d_hierarchy_is_initialized := d_hierarchy_is_initialized s;
     d_error_on_dt_change := d_error_on_dt_change s;
     d_warn_on_dt_change := d_warn_on_dt_change s;
     d_time_stepping_type := d_time_stepping_type s;
     d_integrator_time := d_integrator_time s;
     d_start_time := d_start_time s;
     d_end_time := d_end_time s;
     d_dt_previous := d_dt_previous s;
     d_integrator_step := d_integrator_step s;
     d_current_num_cycles := d_current_num_cycles s;
     d_tag_buffer := d_tag_buffer s;
     d_scratch_data := d_scratch_data s;
     d_new_data := d_new_data s;
     d_mark_file_name := d_mark_file_name s;
     d_mark_init_posns := d_mark_init_posns s |}.

Definition set_d_integrator_is_initialized (v : bool) (s : Object) : Object :=
  {| d_object_name := d_object_name s;
     pointer := pointer s;
     variable := variable s;
     context := context s;
     index := index s;
     d_integrator_is_initialized := v;
     d_hierarchy_is_initialized := d_hierarchy_is_initialized s;
     d_error_on_dt_change := d_error_on_dt_change s;
     d_warn_on_dt_change := d_warn_on_dt_change s;
     d_time_stepping_type := d_time_stepping_type s;
     d_integrator_time := d_integrator_time s;
     d_start_time := d_start_time s;
     d_end_time := d_end_time s;
     d_dt_previous := d_dt_previous s;
     d_integrator_step := d_integrator_step s;
     d_current_num_cycles := d_current_num_cycles s;
     d_tag_buffer := d_tag_buffer s;
     d_scratch_data := d_scratch_data s;
     d_new_data := d_new_data s;
     d_mark_file_name := d_mark_file_name s;
     d_mark_init_posns := d_mark_init_posns s |}.

Definition set_d_hierarchy_is_initialized (v : bool) (s : Object) : Object :=
  {| d_object_name := d_object_name s;
     pointer := pointer s;
     variable := variable s;
     context := context s;
     index := index s;
     d_integrator_is_initialized := d_integrator_is_initialized s;
     d_hierarchy_is_initialized := v;
     d_error_on_dt_change := d_error_on_dt_change s;
     d_warn_on_dt_change := d_warn_on_dt_change s;
     d_time_stepping_type := d_time_stepping_type s;
     d_integrator_time := d_integrator_time s;
     d_start_time := d_start_time s;
     d_end_time := d_end_time s;
     d_dt_previous := d_dt_previous s;
     d_integrator_step := d_integrator_step s;
     d_current_num_cycles := d_current_num_cycles s;
     d_tag_buffer := d_tag_buffer s;
     d_scratch_data := d_scratch_data s;
     d_new_data := d_new_data s;
     d_mark_file_name := d_mark_file_name s;
     d_mark_init_posns := d_mark_init_posns s |}.

Definition set_d_tag_buffer (v : list Z) (s : Object) : Object :=
  {| d_object_name := d_object_name s;
     pointer := pointer s;
     variable := variable s;
     context := context s;
     index := index s;
     d_integrator_is_initialized := d_integrator_is_initialized s;
     d_hierarchy_is_initialized := d_hierarchy_is_initialized s;
     d_error_on_dt_change := d_error_on_dt_change s;
     d_warn_on_dt_change := d_warn_on_dt_change s;
     d_time_stepping_type := d_time_stepping_type s;
     d_integrator_time := d_integrator_time s;
     d_start_time := d_start_time s;
     d_end_time := d_end_time s;
     d_dt_previous := d_dt_previous s;
     d_integrator_step := d_integrator_step s;
     d_current_num_cycles := d_current_num_cycles s;
     d_tag_buffer := v;
     d_scratch_data := d_scratch_data s;
     d_new_data := d_new_data s;
     d_mark_file_name := d_mark_file_name s;
     d_mark_init_posns := d_mark_init_posns s |}.

Definition set_d_mark_init_posns (v : list (list float)) (s : Object) : Object :=
  {| d_object_name := d_object_name s;
     pointer := pointer s;
     variable := variable s;
     context := context s;
     index := index s;
     d_integrator_is_initialized := d_integrator_is_initialized s;
     d_hierarchy_is_initialized := d_hierarchy_is_initialized s;
     d_error_on_dt_change := d_error_on_dt_change s;
     d_warn_on_dt_change := d_warn_on_dt_change s;
     d_time_stepping_type := d_time_stepping_type s;
     d_integrator_time := d_integrator_time s;
     d_start_time := d_start_time s;
     d_end_time := d_end_time s;
     d_dt_previous := d_dt_previous s;
     d_integrator_step := d_integrator_step s;
     d_current_num_cycles := d_current_num_cycles s;
     d_tag_buffer := d_tag_buffer s;
     d_scratch_data := d_scratch_data s;
     d_new_data := d_new_data s;
     d_mark_file_name := d_mark_file_name s;
     d_mark_init_posns := v |}.

Definition set_d_current_num_cycles (v : Z) (s : Object) : Object :=
  {| d_object_name := d_object_name s;
     pointer := pointer s;
     variable := variable s;
     context := context s;
     index := index s;
     d_integrator_is_initialized := d_integrator_is_initialized s;
     d_hierarchy_is_initialized := d_hierarchy_is_initialized s;
     d_error_on_dt_change := d_error_on_dt_change s;
     d_warn_on_dt_change := d_warn_on_dt_change s;
     d_time_stepping_type := d_time_stepping_type s;
     d_integrator_time := d_integrator_time s;
     d_start_time := d_start_time s;
     d_end_time := d_end_time s;
     d_dt_previous := d_dt_previous s;
     d_integrator_step := d_integrator_step s;
     d_current_num_cycles := v;
     d_tag_buffer := d_tag_buffer s;
     d_scratch_data := d_scratch_data s;
     d_new_data := d_new_data s;
     d_mark_file_name := d_mark_file_name s;
     d_mark_init_posns := d_mark_init_posns s |}.

Definition assign_pointer (m : PointerMember) (p : Pointer) (s : Object) : Object :=
  set_pointer (upd PointerMember_eq_dec m p (pointer s)) s.
Definition assign_variable (m : VariableMember) (v : option hier_Variable) (s : Object) : Object :=
  set_variable (upd VariableMember_eq_dec m v (variable s)) s.
Definition assign_index (m : IndexMember) (i : Z) (s : Object) : Object :=
  set_index (upd IndexMember_eq_dec m i (index s)) s.

(** *** The substrate

    Everything the integrator reaches through a pointer (the patch hierarchy,
    the variable database, the IB strategy, the Navier-Stokes integrator) and
    the private part of the base class belong to SAMRAI, IBTK and other
    classes of IBAMR.  None of it is in IBHierarchyIntegrator.cpp, so it is
    an interface: a state [Ext] and one uninterpreted operation per call
    the three functions make. *)

(** The argument of [allocatePatchData] and [deallocatePatchData]: one
    patch data index, or a [ComponentSelector]. *)
Inductive PatchData : Type :=
| Index (idx : Z)
| Components (sel : ComponentSelector).

(** Calls of collaborators' member functions whose result is not used. *)
Inductive Call : Type :=
| IBStrategy_preprocessIntegrateData (ops : addr) (current_time new_time : float) (num_cycles : Z)
| IBStrategy_registerEulerianVariables (ops : addr)
| IBStrategy_registerEulerianCommunicationAlgorithms (ops : addr)
| IBStrategy_beginDataRedistribution (ops : addr) (hierarchy gridding_alg : Pointer)
| IBStrategy_endDataRedistribution (ops : addr) (hierarchy gridding_alg : Pointer)
| IBStrategy_initializePatchHierarchy (ops : addr) (hierarchy gridding_alg : Pointer)
    (u_data_idx : Z) (u_synch_scheds u_ghost_fill_scheds : list Pointer)
    (integrator_step : Z) (init_data_time : float) (initial_time : bool)
| INS_preprocessIntegrateHierarchy (ins : addr) (current_time new_time : float) (num_cycles : Z)
| INS_registerFluidSourceFunction (ins : addr) (q_fcn : Pointer)
| INS_initializeHierarchyIntegrator (ins : addr) (hierarchy gridding_alg : Pointer)
| PatchLevel_allocatePatchData (hierarchy : addr) (ln : Z) (data : PatchData) (time : float)
| PatchLevel_deallocatePatchData (hierarchy : addr) (ln : Z) (data : PatchData)
| RefineAlgorithm_registerRefine (alg : addr) (dst src scratch : Z) (op : Pointer)
| CoarsenAlgorithm_registerCoarsen (alg : addr) (dst src : Z) (op : Pointer)
| HierarchyDataOps_copyData (ops : addr) (dst src : Z)
| PhysBdryOp_setPatchDataIndex (op : addr) (idx : Z)
| PhysBdryOp_setHomogeneousBc (op : addr) (homogeneous_bc : bool).

(** Objects created with [new]. *)
Inductive Constructor : Type :=
| new_IBEulerianSourceFunction
| new_CartCellRobinPhysBdryOp (patch_data_idx : Z) (bc_coefs : list Pointer) (homogeneous_bc : bool)
| new_CartSideRobinPhysBdryOp (patch_data_idx : Z) (bc_coefs : list Pointer) (homogeneous_bc : bool)
| new_CartExtrapPhysBdryOp (patch_data_indices : ComponentSelector) (extrap_type : string)
| new_RefineAlgorithm
| new_CoarsenAlgorithm.

(** Member functions of the base class, called on this object. *)
Inductive BaseCall : Type :=
| HierarchyIntegrator_preprocessIntegrateHierarchy (current_time new_time : float) (num_cycles : Z)
| HierarchyIntegrator_initializePatchHierarchy (hierarchy gridding_alg : Pointer)
| registerGhostfillRefineAlgorithm (name : string) (ghostfill_alg : Pointer) (ghostfill_patch_strategy : Pointer)
| registerProlongRefineAlgorithm (name : string) (prolong_alg : Pointer)
| registerCoarsenAlgorithm (name : string) (coarsen_alg : Pointer).

Class Substrate : Type := {
  Ext : Type;
  (** the space dimension the library is compiled for *)
  NDIM : nat;
  (** [IBTK::invalid_index] and [IBTK::rel_equal_eps] (ibtk_utilities.h) *)
  invalid_index : Z;
  rel_equal_eps : float -> float -> bool;
  invoke : Call -> Ext -> Ext;
  construct : Constructor -> Ext -> addr * Ext;
  (** the base class, on this object *)
  base_invoke : BaseCall -> Object -> Ext -> Object * Ext;
  registerVariable :
    option hier_Variable -> IntVector -> Object -> Ext -> (Z * Z * Z) * (Object * Ext);
  getCoarsenSchedules : string -> Object -> Ext -> list Pointer;
  getGhostfillRefineSchedules : string -> Object -> Ext -> list Pointer;
  (** INSHierarchyIntegrator *)
  INS_getNumberOfCycles : addr -> Ext -> Z;
  INS_getVelocityBoundaryConditions : addr -> Ext -> list Pointer;
  INS_getPressureBoundaryConditions : addr -> Ext -> list Pointer;
  (** IBStrategy *)
  IBStrategy_hasFluidSources : addr -> Ext -> bool;
  IBStrategy_getMinimumGhostCellWidth : addr -> Ext -> IntVector;
  IBStrategy_setupTagBuffer : addr -> list Z -> Pointer -> Ext -> list Z * Ext;
  (** PatchHierarchy, GriddingAlgorithm, Geometry *)
  PatchHierarchy_getFinestLevelNumber : addr -> Ext -> Z;
  PatchHierarchy_getGridGeometry : addr -> Ext -> Pointer;
  GriddingAlgorithm_getMaxLevels : addr -> Ext -> Z;
  Geometry_lookupCoarsenOperator : addr -> option hier_Variable -> string -> Ext -> Pointer;
  Geometry_lookupRefineOperator : addr -> option hier_Variable -> string -> Ext -> Pointer;
  (** HierarchyDataOpsManager, VariableDatabase, LMarkerUtilities *)
  getOperationsDouble : option hier_Variable -> Pointer -> bool -> Ext -> Pointer * Ext;
  registerVariableAndContext : option hier_Variable -> Pointer -> IntVector -> Ext -> Z * Ext;
  registerClonedPatchDataIndex : option hier_Variable -> Z -> Ext -> Z * Ext;
  mapVariableAndContextToIndex : option hier_Variable -> Pointer -> Ext -> Z;
  readMarkerPositions : list (list float) -> string -> Pointer -> Ext -> list (list float)
}.

(** State of the process that is not a member of any object: the
    function-local [static bool skip_check_for_dt_change] of
    [preprocessIntegrateHierarchy] ([None] until control first passes its
    declaration), what [RestartManager::getManager()->isFromRestart()]
    answers, and what was written to [pout]. *)
Record Process : Type := {
  skip_check_for_dt_change : option bool;
  isFromRestart : bool;
  pout : list string
}.

Section Integrator.
Context {X : Substrate}.

Record World : Type := { self : Object; proc : Process; ext : Ext }.

Definition IM := M World Diagnostic.

Definition set_self (s : Object) (w : World) : World :=
  {| self := s; proc := proc w; ext := ext w |}.
Definition set_proc (p : Process) (w : World) : World :=
  {| self := self w; proc := p; ext := ext w |}.
Definition set_ext (e : Ext) (w : World) : World :=
  {| self := self w; proc := proc w; ext := e |}.

(** [this->member] *)
Definition member {A} (f : Object -> A) : IM A := gets (fun w => f (self w)).
(** [this->member = v] *)
Definition assign (f : Object -> Object) : IM unit := modify (fun w => set_self (f (self w)) w).
(** [p->...] for a pointer [p] that may be null *)
Definition deref (p : Pointer) : IM addr :=
  match p with
  | Some a => ret a
  | None => undefined
  end.
Definition call (c : Call) : IM unit := modify (fun w => set_ext (invoke c (ext w)) w).
Definition query {A} (q : Ext -> A) : IM A := gets (fun w => q (ext w)).
Definition effect {A} (f : Ext -> A * Ext) : IM A :=
  fun w => let (a, e) := f (ext w) in Returned a (set_ext e w).
Definition new (c : Constructor) : IM Pointer :=
  a <- effect (construct c) ;; ret (Some a).
Definition base (c : BaseCall) : IM unit :=
  fun w => let (s, e) := base_invoke c (self w) (ext w) in Returned tt (set_ext e (set_self s w)).
(** [pout << msg] *)
Definition printed (msg : string) (w : World) : World :=
  set_proc {| skip_check_for_dt_change := skip_check_for_dt_change (proc w);
              isFromRestart := isFromRestart (proc w);
              pout := (pout (proc w) ++ [msg])%list |} w.
Definition print (msg : string) : IM unit := modify (printed msg).
(** [skip_check_for_dt_change = b] *)
Definition latched (b : bool) (w : World) : World :=
  set_proc {| skip_check_for_dt_change := Some b;
              isFromRestart := isFromRestart (proc w);
              pout := pout (proc w) |} w.

(** *** preprocessIntegrateHierarchy (lines 166-232) *)

(** Lines 171-175: the base class and the IB strategy. *)
Definition preprocess_dependencies (current_time new_time : float) (num_cycles : Z) : IM unit :=
  base (HierarchyIntegrator_preprocessIntegrateHierarchy current_time new_time num_cycles) ;;
  p <- member (fun s => pointer s d_ib_method_ops) ;;
  ops <- deref p ;;
  call (IBStrategy_preprocessIntegrateData ops current_time new_time num_cycles).

(** Line 180: [ins_num_cycles != d_current_num_cycles && d_current_num_cycles != 1]. *)
Definition cycles_mismatch (ins_num_cycles current_num_cycles : Z) : bool :=
  negb (ins_num_cycles =? current_num_cycles) && negb (current_num_cycles =? 1).

(** Lines 177-191: the Navier-Stokes integrator, when there is one. *)
Definition preprocess_ins (current_time new_time : float) : IM unit :=
  p <- member (fun s => pointer s d_ins_hier_integrator) ;;
  match p with
  | None => ret tt
  | Some ins =>
      ins_num_cycles <- query (INS_getNumberOfCycles ins) ;;
      cur <- member d_current_num_cycles ;;
      name <- member d_object_name ;;
      (if cycles_mismatch ins_num_cycles cur
       then TBOX_ERROR (CycleCountMismatch name cur ins_num_cycles)
       else ret tt) ;;
      call (INS_preprocessIntegrateHierarchy ins current_time new_time ins_num_cycles)
  end.

(** Lines 193-209: allocate Eulerian scratch and new data. *)
Definition allocate_level (h : addr) (current_time new_time : float) (ln : Z) : IM unit :=
  u_idx <- member (fun s => index s d_u_idx) ;;
  call (PatchLevel_allocatePatchData h ln (Index u_idx) current_time) ;;
  f_idx <- member (fun s => index s d_f_idx) ;;
  call (PatchLevel_allocatePatchData h ln (Index f_idx) current_time) ;;
  f_current_idx <- member (fun s => index s d_f_current_idx) ;;
  when (negb (f_current_idx =? invalid_index))
       (call (PatchLevel_allocatePatchData h ln (Index f_current_idx) current_time)) ;;
  p <- member (fun s => pointer s d_ib_method_ops) ;;
  ops <- deref p ;;
  has_sources <- query (IBStrategy_hasFluidSources ops) ;;
  when has_sources
       (p_idx <- member (fun s => index s d_p_idx) ;;
        call (PatchLevel_allocatePatchData h ln (Index p_idx) current_time) ;;
        q_idx <- member (fun s => index s d_q_idx) ;;
        call (PatchLevel_allocatePatchData h ln (Index q_idx) current_time)) ;;
  scratch <- member d_scratch_data ;;
  call (PatchLevel_allocatePatchData h ln (Components scratch) current_time) ;;
  new_data <- member d_new_data ;;
  call (PatchLevel_allocatePatchData h ln (Components new_data) new_time).

Definition allocate_eulerian_data (current_time new_time : float) : IM unit :=
  let coarsest_ln := 0 in
  p <- member (fun s => pointer s d_hierarchy) ;;
  h <- deref p ;;
  finest_ln <- query (PatchHierarchy_getFinestLevelNumber h) ;;
  for_each (levels coarsest_ln finest_ln) (allocate_level h current_time new_time).

(** Line 213: [static bool skip_check_for_dt_change = ...;].  The
    initialiser is evaluated the first time control passes the declaration;
    later passes only read the variable. *)
Definition static_skip_check_for_dt_change : IM bool :=
  fun w =>
    match skip_check_for_dt_change (proc w) with
    | Some b => Returned b w
    | None =>
        let b := rel_equal_eps (d_integrator_time (self w)) (d_start_time (self w))
                 || isFromRestart (proc w) in
        Returned b (latched b w)
    end.

Definition store_skip_check_for_dt_change (b : bool) : IM unit := modify (latched b).

(** [d_dt_previous[0]]: the front of a [std::deque<double>]. *)
Definition dt_previous_0 : IM float :=
  q <- member d_dt_previous ;;
  match q with
  | dt0 :: _ => ret dt0
  | [] => undefined
  end.

(** Lines 211-229: determine whether there has been a time step size change.
    [&&] evaluates its right operand only when the left one is true. *)
Definition check_dt_change (current_time new_time : float) : IM unit :=
  let dt := (new_time - current_time)%float in
  skip <- static_skip_check_for_dt_change ;;
  error_on <- member d_error_on_dt_change ;;
  warn_on <- member d_warn_on_dt_change ;;
  changed <-
    (if negb skip && (error_on || warn_on) then
       dt0 <- dt_previous_0 ;;
       if negb (rel_equal_eps dt dt0) then
         end_time <- member d_end_time ;;
         ret (negb (rel_equal_eps new_time end_time))
       else ret false
     else ret false) ;;
  when changed
       (name <- member d_object_name ;;
        (if error_on then TBOX_ERROR (TimeStepSizeChange name) else ret tt) ;;
        when warn_on (print (dt_change_warning name))) ;;
  store_skip_check_for_dt_change false.

Definition preprocessIntegrateHierarchy (current_time new_time : float) (num_cycles : Z) : IM unit :=
  preprocess_dependencies current_time new_time num_cycles ;;
  preprocess_ins current_time new_time ;;
  allocate_eulerian_data current_time new_time ;;
  check_dt_change current_time new_time.

(** The part of the function that runs before the time step check. *)
Definition preprocess_before_dt_check (current_time new_time : float) (num_cycles : Z) : IM unit :=
  preprocess_dependencies current_time new_time num_cycles ;;
  preprocess_ins current_time new_time ;;
  allocate_eulerian_data current_time new_time.

(** The value [skip_check_for_dt_change] has when line 215 reads it. *)
Definition skip_value (w : World) : bool :=
  match skip_check_for_dt_change (proc w) with
  | Some b => b
  | None => rel_equal_eps (d_integrator_time (self w)) (d_start_time (self w))
            || isFromRestart (proc w)
  end.

(** The condition of lines 215-216, for a deque with a front. *)
Definition dt_changed (current_time new_time : float) (w : World) : Prop :=
  skip_value w = false
  /\ (d_error_on_dt_change (self w) = true \/ d_warn_on_dt_change (self w) = true)
  /\ (exists dt0 rest,
         d_dt_previous (self w) = dt0 :: rest
         /\ rel_equal_eps (new_time - current_time)%float dt0 = false)
  /\ rel_equal_eps new_time (d_end_time (self w)) = false.

(** A computation that neither aborts nor touches the object or the process. *)
Definition quiet {A} (m : IM A) : Prop :=
  forall w,
    match m w with
    | Returned _ w' => self w' = self w /\ proc w' = proc w
    | Aborted _ _ => False
    | Undefined => True
    end.

(** *** initializeHierarchyIntegrator (lines 318-494) *)

(** [this->m->...]: read the pointer member [m] and dereference it. *)
Definition arrow (m : PointerMember) : IM addr :=
  p <- member (fun s => pointer s m) ;; deref p.
Definition var (m : VariableMember) : IM (option hier_Variable) :=
  member (fun s => variable s m).
Definition idx (m : IndexMember) : IM Z := member (fun s => index s m).
Definition ctx (m : ContextMember) : IM Pointer := member (fun s => context s m).

(** The class a [Pointer<Variable<NDIM> >] can be cast to. *)
Definition class_of (v : option hier_Variable) : option VariableClass :=
  match v with
  | Some x => Some (var_class x)
  | None => None
  end.

(** Lines 327-332. *)
Definition obtain_data_ops (hierarchy : Pointer) : IM unit :=
  u_var <- var d_u_var ;;
  ops <- effect (getOperationsDouble u_var hierarchy true) ;;
  assign (assign_pointer d_hier_velocity_data_ops ops) ;;
  p_var <- var d_p_var ;;
  ops <- effect (getOperationsDouble p_var hierarchy true) ;;
  assign (assign_pointer d_hier_pressure_data_ops ops) ;;
  ops <- effect (getOperationsDouble
                   (Some {| var_class := CellVariable_double; var_name := "cc_var" |})
                   hierarchy true) ;;
  assign (assign_pointer d_hier_cc_data_ops ops).

(** Lines 334-367. *)
Definition initialize_variables : IM unit :=
  ops <- arrow d_ib_method_ops ;;
  ib_ghosts <- query (IBStrategy_getMinimumGhostCellWidth ops) ;;
  let ghosts := repeat 1 NDIM in
  u_var <- var d_u_var ;;
  ib_context <- ctx d_ib_context ;;
  i <- effect (registerVariableAndContext u_var ib_context ib_ghosts) ;;
  assign (assign_index d_u_idx i) ;;
  f_var <- var d_f_var ;;
  ib_context <- ctx d_ib_context ;;
  i <- effect (registerVariableAndContext f_var ib_context ib_ghosts) ;;
  assign (assign_index d_f_idx i) ;;
  time_stepping_type <- member d_time_stepping_type ;;
  match time_stepping_type with
  | FORWARD_EULER | TRAPEZOIDAL_RULE =>
      f_var <- var d_f_var ;;
      f_idx <- idx d_f_idx ;;
      i <- effect (registerClonedPatchDataIndex f_var f_idx) ;;
      assign (assign_index d_f_current_idx i)
  | OTHER_TIME_STEPPING_TYPE =>
      assign (assign_index d_f_current_idx invalid_index)
  end ;;
  ops <- arrow d_ib_method_ops ;;
  has_sources <- query (IBStrategy_hasFluidSources ops) ;;
  (if has_sources then
     p_var <- var d_p_var ;;
     ib_context <- ctx d_ib_context ;;
     i <- effect (registerVariableAndContext p_var ib_context ib_ghosts) ;;
     assign (assign_index d_p_idx i) ;;
     q_var <- var d_q_var ;;
     ib_context <- ctx d_ib_context ;;
     i <- effect (registerVariableAndContext q_var ib_context ib_ghosts) ;;
     assign (assign_index d_q_idx i)
   else
     assign (assign_variable d_q_var None) ;;
     assign (assign_index d_q_idx invalid_index)) ;;
  mark_file_name <- member d_mark_file_name ;;
  when (negb (String.eqb mark_file_name ""))
       (name <- member d_object_name ;;
        assign (assign_variable d_mark_var
                  (Some {| var_class := LMarkerSetVariable; var_name := name ++ "::markers" |})) ;;
        mark_var <- var d_mark_var ;;
        t <- (fun w => let '(t, (s, e)) := registerVariable mark_var ghosts (self w) (ext w) in
                       Returned t (set_ext e (set_self s w))) ;;
        let '(current_idx, new_idx, scratch_idx) := t in
        assign (assign_index d_mark_current_idx current_idx) ;;
        assign (assign_index d_mark_new_idx new_idx) ;;
        assign (assign_index d_mark_scratch_idx scratch_idx)).

(** Lines 369-379. *)
Definition initialize_fluid_solver (hierarchy gridding_alg : Pointer) : IM unit :=
  ops <- arrow d_ib_method_ops ;;
  has_sources <- query (IBStrategy_hasFluidSources ops) ;;
  when has_sources
       (ins <- arrow d_ins_hier_integrator ;;
        fcn <- new new_IBEulerianSourceFunction ;;
        call (INS_registerFluidSourceFunction ins fcn)) ;;
  ins <- arrow d_ins_hier_integrator ;;
  call (INS_initializeHierarchyIntegrator ins hierarchy gridding_alg) ;;
  ops <- arrow d_ib_method_ops ;;
  call (IBStrategy_registerEulerianVariables ops) ;;
  ops <- arrow d_ib_method_ops ;;
  call (IBStrategy_registerEulerianCommunicationAlgorithms ops).

(** Lines 390-409: the physical boundary operator of the velocity. *)
Definition create_u_phys_bdry_op (u_scratch_idx : Z) : IM unit :=
  u_var <- var d_u_var ;;
  match class_of u_var with
  | Some CellVariable_double =>
      ins <- arrow d_ins_hier_integrator ;;
      bc <- query (INS_getVelocityBoundaryConditions ins) ;;
      op <- new (new_CartCellRobinPhysBdryOp u_scratch_idx bc false) ;;
      assign (assign_pointer d_u_phys_bdry_op op)
  | Some SideVariable_double =>
      ins <- arrow d_ins_hier_integrator ;;
      bc <- query (INS_getVelocityBoundaryConditions ins) ;;
      op <- new (new_CartSideRobinPhysBdryOp u_scratch_idx bc false) ;;
      assign (assign_pointer d_u_phys_bdry_op op)
  | _ => TBOX_ERROR UnsupportedVelocityCentering
  end.

(** [alg = new RefineAlgorithm; op = ...; alg->registerRefine(i, i, i, op)] *)
Definition refine_algorithm (alg_m op_m : PointerMember) (lookup : IM Pointer)
  (i_m : IndexMember) : IM unit :=
  alg <- new new_RefineAlgorithm ;;
  assign (assign_pointer alg_m alg) ;;
  op <- lookup ;;
  assign (assign_pointer op_m op) ;;
  a <- arrow alg_m ;;
  i <- idx i_m ;;
  op <- member (fun s => pointer s op_m) ;;
  call (RefineAlgorithm_registerRefine a i i i op).

(** [alg = new CoarsenAlgorithm; op = ...; alg->registerCoarsen(i, i, op)] *)
Definition coarsen_algorithm (alg_m op_m : PointerMember) (lookup : IM Pointer)
  (i_m : IndexMember) : IM unit :=
  alg <- new new_CoarsenAlgorithm ;;
  assign (assign_pointer alg_m alg) ;;
  op <- lookup ;;
  assign (assign_pointer op_m op) ;;
  a <- arrow alg_m ;;
  i <- idx i_m ;;
  op <- member (fun s => pointer s op_m) ;;
  call (CoarsenAlgorithm_registerCoarsen a i i op).

(** [grid_geom->lookupCoarsenOperator(var, name)] and
    [grid_geom->lookupRefineOperator(var, name)] *)
Definition lookupCoarsenOperator (grid_geom : Pointer) (v : VariableMember) (name : string)
  : IM Pointer :=
  g <- deref grid_geom ;;
  x <- var v ;;
  query (Geometry_lookupCoarsenOperator g x name).
Definition lookupRefineOperator (grid_geom : Pointer) (v : VariableMember) (name : string)
  : IM Pointer :=
  g <- deref grid_geom ;;
  x <- var v ;;
  query (Geometry_lookupRefineOperator g x name).

(** Lines 411-425: the communications algorithms of the velocity and the force. *)
Definition create_u_f_algorithms (grid_geom : Pointer) : IM unit :=
  refine_algorithm d_u_ghostfill_alg d_u_ghostfill_op (ret None) d_u_idx ;;
  name <- member d_object_name ;;
  alg <- member (fun s => pointer s d_u_ghostfill_alg) ;;
  bdry_op <- member (fun s => pointer s d_u_phys_bdry_op) ;;
  base (registerGhostfillRefineAlgorithm (name ++ "::u") alg bdry_op) ;;
  coarsen_algorithm d_u_coarsen_alg d_u_coarsen_op
    (lookupCoarsenOperator grid_geom d_u_var "CONSERVATIVE_COARSEN") d_u_idx ;;
  name <- member d_object_name ;;
  alg <- member (fun s => pointer s d_u_coarsen_alg) ;;
  base (registerCoarsenAlgorithm (name ++ "::u::CONSERVATIVE_COARSEN") alg) ;;
  refine_algorithm d_f_prolong_alg d_f_prolong_op
    (lookupRefineOperator grid_geom d_f_var "CONSERVATIVE_LINEAR_REFINE") d_f_idx ;;
  name <- member d_object_name ;;
  alg <- member (fun s => pointer s d_f_prolong_alg) ;;
  base (registerProlongRefineAlgorithm (name ++ "::f") alg).

(** Lines 427-458: the same for the pressure and the source, when the IB
    strategy has fluid sources. *)
Definition create_p_q_algorithms (grid_geom : Pointer) (p_scratch_idx : Z) : IM unit :=
  p_var <- var d_p_var ;;
  match class_of p_var with
  | Some CellVariable_double =>
      ins <- arrow d_ins_hier_integrator ;;
      bc <- query (INS_getPressureBoundaryConditions ins) ;;
      op <- new (new_CartCellRobinPhysBdryOp p_scratch_idx bc false) ;;
      assign (assign_pointer d_p_phys_bdry_op op)
  | _ => TBOX_ERROR UnsupportedPressureCentering
  end ;;
  refine_algorithm d_p_ghostfill_alg d_p_ghostfill_op (ret None) d_p_idx ;;
  name <- member d_object_name ;;
  alg <- member (fun s => pointer s d_p_ghostfill_alg) ;;
  bdry_op <- member (fun s => pointer s d_p_phys_bdry_op) ;;
  base (registerGhostfillRefineAlgorithm (name ++ "::p") alg bdry_op) ;;
  coarsen_algorithm d_p_coarsen_alg d_p_coarsen_op
    (lookupCoarsenOperator grid_geom d_p_var "CONSERVATIVE_COARSEN") d_p_idx ;;
  name <- member d_object_name ;;
  alg <- member (fun s => pointer s d_p_coarsen_alg) ;;
  base (registerCoarsenAlgorithm (name ++ "::p::CONSERVATIVE_COARSEN") alg) ;;
  refine_algorithm d_q_prolong_alg d_q_prolong_op
    (lookupRefineOperator grid_geom d_q_var "CONSERVATIVE_LINEAR_REFINE") d_q_idx ;;
  name <- member d_object_name ;;
  alg <- member (fun s => pointer s d_q_prolong_alg) ;;
  base (registerProlongRefineAlgorithm (name ++ "::q") alg).

(** Lines 460-472: the algorithm that fills instrumentation data. *)
Definition create_instrumentation_fill (grid_geom : Pointer)
  (u_new_idx u_scratch_idx p_new_idx p_scratch_idx : Z) : IM unit :=
  refine_alg <- new new_RefineAlgorithm ;;
  refine_op <- lookupRefineOperator grid_geom d_u_var "CONSERVATIVE_LINEAR_REFINE" ;;
  a <- deref refine_alg ;;
  call (RefineAlgorithm_registerRefine a u_scratch_idx u_new_idx u_scratch_idx refine_op) ;;
  refine_op <- lookupRefineOperator grid_geom d_p_var "LINEAR_REFINE" ;;
  a <- deref refine_alg ;;
  call (RefineAlgorithm_registerRefine a p_scratch_idx p_new_idx p_scratch_idx refine_op) ;;
  let instrumentation_data_fill_bc_idxs := [u_scratch_idx; p_scratch_idx] in
  refine_patch_bdry_op <- new (new_CartExtrapPhysBdryOp instrumentation_data_fill_bc_idxs "LINEAR") ;;
  name <- member d_object_name ;;
  base (registerGhostfillRefineAlgorithm (name ++ "::INSTRUMENTATION_DATA_FILL")
          refine_alg refine_patch_bdry_op).

(** Lines 381-472. *)
Definition create_communications_algorithms : IM unit :=
  h <- arrow d_hierarchy ;;
  grid_geom <- query (PatchHierarchy_getGridGeometry h) ;;
  u_var <- var d_u_var ;;
  c <- ctx d_new_context ;;
  u_new_idx <- query (mapVariableAndContextToIndex u_var c) ;;
  u_var <- var d_u_var ;;
  c <- ctx d_scratch_context ;;
  u_scratch_idx <- query (mapVariableAndContextToIndex u_var c) ;;
  p_var <- var d_p_var ;;
  c <- ctx d_new_context ;;
  p_new_idx <- query (mapVariableAndContextToIndex p_var c) ;;
  p_var <- var d_p_var ;;
  c <- ctx d_scratch_context ;;
  p_scratch_idx <- query (mapVariableAndContextToIndex p_var c) ;;
  create_u_phys_bdry_op u_scratch_idx ;;
  create_u_f_algorithms grid_geom ;;
  ops <- arrow d_ib_method_ops ;;
  has_sources <- query (IBStrategy_hasFluidSources ops) ;;
  when has_sources (create_p_q_algorithms grid_geom p_scratch_idx) ;;
  create_instrumentation_fill grid_geom u_new_idx u_scratch_idx p_new_idx p_scratch_idx.

(** Lines 474-478. *)
Definition read_marker_positions (hierarchy : Pointer) : IM unit :=
  mark_file_name <- member d_mark_file_name ;;
  when (negb (String.eqb mark_file_name ""))
       (h <- deref hierarchy ;;
        grid_geom <- query (PatchHierarchy_getGridGeometry h) ;;
        posns <- member d_mark_init_posns ;;
        mark_file_name <- member d_mark_file_name ;;
        posns <- query (readMarkerPositions posns mark_file_name grid_geom) ;;
        assign (set_d_mark_init_posns posns)).

(** [tbox::Array<int>]: [resizeArray] keeps the leading entries; the entries
    it adds are indeterminate in C++ and are written as 0 here, which is
    what the loop of line 484 stores in each of them before any is read.
    [n] is [getMaxLevels() - 1], which is not negative. *)
Definition resizeArray (n : Z) (a : list Z) : list Z :=
  (firstn (Z.to_nat n) a ++ repeat 0 (Z.to_nat n - List.length a)%nat)%list.

(** [a[i] = v] and [a[i]], for [i] within the array. *)
Fixpoint store (i : nat) (v : Z) (a : list Z) : list Z :=
  match a, i with
  | [], _ => []
  | _ :: a', O => v :: a'
  | x :: a', S i' => x :: store i' v a'
  end.
Definition at_index (i : Z) (a : list Z) : Z := nth (Z.to_nat i) a 0.

(** Lines 480-488: the values the tag buffer holds before [setupTagBuffer]. *)
Definition extend_tag_buffer (finest_hier_ln : Z) (tag_buffer : list Z) : list Z :=
  let tsize := Z.of_nat (List.length tag_buffer) in
  let b := resizeArray finest_hier_ln tag_buffer in
  let b := fold_left (fun b i => store (Z.to_nat i) 0 b)
                     (levels tsize (finest_hier_ln - 1)) b in
  fold_left (fun b i => store (Z.to_nat i) (at_index (i - 1) b) b)
            (levels (Z.max tsize 1) (Z.of_nat (List.length b) - 1)) b.

(** Lines 480-489. *)
Definition setup_tag_buffer (gridding_alg : Pointer) : IM unit :=
  g <- deref gridding_alg ;;
  max_levels <- query (GriddingAlgorithm_getMaxLevels g) ;;
  let finest_hier_ln := max_levels - 1 in
  tag_buffer <- member d_tag_buffer ;;
  assign (set_d_tag_buffer (extend_tag_buffer finest_hier_ln tag_buffer)) ;;
  ops <- arrow d_ib_method_ops ;;
  tag_buffer <- member d_tag_buffer ;;
  alg <- member (fun s => pointer s d_gridding_alg) ;;
  tag_buffer <- effect (IBStrategy_setupTagBuffer ops tag_buffer alg) ;;
  assign (set_d_tag_buffer tag_buffer).

Definition initializeHierarchyIntegrator (hierarchy gridding_alg : Pointer) : IM unit :=
  initialized <- member d_integrator_is_initialized ;;
  if initialized then ret tt
  else
    assign (assign_pointer d_hierarchy hierarchy) ;;
    assign (assign_pointer d_gridding_alg gridding_alg) ;;
    obtain_data_ops hierarchy ;;
    initialize_variables ;;
    initialize_fluid_solver hierarchy gridding_alg ;;
    create_communications_algorithms ;;
    read_marker_positions hierarchy ;;
    setup_tag_buffer gridding_alg ;;
    (* Indicate that the integrator has been initialized. *)
    assign (set_d_integrator_is_initialized true).

(** *** initializePatchHierarchy (lines 496-548) *)

Definition initializePatchHierarchy (hierarchy gridding_alg : Pointer) : IM unit :=
  initialized <- member d_hierarchy_is_initialized ;;
  if initialized then ret tt
  else
    (* Initialize Eulerian data. *)
    base (HierarchyIntegrator_initializePatchHierarchy hierarchy gridding_alg) ;;
    from_restart <- gets (fun w => isFromRestart (proc w)) ;;
    when from_restart
         (ops <- arrow d_ib_method_ops ;;
          h <- member (fun s => pointer s d_hierarchy) ;;
          g <- member (fun s => pointer s d_gridding_alg) ;;
          call (IBStrategy_beginDataRedistribution ops h g) ;;
          ops <- arrow d_ib_method_ops ;;
          h <- member (fun s => pointer s d_hierarchy) ;;
          g <- member (fun s => pointer s d_gridding_alg) ;;
          call (IBStrategy_endDataRedistribution ops h g)) ;;
    (* Initialize Lagrangian data on the patch hierarchy. *)
    let coarsest_ln := 0 in
    arg <- deref hierarchy ;;
    finest_ln <- query (PatchHierarchy_getFinestLevelNumber arg) ;;
    for_each (levels coarsest_ln finest_ln)
      (fun ln =>
         h <- arrow d_hierarchy ;;
         u_idx <- idx d_u_idx ;;
         time <- member d_integrator_time ;;
         call (PatchLevel_allocatePatchData h ln (Index u_idx) time) ;;
         scratch <- member d_scratch_data ;;
         time <- member d_integrator_time ;;
         call (PatchLevel_allocatePatchData h ln (Components scratch) time)) ;;
    u_var <- var d_u_var ;;
    c <- ctx d_current_context ;;
    u_current_idx <- query (mapVariableAndContextToIndex u_var c) ;;
    ops <- arrow d_hier_velocity_data_ops ;;
    u_idx <- idx d_u_idx ;;
    call (HierarchyDataOps_copyData ops u_idx u_current_idx) ;;
    time <- member d_integrator_time ;;
    start_time <- member d_start_time ;;
    let initial_time := rel_equal_eps time start_time in
    op <- arrow d_u_phys_bdry_op ;;
    u_idx <- idx d_u_idx ;;
    call (PhysBdryOp_setPatchDataIndex op u_idx) ;;
    op <- arrow d_u_phys_bdry_op ;;
    call (PhysBdryOp_setHomogeneousBc op false) ;;
    ops <- arrow d_ib_method_ops ;;
    u_idx <- idx d_u_idx ;;
    name <- member d_object_name ;;
    coarsen_scheds <- (fun w => Returned (getCoarsenSchedules (name ++ "::u::CONSERVATIVE_COARSEN")
                                            (self w) (ext w)) w) ;;
    name <- member d_object_name ;;
    ghostfill_scheds <- (fun w => Returned (getGhostfillRefineSchedules (name ++ "::u")
                                              (self w) (ext w)) w) ;;
    step <- member d_integrator_step ;;
    time <- member d_integrator_time ;;
    call (IBStrategy_initializePatchHierarchy ops hierarchy gridding_alg u_idx
            coarsen_scheds ghostfill_scheds step time initial_time) ;;
    for_each (levels coarsest_ln finest_ln)
      (fun ln =>
         h <- arrow d_hierarchy ;;
         u_idx <- idx d_u_idx ;;
         call (PatchLevel_deallocatePatchData h ln (Index u_idx)) ;;
         scratch <- member d_scratch_data ;;
         call (PatchLevel_deallocatePatchData h ln (Components scratch))) ;;
    (* Indicate that the hierarchy is initialized. *)
    assign (set_d_hierarchy_is_initialized true).

End Integrator.
(** *** A substrate that records

    For running the functions above on concrete worlds: the collaborators'
    state is the list of the calls made so far (latest first) and a counter
    for the addresses [new] hands out; every query has a fixed answer.  The
    base class stores [num_cycles] in [d_current_num_cycles] when it
    preprocesses; [rel_equal_eps a b] is [|a - b| <= eps * max (|a|, |b|)]
    with [eps] the square root of the machine epsilon. *)

Record Recorder : Type := { calls : list Call; next : addr }.

Definition sqrt_epsilon : float := 0x1p-26%float.

Definition recorded_rel_equal_eps (a b : float) : bool :=
  let m := if PrimFloat.ltb (PrimFloat.abs a) (PrimFloat.abs b)
           then PrimFloat.abs b else PrimFloat.abs a in
  PrimFloat.leb (PrimFloat.abs (a - b)) (sqrt_epsilon * m).

Definition recording (ins_num_cycles : Z) (has_fluid_sources : bool)
  (finest_level_number max_levels : Z) : Substrate :=
  {| Ext := Recorder;
     NDIM := 2;
     invalid_index := -1;
     rel_equal_eps := recorded_rel_equal_eps;
     invoke := fun c e => {| calls := c :: calls e; next := next e |};
     construct := fun _ e => (next e, {| calls := calls e; next := Pos.succ (next e) |});
     base_invoke := fun c s e =>
       match c with
       | HierarchyIntegrator_preprocessIntegrateHierarchy _ _ num_cycles =>
           (set_d_current_num_cycles num_cycles s, e)
       | _ => (s, e)
       end;
     registerVariable := fun _ _ s e => ((100, 101, 102), (s, e));
     getCoarsenSchedules := fun _ _ _ => [];
     getGhostfillRefineSchedules := fun _ _ _ => [];
     INS_getNumberOfCycles := fun _ _ => ins_num_cycles;
     INS_getVelocityBoundaryConditions := fun _ _ => [];
     INS_getPressureBoundaryConditions := fun _ _ => [];
     IBStrategy_hasFluidSources := fun _ _ => has_fluid_sources;
     IBStrategy_getMinimumGhostCellWidth := fun _ _ => [3; 3];
     IBStrategy_setupTagBuffer := fun _ tag_buffer _ e => (tag_buffer, e);
     PatchHierarchy_getFinestLevelNumber := fun _ _ => finest_level_number;
     PatchHierarchy_getGridGeometry := fun _ _ => Some 9%positive;
     GriddingAlgorithm_getMaxLevels := fun _ _ => max_levels;
     Geometry_lookupCoarsenOperator := fun _ _ _ _ => Some 10%positive;
     Geometry_lookupRefineOperator := fun _ _ _ _ => Some 11%positive;
     getOperationsDouble := fun _ _ _ e => (Some 12%positive, e);
     registerVariableAndContext := fun _ _ _ e => (Z.of_nat (List.length (calls e)) + 20, e);
     registerClonedPatchDataIndex := fun _ i e => (i + 50, e);
     mapVariableAndContextToIndex := fun v _ _ =>
       match v with
       | Some x => Z.of_nat (String.length (var_name x))
       | None => -1
       end;
     readMarkerPositions := fun posns _ _ _ => posns |}.

(** An integrator as its constructor leaves it, at time [t] of a run from
    [start] to [stop], with [dt_previous] the sizes of the steps taken. *)
Definition an_integrator (error_on_dt_change warn_on_dt_change : bool)
  (t start stop : float) (dt_previous : list float) : Object :=
  {| d_object_name := "IBHierarchyIntegrator";
     pointer := fun m =>
       match m with
       | d_ins_hier_integrator => Some 1%positive
       | d_ib_method_ops => Some 2%positive
       | d_hierarchy => Some 3%positive
       | d_gridding_alg => Some 4%positive
       | _ => None
       end;
     variable := fun m =>
       match m with
       | d_u_var => Some {| var_class := SideVariable_double; var_name := "u" |}
       | d_p_var => Some {| var_class := CellVariable_double; var_name := "p" |}
       | d_f_var => Some {| var_class := SideVariable_double; var_name := "f" |}
       | d_q_var => Some {| var_class := CellVariable_double; var_name := "q" |}
       | d_mark_var => None
       end;
     context := fun m =>
       match m with
       | d_current_context => Some 5%positive
       | d_scratch_context => Some 6%positive
       | d_new_context => Some 7%positive
       | d_ib_context => Some 8%positive
       end;
     index := fun _ => -1;
     d_integrator_is_initialized := false;
     d_hierarchy_is_initialized := false;
     d_error_on_dt_change := error_on_dt_change;
     d_warn_on_dt_change := warn_on_dt_change;
     d_time_stepping_type := OTHER_TIME_STEPPING_TYPE;
     d_integrator_time := t;
     d_start_time := start;
     d_end_time := stop;
     d_dt_previous := dt_previous;
     d_integrator_step := 0;
     d_current_num_cycles := 1;
     d_tag_buffer := [];
     d_scratch_data := [];
     d_new_data := [];
     d_mark_file_name := "";
     d_mark_init_posns := [] |}.

Definition a_world {X : Substrate} (s : Object) (skip : option bool) (from_restart : bool)
  (e : Ext) : World :=
  {| self := s;
     proc := {| skip_check_for_dt_change := skip; isFromRestart := from_restart; pout := [] |};
     ext := e |}.

Definition no_calls : Recorder := {| calls := []; next := 20%positive |}.

(** A Navier-Stokes solver that needs two cycles, on a two-level hierarchy. *)
Definition two_cycles : Substrate := recording 2 false 1 2.

(** The first step of a run from time 0 to time 10. *)
Definition first_step : @World two_cycles :=
  @a_world two_cycles (an_integrator true false 0 0 10 []) None false no_calls.

(** A later step of that run, after a step of size 0.25. *)
Definition later_step : @World two_cycles :=
  @a_world two_cycles (an_integrator true false 1 0 10 [0.25%float]) (Some false) false no_calls.

(** The world a call leaves, for worlds that are easier computed than written. *)
Definition world_of {A} (r : outcome (@World two_cycles) Diagnostic A)
  : @World two_cycles :=
  match r with
  | Returned _ w => w
  | Aborted _ w => w
  | Undefined => first_step
  end.

(** The process after the first step of [first_step], seen from a second
    integrator object that is itself at the start of its run. *)
Definition second_integrator : @World two_cycles :=
  set_self (an_integrator true false 0 0 10 [])
    (world_of (@preprocessIntegrateHierarchy two_cycles 0 0.5 2 first_step)).

(** A hierarchy with four levels at most and an IB strategy with fluid sources. *)
Definition with_sources : Substrate := recording 2 true 1 4.
Definition uninitialized : @World with_sources :=
  @a_world with_sources (an_integrator true false 0 0 10 []) None false no_calls.

Definition initialized : @World with_sources :=
  match @initializeHierarchyIntegrator with_sources (Some 3%positive) (Some 4%positive)
          uninitialized with
  | Returned _ w => w
  | _ => uninitialized
  end.

End IBHierarchyIntegrator.

(* ===================================================================== *)
(** ** AdvDiffConservativeMassTransportQuantityIntegrator
       (src/include/ibamr/AdvDiffConservativeMassTransportQuantityIntegrator.h) *)
(* ===================================================================== *)

Module AdvDiffConservativeMassTransportQuantityIntegrator.

Local Open Scope float_scope.

(** The header declares the member functions; their bodies are not among
    the repository's files here.  Every field, coefficient and grid spacing
    is declared [double]: a binary64 [float], with its rounding. *)

(** *** Patch data *)

(** [hier::Index<NDIM>], [hier::Box<NDIM>], [pdat::CellData<NDIM, double>]
    and [pdat::FaceData<NDIM, double>].  The face [(d, i)] is the one normal
    to axis [d] on the lower side of cell [i]; the face on the upper side of
    cell [i] is the lower face of the next cell along [d]. *)
Definition Index := list Z.
Record Box : Type := { lower : Index; upper : Index }.
Definition CellData := Index -> float.
Definition FaceData := nat -> Index -> float.

Fixpoint within (lo i hi : Index) : bool :=
  match lo, i, hi with
  | [], [], [] => true
  | l :: lo', x :: i', h :: hi' => (l <=? x)%Z && (x <=? h)%Z && within lo' i' hi'
  | _, _, _ => false
  end.
Definition contains (b : Box) (i : Index) : bool := within (lower b) i (upper b).

(** The cell next to [i] along axis [d]. *)
Fixpoint shift (d : nat) (i : Index) : Index :=
  match i, d with
  | [], _ => []
  | x :: i', O => (x + 1)%Z :: i'
  | x :: i', S d' => x :: shift d' i'
  end.

(** A face of a cell with the sign of its outward normal. *)
Definition SignedFace := (float * (nat * Index))%type.
Definition lower_face (d : nat) (i : Index) : SignedFace := (-1, (d, i)).
Definition upper_face (d : nat) (i : Index) : SignedFace := (1, (d, shift d i)).

(** Sums and products of doubles, accumulated from the left. *)
Definition sum (l : list float) : float := fold_left PrimFloat.add l 0.
Definition product (l : list float) : float := fold_left PrimFloat.mul l 1.

(** [l] without its entry at position [d]. *)
Fixpoint without (d : nat) (l : list float) : list float :=
  match l, d with
  | [], _ => []
  | _ :: l', O => l'
  | x :: l', S d' => x :: without d' l'
  end.

Section Patch.
(** The space dimension the library is compiled for. *)
Variable NDIM : nat.

(** Modelled from the spec: the faces of [sum_over_faces], along each axis
    the lower one, then the upper one. *)
Definition faces (i : Index) : list SignedFace :=
  flat_map (fun d => [lower_face d i; upper_face d i]) (seq 0 NDIM).

(** Modelled from the spec: [volume] and [face_area] of spec 4.2, for a
    cell with the grid spacings [dx]. *)
Definition volume (dx : list float) : float := product dx.
Definition face_area (d : nat) (dx : list float) : float := product (without d dx).

(** Modelled from the spec: the term of one face in the sum of spec 4.2,
    [normal_sign * U_face * rho_face * Cp_face * T_face * face_area], the
    products taken in the order written. *)
Definition flux_term (U_adv R_half T_half C_half : FaceData) (dx : list float)
  (f : SignedFace) : float :=
  let '(normal_sign, (d, j)) := f in
  normal_sign * U_adv d j * R_half d j * C_half d j * T_half d j * face_area d dx.

(** Modelled from the spec: the terms of the faces of cell [i]. *)
Definition summands (U_adv R_half T_half C_half : FaceData) (dx : list float) (i : Index)
  : list float :=
  map (flux_term U_adv R_half T_half C_half dx) (faces i).

(** Modelled from the spec: the body of [computeConvectiveDerivative] is not
    among the files.  Header, line 258: [div[rho_half*cp_half*u_adv*T_adv]];
    spec 4.2: [N_cell[i] = (1/volume) * sum_over_faces(normal_sign * U_face *
    rho_face * Cp_face * T_face * face_area)].  The result replaces [N_data]
    on the cells of [patch_box]; the argument [P_half_data], which neither
    the header nor the spec describes, is left out. *)
Definition computeConvectiveDerivative (N_data : CellData)
  (U_adv_data R_half_data T_half_data C_half_data : FaceData)
  (patch_box : Box) (dx : list float) : CellData :=
  fun i =>
    if contains patch_box i
    then 1 / volume dx * sum (summands U_adv_data R_half_data T_half_data C_half_data dx i)
    else N_data i.

End Patch.

(** *** The scenario of spec section 8

    One dimension, four cells of width 1 holding the densities 1, 1, 2, 2,
    velocity 1 on every face, and on every face the density of the cell
    upwind of it. *)
Definition step_density : CellData :=
  fun i => match i with
           | [k] => if (k <=? 1)%Z then 1 else 2
           | _ => 0
           end.
Definition unit_velocity : FaceData := fun _ _ => 1.
Definition upwind_density : FaceData :=
  fun _ j => match j with
             | [k] => step_density [(k - 1)%Z]
             | _ => 0
             end.
Definition four_cells : Box := {| lower := [0%Z]; upper := [3%Z] |}.

End AdvDiffConservativeMassTransportQuantityIntegrator.

(* ===================================================================== *)
(** ** The rest of IBHierarchyIntegrator.cpp *)
(* ===================================================================== *)

Module IBHierarchyIntegratorRest.
Import IBHierarchyIntegrator.

Local Open Scope string_scope.
Local Open Scope Z_scope.
Local Open Scope integrator_scope.

(** What a computation establishes from a world [w]: [Qr] of the value and
    the world it returns, [Qa] of the diagnostic and the world of an abort.
    Undefined behaviour establishes nothing. *)
Definition wp {W D A} (m : M W D A) (Qr : A -> W -> Prop) (Qa : D -> W -> Prop) (w : W)
  : Prop :=
  match m w with
  | Returned a w' => Qr a w'
  | Aborted d w' => Qa d w'
  | Undefined => True
  end.

(** A computation that, however it ends, leaves a world related by [R] to
    the one it started from.  [U] is what undefined behaviour has to
    establish: [True] leaves it out of the account, [False] excludes it. *)
Definition keeps {W D A} (U : Prop) (R : W -> W -> Prop) (m : M W D A) : Prop :=
  forall w,
    match m w with
    | Returned _ w' => R w w'
    | Aborted _ w' => R w w'
    | Undefined => U
    end.

(** Worlds with the same [f]. *)
Definition same {W B} (f : W -> B) (w w' : W) : Prop := f w' = f w.

(** *** More members *)

Definition set_d_error_on_dt_change (v : bool) (s : Object) : Object :=
  {| d_object_name := d_object_name s;
     pointer := pointer s;
     variable := variable s;
     context := context s;
     index := index s;
     d_integrator_is_initialized := d_integrator_is_initialized s;
     d_hierarchy_is_initialized := d_hierarchy_is_initialized s;
     d_error_on_dt_change := v;
     d_warn_on_dt_change := d_warn_on_dt_change s;
     d_time_stepping_type := d_time_stepping_type s;
     d_integrator_time := d_integrator_time s;
     d_start_time := d_start_time s;
     d_end_time := d_end_time s;
     d_dt_previous := d_dt_previous s;
     d_integrator_step := d_integrator_step s;
     d_current_num_cycles := d_current_num_cycles s;
     d_tag_buffer := d_tag_buffer s;
     d_scratch_data := d_scratch_data s;
     d_new_data := d_new_data s;
     d_mark_file_name := d_mark_file_name s;
     d_mark_init_posns := d_mark_init_posns s |}.

Definition set_d_warn_on_dt_change (v : bool) (s : Object) : Object :=
  {| d_object_name := d_object_name s;
     pointer := pointer s;
     variable := variable s;
     context := context s;
     index := index s;
     d_integrator_is_initialized := d_integrator_is_initialized s;
     d_hierarchy_is_initialized := d_hierarchy_is_initialized s;
     d_error_on_dt_change := d_error_on_dt_change s;
     d_warn_on_dt_change := v;
     d_time_stepping_type := d_time_stepping_type s;
     d_integrator_time := d_integrator_time s;
     d_start_time := d_start_time s;
     d_end_time := d_end_time s;
     d_dt_previous := d_dt_previous s;
     d_integrator_step := d_integrator_step s;
     d_current_num_cycles := d_current_num_cycles s;
     d_tag_buffer := d_tag_buffer s;
     d_scratch_data := d_scratch_data s;
     d_new_data := d_new_data s;
     d_mark_file_name := d_mark_file_name s;
     d_mark_init_posns := d_mark_init_posns s |}.

Definition set_d_time_stepping_type (v : TimeSteppingType) (s : Object) : Object :=
  {| d_object_name := d_object_name s;
     pointer := pointer s;
     variable := variable s;
     context := context s;
     index := index s;
     d_integrator_is_initialized := d_integrator_is_initialized s;
     d_hierarchy_is_initialized := d_hierarchy_is_initialized s;
     d_error_on_dt_change := d_error_on_dt_change s;
     d_warn_on_dt_change := d_warn_on_dt_change s;
     d_time_stepping_type := v;
     d_integrator_time := d_integrator_time s;
     d_start_time := d_start_time s;
     d_end_time := d_end_time s;
     d_dt_previous := d_dt_previous s;
     d_integrator_step := d_integrator_step s;
     d_current_num_cycles := d_current_num_cycles s;
     d_tag_buffer := d_tag_buffer s;
     d_scratch_data := d_scratch_data s;
     d_new_data := d_new_data s;
     d_mark_file_name := d_mark_file_name s;
     d_mark_init_posns := d_mark_init_posns s |}.

Definition set_d_mark_file_name (v : string) (s : Object) : Object :=
  {| d_object_name := d_object_name s;
     pointer := pointer s;
     variable := variable s;
     context := context s;
     index := index s;
     d_integrator_is_initialized := d_integrator_is_initialized s;
     d_hierarchy_is_initialized := d_hierarchy_is_initialized s;
     d_error_on_dt_change := d_error_on_dt_change s;
     d_warn_on_dt_change := d_warn_on_dt_change s;
     d_time_stepping_type := d_time_stepping_type s;
     d_integrator_time := d_integrator_time s;
     d_start_time := d_start_time s;
     d_end_time := d_end_time s;
     d_dt_previous := d_dt_previous s;
     d_integrator_step := d_integrator_step s;
     d_current_num_cycles := d_current_num_cycles s;
     d_tag_buffer := d_tag_buffer s;
     d_scratch_data := d_scratch_data s;
     d_new_data := d_new_data s;
     d_mark_file_name := v;
     d_mark_init_posns := d_mark_init_posns s |}.

Definition set_d_integrator_step (v : Z) (s : Object) : Object :=
  {| d_object_name := d_object_name s;
     pointer := pointer s;
     variable := variable s;
     context := context s;
     index := index s;
     d_integrator_is_initialized := d_integrator_is_initialized s;
     d_hierarchy_is_initialized := d_hierarchy_is_initialized s;
     d_error_on_dt_change := d_error_on_dt_change s;
     d_warn_on_dt_change := d_warn_on_dt_change s;
     d_time_stepping_type := d_time_stepping_type s;
     d_integrator_time := d_integrator_time s;
     d_start_time := d_start_time s;
     d_end_time := d_end_time s;
     d_dt_previous := d_dt_previous s;
     d_integrator_step := v;
     d_current_num_cycles := d_current_num_cycles s;
     d_tag_buffer := d_tag_buffer s;
     d_scratch_data := d_scratch_data s;
     d_new_data := d_new_data s;
     d_mark_file_name := d_mark_file_name s;
     d_mark_init_posns := d_mark_init_posns s |}.

(** The members of the integrator that the functions below use and [Object]
    does not have: the regridding criteria ([d_regrid_interval] is the base
    class's), the logging switch and the body force function. *)
Record Members : Type := {
  d_regrid_fluid_cfl_interval : float;
  d_regrid_structure_cfl_interval : float;
  d_regrid_fluid_cfl_estimate : float;
  d_regrid_structure_cfl_estimate : float;
  d_regrid_interval : Z;
  d_enable_logging : bool;
  d_body_force_fcn : Pointer
}.

Definition set_d_regrid_fluid_cfl_interval (v : float) (r : Members) : Members :=
  {| d_regrid_fluid_cfl_interval := v;
     d_regrid_structure_cfl_interval := d_regrid_structure_cfl_interval r;
     d_regrid_fluid_cfl_estimate := d_regrid_fluid_cfl_estimate r;
     d_regrid_structure_cfl_estimate := d_regrid_structure_cfl_estimate r;
     d_regrid_interval := d_regrid_interval r;
     d_enable_logging := d_enable_logging r;
     d_body_force_fcn := d_body_force_fcn r |}.

Definition set_d_regrid_interval (v : Z) (r : Members) : Members :=
  {| d_regrid_fluid_cfl_interval := d_regrid_fluid_cfl_interval r;
     d_regrid_structure_cfl_interval := d_regrid_structure_cfl_interval r;
     d_regrid_fluid_cfl_estimate := d_regrid_fluid_cfl_estimate r;
     d_regrid_structure_cfl_estimate := d_regrid_structure_cfl_estimate r;
     d_regrid_interval := v;
     d_enable_logging := d_enable_logging r;
     d_body_force_fcn := d_body_force_fcn r |}.

Definition set_d_regrid_structure_cfl_interval (v : float) (r : Members) : Members :=
  {| d_regrid_fluid_cfl_interval := d_regrid_fluid_cfl_interval r;
     d_regrid_structure_cfl_interval := v;
     d_regrid_fluid_cfl_estimate := d_regrid_fluid_cfl_estimate r;
     d_regrid_structure_cfl_estimate := d_regrid_structure_cfl_estimate r;
     d_regrid_interval := d_regrid_interval r;
     d_enable_logging := d_enable_logging r;
     d_body_force_fcn := d_body_force_fcn r |}.

Definition set_d_regrid_fluid_cfl_estimate (v : float) (r : Members) : Members :=
  {| d_regrid_fluid_cfl_interval := d_regrid_fluid_cfl_interval r;
     d_regrid_structure_cfl_interval := d_regrid_structure_cfl_interval r;
     d_regrid_fluid_cfl_estimate := v;
     d_regrid_structure_cfl_estimate := d_regrid_structure_cfl_estimate r;
     d_regrid_interval := d_regrid_interval r;
     d_enable_logging := d_enable_logging r;
     d_body_force_fcn := d_body_force_fcn r |}.

Definition set_d_regrid_structure_cfl_estimate (v : float) (r : Members) : Members :=
  {| d_regrid_fluid_cfl_interval := d_regrid_fluid_cfl_interval r;
     d_regrid_structure_cfl_interval := d_regrid_structure_cfl_interval r;
     d_regrid_fluid_cfl_estimate := d_regrid_fluid_cfl_estimate r;
     d_regrid_structure_cfl_estimate := v;
     d_regrid_interval := d_regrid_interval r;
     d_enable_logging := d_enable_logging r;
     d_body_force_fcn := d_body_force_fcn r |}.

Definition set_d_body_force_fcn (v : Pointer) (r : Members) : Members :=
  {| d_regrid_fluid_cfl_interval := d_regrid_fluid_cfl_interval r;
     d_regrid_structure_cfl_interval := d_regrid_structure_cfl_interval r;
     d_regrid_fluid_cfl_estimate := d_regrid_fluid_cfl_estimate r;
     d_regrid_structure_cfl_estimate := d_regrid_structure_cfl_estimate r;
     d_regrid_interval := d_regrid_interval r;
     d_enable_logging := d_enable_logging r;
     d_body_force_fcn := v |}.

(** *** atRegridPointSpecialized (lines 634-654) *)

(** [int] has 32 bits on the platforms the library is built for. *)
Definition INT_MIN : Z := - 2 ^ 31.
Definition INT_MAX : Z := 2 ^ 31 - 1.
Definition is_int (z : Z) : Prop := INT_MIN <= z <= INT_MAX.

(** [a % b] on [int]: the remainder of the division that truncates.  The
    behaviour is undefined, [None], when [b] is 0 and when the quotient is
    not an [int], which is the case of [INT_MIN % -1]. *)
Definition int_rem (a b : Z) : option Z :=
  if (b =? 0) || ((a =? INT_MIN) && (b =? -1)) then None else Some (Z.rem a b).

(** A [const] member function; [None] is undefined behaviour. *)
Definition atRegridPointSpecialized {X : Substrate} (s : Object) (r : Members) : option bool :=
  let initial_time := rel_equal_eps (d_integrator_time s) (d_start_time s) in
  if initial_time then Some true
  else if (0 <? d_regrid_fluid_cfl_interval r)%float
          || (0 <? d_regrid_structure_cfl_interval r)%float then
    (* Account for the use of -1.0 as a default value *)
    let regrid_fluid :=
      if (d_regrid_fluid_cfl_interval r =? -1)%float then false
      else (d_regrid_fluid_cfl_interval r <=? d_regrid_fluid_cfl_estimate r)%float in
    let regrid_structure :=
      if (d_regrid_structure_cfl_interval r =? -1)%float then false
      else (d_regrid_structure_cfl_interval r <=? d_regrid_structure_cfl_estimate r)%float in
    Some (regrid_fluid || regrid_structure)
  else if negb (d_regrid_interval r =? 0) then
    match int_rem (d_integrator_step s) (d_regrid_interval r) with
    | Some remainder => Some (remainder =? 0)
    | None => None
    end
  else Some false.

(** *** More of the substrate

    What the functions below call and [Substrate] does not have.  [NDEBUG]
    is the macro that removes the [TBOX_ASSERT]s. *)
Class Services {X : Substrate} : Type := {
  NDEBUG : bool;
  (** the cast to [Pointer<CartGridFunctionSet>] and the members of that class *)
  is_CartGridFunctionSet : addr -> Ext -> bool;
  new_CartGridFunctionSet : string -> Ext -> addr * Ext;
  CartGridFunctionSet_addFunction : addr -> Pointer -> Ext -> Ext;
  (** LMarkerUtilities *)
  collectMarkersOnPatchHierarchy : Z -> Pointer -> Ext -> Ext;
  pruneInvalidMarkers : Z -> Pointer -> Ext -> Ext;
  (** the base class, on this object *)
  updateWorkloadEstimates : Object -> Ext -> Object * Ext;
  HierarchyIntegrator_postprocessIntegrateHierarchy :
    float -> float -> bool -> Z -> Object -> Ext -> Object * Ext;
  (** IBStrategy and INSHierarchyIntegrator *)
  IBStrategy_postprocessIntegrateData : addr -> float -> float -> Z -> Ext -> Ext;
  IBStrategy_getMaxPointDisplacement : addr -> Ext -> float;
  INS_postprocessIntegrateHierarchy : addr -> float -> float -> bool -> Z -> Ext -> Ext;
  INS_getVelocityVariable : addr -> Ext -> option hier_Variable;
  INS_getNewContext : addr -> Ext -> Pointer;
  (** the patches of a level that [PatchLevel::Iterator] visits, the grid
      spacings of a patch, and [maxNorm] of its data of a given index when
      that data is cell-centred, respectively side-centred *)
  patches : addr -> Z -> Ext -> list addr;
  getDx : addr -> Ext -> list float;
  cell_maxNorm : addr -> Z -> Ext -> option float;
  side_maxNorm : addr -> Z -> Ext -> option float;
  (** [IBTK_MPI::maxReduction] *)
  maxReduction : float -> Ext -> float;
  (** [string_to_enum<TimeSteppingType>] and [enum_to_string<TimeSteppingType>] *)
  string_to_enum : string -> TimeSteppingType;
  enum_to_string : TimeSteppingType -> string
}.

(** What a [TBOX_ASSERT], a [TBOX_ERROR] of [getFromRestart], or the
    database itself reports. *)
Inductive Failure : Type :=
| FailedAssertion (expression : string)
| RestartDatabaseNotFound (object_name : string)
| RestartVersionMismatch (object_name : string)
| DatabaseFailure (key : string).

Definition failure_message (f : Failure) : string :=
  match f with
  | FailedAssertion e => "Failed assertion: " ++ e
  | RestartDatabaseNotFound name =>
      name ++ ":  Restart database corresponding to " ++ name
      ++ " not found in restart file." ++ nl
  | RestartVersionMismatch name =>
      name ++ ":  Restart file version different than class version." ++ nl
  | DatabaseFailure key => key
  end.

(** A line written to [plog]: text, or text followed by a [double]. *)
Inductive LogLine : Type :=
| Text (s : string)
| Number (s : string) (x : float).

Section Rest.
Context {X : Substrate} {Y : Services}.

(** The world of [IBHierarchyIntegrator], with the other members and [plog]. *)
Record XWorld : Type := { core : World; rest : Members; plog : list LogLine }.

Definition XM := M XWorld Failure.

Definition set_core (w : World) (x : XWorld) : XWorld :=
  {| core := w; rest := rest x; plog := plog x |}.
Definition set_rest (r : Members) (x : XWorld) : XWorld :=
  {| core := core x; rest := r; plog := plog x |}.
Definition logged (l : LogLine) (x : XWorld) : XWorld :=
  {| core := core x; rest := rest x; plog := (plog x ++ [l])%list |}.

(** [this->member], for the members of [Object] and the others. *)
Definition this {A} (f : Object -> A) : XM A := gets (fun x => f (self (core x))).
Definition this_rest {A} (f : Members -> A) : XM A := gets (fun x => f (rest x)).
Definition assign_this (f : Object -> Object) : XM unit :=
  modify (fun x => set_core (set_self (f (self (core x))) (core x)) x).
Definition assign_rest (f : Members -> Members) : XM unit :=
  modify (fun x => set_rest (f (rest x)) x).
Definition xderef (p : Pointer) : XM addr :=
  match p with
  | Some a => ret a
  | None => undefined
  end.
Definition this_arrow (m : PointerMember) : XM addr :=
  p <- this (fun s => pointer s m) ;; xderef p.
Definition xcall (f : Ext -> Ext) : XM unit :=
  modify (fun x => set_core (set_ext (f (ext (core x))) (core x)) x).
Definition xquery {A} (q : Ext -> A) : XM A := gets (fun x => q (ext (core x))).
Definition xeffect {A} (f : Ext -> A * Ext) : XM A :=
  fun x => let (a, e) := f (ext (core x)) in Returned a (set_core (set_ext e (core x)) x).
Definition xbase (f : Object -> Ext -> Object * Ext) : XM unit :=
  fun x => let (s, e) := f (self (core x)) (ext (core x)) in
           Returned tt (set_core (set_ext e (set_self s (core x))) x).
Definition xprint (msg : string) : XM unit := modify (fun x => set_core (printed msg (core x)) x).
Definition log (l : LogLine) : XM unit := modify (logged l).
(** [TBOX_ASSERT(b)], compiled in unless [NDEBUG] is defined. *)
Definition TBOX_ASSERT (b : bool) (expression : string) : XM unit :=
  if NDEBUG then ret tt
  else if b then ret tt else TBOX_ERROR (FailedAssertion expression).

(** *** registerBodyForceFunction (lines 100-127)

    [p_body_force_fcn] is a local [Pointer<CartGridFunctionSet>]: the cast
    of [d_body_force_fcn], which is null unless that function is a set. *)
Definition registerBodyForceFunction (f_fcn : Pointer) : XM unit :=
  initialized <- this d_integrator_is_initialized ;;
  TBOX_ASSERT (negb initialized) "!d_integrator_is_initialized" ;;
  body_force_fcn <- this_rest d_body_force_fcn ;;
  match body_force_fcn with
  | Some fcn =>
      is_set <- xquery (is_CartGridFunctionSet fcn) ;;
      p_body_force_fcn <-
        (if is_set then ret fcn
         else
           name <- this d_object_name ;;
           xprint (name ++ "::registerBodyForceFunction(): WARNING:" ++ nl
                   ++ "  body force function has already been set." ++ nl
                   ++ "  functions will be evaluated in the order in which they were registered "
                   ++ "with "
                   ++ "the solver" ++ nl
                   ++ "  when evaluating the body force term value." ++ nl) ;;
           name <- this d_object_name ;;
           set <- xeffect (new_CartGridFunctionSet (name ++ "::body_force_function_set")) ;;
           body_force_fcn <- this_rest d_body_force_fcn ;;
           xcall (CartGridFunctionSet_addFunction set body_force_fcn) ;;
           ret set) ;;
      xcall (CartGridFunctionSet_addFunction p_body_force_fcn f_fcn)
  | None => assign_rest (set_d_body_force_fcn f_fcn)
  end.

(** *** regridHierarchyBeginSpecialized and regridHierarchyEndSpecialized
        (lines 552-595) *)

Definition regridHierarchyBeginSpecialized : XM unit :=
  xbase updateWorkloadEstimates ;;
  mark_var <- this (fun s => variable s d_mark_var) ;;
  (match mark_var with
   | Some _ =>
       mark_current_idx <- this (fun s => index s d_mark_current_idx) ;;
       hierarchy <- this (fun s => pointer s d_hierarchy) ;;
       xcall (collectMarkersOnPatchHierarchy mark_current_idx hierarchy)
   | None => ret tt
   end) ;;
  enable_logging <- this_rest d_enable_logging ;;
  name <- this d_object_name ;;
  when enable_logging
       (log (Text (name ++ "::regridHierarchy(): starting Lagrangian data movement" ++ nl))) ;;
  ops <- this_arrow d_ib_method_ops ;;
  hierarchy <- this (fun s => pointer s d_hierarchy) ;;
  gridding_alg <- this (fun s => pointer s d_gridding_alg) ;;
  xcall (invoke (IBStrategy_beginDataRedistribution ops hierarchy gridding_alg)) ;;
  enable_logging <- this_rest d_enable_logging ;;
  name <- this d_object_name ;;
  when enable_logging
       (log (Text (name ++ "::regridHierarchy(): regridding the patch hierarchy" ++ nl))).

Definition regridHierarchyEndSpecialized : XM unit :=
  enable_logging <- this_rest d_enable_logging ;;
  name <- this d_object_name ;;
  when enable_logging
       (log (Text (name ++ "::regridHierarchy(): finishing Lagrangian data movement" ++ nl))) ;;
  ops <- this_arrow d_ib_method_ops ;;
  hierarchy <- this (fun s => pointer s d_hierarchy) ;;
  gridding_alg <- this (fun s => pointer s d_gridding_alg) ;;
  xcall (invoke (IBStrategy_endDataRedistribution ops hierarchy gridding_alg)) ;;
  mark_var <- this (fun s => variable s d_mark_var) ;;
  (match mark_var with
   | Some _ =>
       mark_current_idx <- this (fun s => index s d_mark_current_idx) ;;
       hierarchy <- this (fun s => pointer s d_hierarchy) ;;
       xcall (pruneInvalidMarkers mark_current_idx hierarchy)
   | None => ret tt
   end) ;;
  enable_logging <- this_rest d_enable_logging ;;
  when enable_logging (xbase updateWorkloadEstimates) ;;
  (* Reset the regrid CFL estimates. *)
  assign_rest (set_d_regrid_fluid_cfl_estimate 0) ;;
  assign_rest (set_d_regrid_structure_cfl_estimate 0).

(** *** postprocessIntegrateHierarchy (lines 234-316) *)

(** [std::max(a, b)]: [b] when [a < b], and [a] otherwise. *)
Definition std_max (a b : float) : float := if (a <? b)%float then b else a.

(** [*std::min_element(first, last)]: the first of the smallest elements,
    found with [<]; the range must not be empty. *)
Fixpoint min_from (smallest : float) (l : list float) : float :=
  match l with
  | [] => smallest
  | x :: l' => min_from (if (x <? smallest)%float then x else smallest) l'
  end.
Definition min_element (l : list float) : XM float :=
  match l with
  | [] => undefined
  | x :: l' => ret (min_from x l')
  end.

(** A loop that carries a local variable. *)
Fixpoint fold_each {A S} (l : list A) (body : S -> A -> XM S) (s : S) : XM S :=
  match l with
  | [] => ret s
  | a :: l' => s' <- body s a ;; fold_each l' body s'
  end.

(** Lines 246-259. *)
Definition deallocate_level (h : addr) (ln : Z) : XM unit :=
  u_idx <- this (fun s => index s d_u_idx) ;;
  xcall (invoke (PatchLevel_deallocatePatchData h ln (Index u_idx))) ;;
  f_idx <- this (fun s => index s d_f_idx) ;;
  xcall (invoke (PatchLevel_deallocatePatchData h ln (Index f_idx))) ;;
  f_current_idx <- this (fun s => index s d_f_current_idx) ;;
  when (negb (f_current_idx =? invalid_index))
       (xcall (invoke (PatchLevel_deallocatePatchData h ln (Index f_current_idx)))) ;;
  ops <- this_arrow d_ib_method_ops ;;
  has_sources <- xquery (IBStrategy_hasFluidSources ops) ;;
  when has_sources
       (p_idx <- this (fun s => index s d_p_idx) ;;
        xcall (invoke (PatchLevel_deallocatePatchData h ln (Index p_idx))) ;;
        q_idx <- this (fun s => index s d_q_idx) ;;
        xcall (invoke (PatchLevel_deallocatePatchData h ln (Index q_idx)))).

(** Lines 248-259: the loop. *)
Definition deallocate_levels (h : addr) (finest_ln : Z) : XM unit :=
  let coarsest_ln := 0 in
  for_each (levels coarsest_ln finest_ln) (deallocate_level h).

(** Lines 246-259 on their own. *)
Definition deallocate_eulerian_data : XM unit :=
  h <- this_arrow d_hierarchy ;;
  finest_ln <- xquery (PatchHierarchy_getFinestLevelNumber h) ;;
  deallocate_levels h finest_ln.

(** Lines 274-284: one patch of the loop that determines the CFL number.
    [dx] points to [NDIM] grid spacings. *)
Definition patch_cfl (u_new_idx : Z) (dt : float) (cfl_max : float) (patch : addr) : XM float :=
  dx <- xquery (getDx patch) ;;
  dx_min <- (if (List.length dx <? NDIM)%nat then undefined
             else min_element (firstn NDIM dx)) ;;
  u_cc_new_data <- xquery (cell_maxNorm patch u_new_idx) ;;
  u_sc_new_data <- xquery (side_maxNorm patch u_new_idx) ;;
  let u_max := 0%float in
  let u_max := match u_cc_new_data with Some norm => norm | None => u_max end in
  let u_max := match u_sc_new_data with Some norm => norm | None => u_max end in
  ret (std_max cfl_max (u_max * dt / dx_min)%float).

(** Lines 261-286: the CFL number of the patches of this process.
    [finest_ln] is the constant of line 247. *)
Definition local_cfl (finest_ln : Z) (current_time new_time : float) : XM float :=
  let coarsest_ln := 0 in
  ins <- this_arrow d_ins_hier_integrator ;;
  u_var <- xquery (INS_getVelocityVariable ins) ;;
  ins <- this_arrow d_ins_hier_integrator ;;
  new_context <- xquery (INS_getNewContext ins) ;;
  u_new_idx <- xquery (mapVariableAndContextToIndex u_var new_context) ;;
  let dt := (new_time - current_time)%float in
  fold_each (levels coarsest_ln finest_ln)
    (fun cfl_max ln =>
       h <- this_arrow d_hierarchy ;;
       level <- xquery (patches h ln) ;;
       fold_each level (patch_cfl u_new_idx dt) cfl_max)
    0%float.

Definition postprocessIntegrateHierarchy (current_time new_time : float)
  (skip_synchronize_new_state_data : bool) (num_cycles : Z) : XM unit :=
  (* postprocess the objects this class manages... *)
  ops <- this_arrow d_ib_method_ops ;;
  xcall (IBStrategy_postprocessIntegrateData ops current_time new_time num_cycles) ;;
  ins <- this_arrow d_ins_hier_integrator ;;
  ins_num_cycles <- xquery (INS_getNumberOfCycles ins) ;;
  xcall (INS_postprocessIntegrateHierarchy ins current_time new_time
           skip_synchronize_new_state_data ins_num_cycles) ;;
  h <- this_arrow d_hierarchy ;;
  finest_ln <- xquery (PatchHierarchy_getFinestLevelNumber h) ;;
  deallocate_levels h finest_ln ;;
  (* Determine the CFL number. *)
  cfl_max <- local_cfl finest_ln current_time new_time ;;
  cfl_max <- xquery (maxReduction cfl_max) ;;
  estimate <- this_rest d_regrid_fluid_cfl_estimate ;;
  assign_rest (set_d_regrid_fluid_cfl_estimate (estimate + cfl_max)%float) ;;
  interval <- this_rest d_regrid_structure_cfl_interval ;;
  when (negb (interval =? -1)%float)
       (ops <- this_arrow d_ib_method_ops ;;
        displacement <- xquery (IBStrategy_getMaxPointDisplacement ops) ;;
        assign_rest (set_d_regrid_structure_cfl_estimate displacement)) ;;
  enable_logging <- this_rest d_enable_logging ;;
  when enable_logging
       (name <- this d_object_name ;;
        log (Number (name ++ "::postprocessIntegrateHierarchy(): CFL number = ") cfl_max) ;;
        name <- this d_object_name ;;
        estimate <- this_rest d_regrid_fluid_cfl_estimate ;;
        log (Number (name ++ "::postprocessIntegrateHierarchy(): Eulerian estimate of "
                     ++ "upper bound on IB point displacement since last regrid = ")
               estimate) ;;
        interval <- this_rest d_regrid_structure_cfl_interval ;;
        when (negb (interval =? -1)%float)
             (name <- this d_object_name ;;
              estimate <- this_rest d_regrid_structure_cfl_estimate ;;
              log (Number (name ++ "::postprocessIntegrateHierarchy(): Lagrangian estimate of "
                           ++ "upper bound on IB point displacement since last regrid = ")
                     estimate))) ;;
  (* ... and postprocess our dependencies. *)
  xbase (HierarchyIntegrator_postprocessIntegrateHierarchy current_time new_time
           skip_synchronize_new_state_data num_cycles).

End Rest.

(** *** Databases

    [tbox::Database] belongs to SAMRAI: an interface.  A getter answers
    [None] when the database itself raises an error (no such key, or a
    value of another type).  The [put] functions give the database after the
    call. *)
Class DatabaseOps : Type := {
  Database : Type;
  keyExists : Database -> string -> bool;
  getInteger : Database -> string -> option Z;
  getDouble : Database -> string -> option float;
  getBool : Database -> string -> option bool;
  getString : Database -> string -> option string;
  isDatabase : Database -> string -> bool;
  getDatabase : Database -> string -> option Database;
  putInteger : string -> Z -> Database -> Database;
  putDouble : string -> float -> Database -> Database;
  putString : string -> string -> Database -> Database
}.

(** What is put under a key is what the getter of that type finds there,
    and a put under another key does not disturb it. *)
Class DatabaseLaws {DB : DatabaseOps} : Prop := {
  getInteger_putInteger : forall db k v, getInteger (putInteger k v db) k = Some v;
  getString_putString : forall db k v, getString (putString k v db) k = Some v;
  getDouble_putDouble : forall db k v, getDouble (putDouble k v db) k = Some v;
  getInteger_putString : forall db k k' v,
    k <> k' -> getInteger (putString k' v db) k = getInteger db k;
  getInteger_putDouble : forall db k k' v,
    k <> k' -> getInteger (putDouble k' v db) k = getInteger db k;
  getString_putDouble : forall db k k' v,
    k <> k' -> getString (putDouble k' v db) k = getString db k;
  getDouble_putDouble_other : forall db k k' v,
    k <> k' -> getDouble (putDouble k' v db) k = getDouble db k
}.

(** Version of IBHierarchyIntegrator restart file data (line 83). *)
Definition IB_HIERARCHY_INTEGRATOR_VERSION : Z := 2.

Section Configuration.
Context {X : Substrate} {Y : Services} {DB : DatabaseOps}.

(** [db->getX(key)] *)
Definition get {A} (getter : Database -> string -> option A) (db : Database) (key : string)
  : XM A :=
  match getter db key with
  | Some v => ret v
  | None => TBOX_ERROR (DatabaseFailure key)
  end.

(** *** getFromInput (lines 753-779) *)
Definition getFromInput (db : Database) (is_from_restart : bool) : XM unit :=
  when (keyExists db "regrid_cfl_interval")
       (v <- get getDouble db "regrid_cfl_interval" ;;
        assign_rest (set_d_regrid_fluid_cfl_interval v)) ;;
  when (keyExists db "regrid_fluid_cfl_interval")
       (v <- get getDouble db "regrid_fluid_cfl_interval" ;;
        assign_rest (set_d_regrid_fluid_cfl_interval v)) ;;
  when (keyExists db "regrid_structure_cfl_interval")
       (v <- get getDouble db "regrid_structure_cfl_interval" ;;
        assign_rest (set_d_regrid_structure_cfl_interval v)) ;;
  (if keyExists db "error_on_dt_change" then
     v <- get getBool db "error_on_dt_change" ;; assign_this (set_d_error_on_dt_change v)
   else if keyExists db "error_on_timestep_change" then
     v <- get getBool db "error_on_timestep_change" ;; assign_this (set_d_error_on_dt_change v)
   else if keyExists db "error_on_time_step_change" then
     v <- get getBool db "error_on_time_step_change" ;; assign_this (set_d_error_on_dt_change v)
   else ret tt) ;;
  (if keyExists db "warn_on_dt_change" then
     v <- get getBool db "warn_on_dt_change" ;; assign_this (set_d_warn_on_dt_change v)
   else if keyExists db "warn_on_time_step_change" then
     v <- get getBool db "warn_on_time_step_change" ;; assign_this (set_d_warn_on_dt_change v)
   else if keyExists db "warn_on_timestep_change" then
     v <- get getBool db "warn_on_timestep_change" ;; assign_this (set_d_warn_on_dt_change v)
   else ret tt) ;;
  (if keyExists db "time_stepping_type" then
     v <- get getString db "time_stepping_type" ;;
     assign_this (set_d_time_stepping_type (string_to_enum v))
   else if keyExists db "timestepping_type" then
     v <- get getString db "timestepping_type" ;;
     assign_this (set_d_time_stepping_type (string_to_enum v))
   else ret tt) ;;
  when (keyExists db "marker_file_name")
       (v <- get getString db "marker_file_name" ;; assign_this (set_d_mark_file_name v)).

(** The keys getFromInput asks the database for. *)
Definition getFromInput_keys : list string :=
  ["regrid_cfl_interval"; "regrid_fluid_cfl_interval"; "regrid_structure_cfl_interval";
   "error_on_dt_change"; "error_on_timestep_change"; "error_on_time_step_change";
   "warn_on_dt_change"; "warn_on_time_step_change"; "warn_on_timestep_change";
   "time_stepping_type"; "timestepping_type"; "marker_file_name"].

(** *** getFromRestart (lines 781-804)

    [restart_db] is what [RestartManager::getManager()->getRootDatabase()]
    returns. *)
Definition getFromRestart (restart_db : Database) : XM unit :=
  name <- this d_object_name ;;
  db <- (if isDatabase restart_db name then get getDatabase restart_db name
         else TBOX_ERROR (RestartDatabaseNotFound name)) ;;
  ver <- get getInteger db "IB_HIERARCHY_INTEGRATOR_VERSION" ;;
  (if negb (ver =? IB_HIERARCHY_INTEGRATOR_VERSION)
   then name <- this d_object_name ;; TBOX_ERROR (RestartVersionMismatch name)
   else ret tt) ;;
  v <- get getString db "d_time_stepping_type" ;;
  assign_this (set_d_time_stepping_type (string_to_enum v)) ;;
  v <- get getDouble db "d_regrid_fluid_cfl_estimate" ;;
  assign_rest (set_d_regrid_fluid_cfl_estimate v) ;;
  v <- get getDouble db "d_regrid_structure_cfl_estimate" ;;
  assign_rest (set_d_regrid_structure_cfl_estimate v).

(** *** putToDatabaseSpecialized (lines 734-742): the database it leaves. *)
Definition putToDatabaseSpecialized (s : Object) (r : Members) (db : Database) : Database :=
  let db := putInteger "IB_HIERARCHY_INTEGRATOR_VERSION" IB_HIERARCHY_INTEGRATOR_VERSION db in
  let db := putString "d_time_stepping_type" (enum_to_string (d_time_stepping_type s)) db in
  let db := putDouble "d_regrid_fluid_cfl_estimate" (d_regrid_fluid_cfl_estimate r) db in
  putDouble "d_regrid_structure_cfl_estimate" (d_regrid_structure_cfl_estimate r) db.

(** *** The constructor, lines 627-631: initialize the object with data
        read from the input and restart databases. *)
Definition configure (restart_db : Database) (input_db : option Database) : XM unit :=
  from_restart <- gets (fun x => isFromRestart (proc (core x))) ;;
  when from_restart (getFromRestart restart_db) ;;
  match input_db with
  | Some db => getFromInput db from_restart
  | None => ret tt
  end.

(** Databases that answer alike, to the calls getFromInput makes, under
    every key but [key]. *)
Definition agree_except (key : string) (db db' : Database) : Prop :=
  forall k, k <> key ->
    keyExists db' k = keyExists db k /\ getDouble db' k = getDouble db k
    /\ getBool db' k = getBool db k /\ getString db' k = getString db k.

(** Worlds that differ at most in the members getFromInput writes. *)
Definition configured (x x' : XWorld) : Prop :=
  (exists e w t m,
      self (core x')
      = set_d_error_on_dt_change e
          (set_d_warn_on_dt_change w
             (set_d_time_stepping_type t (set_d_mark_file_name m (self (core x))))))
  /\ (exists f s,
         rest x' = set_d_regrid_fluid_cfl_interval f
                     (set_d_regrid_structure_cfl_interval s (rest x)))
  /\ proc (core x') = proc (core x) /\ ext (core x') = ext (core x) /\ plog x' = plog x.

End Configuration.

(** *** A database for examples: values under keys, the first entry of a
        key being the one that counts, and databases under names. *)
Inductive Value : Type :=
| VInteger (z : Z)
| VDouble (x : float)
| VBool (b : bool)
| VString (s : string).

Record Entries : Type := {
  values : list (string * Value);
  databases : list (string * list (string * Value))
}.

Fixpoint lookup {A} (l : list (string * A)) (key : string) : option A :=
  match l with
  | [] => None
  | (k, v) :: l' => if String.eqb k key then Some v else lookup l' key
  end.

Definition with_value (key : string) (v : Value) (db : Entries) : Entries :=
  {| values := (key, v) :: values db; databases := databases db |}.

Definition entries : DatabaseOps :=
  {| Database := Entries;
     keyExists := fun db k =>
       match lookup (values db) k, lookup (databases db) k with
       | None, None => false
       | _, _ => true
       end;
     getInteger := fun db k =>
       match lookup (values db) k with Some (VInteger z) => Some z | _ => None end;
     getDouble := fun db k =>
       match lookup (values db) k with Some (VDouble x) => Some x | _ => None end;
     getBool := fun db k =>
       match lookup (values db) k with Some (VBool b) => Some b | _ => None end;
     getString := fun db k =>
       match lookup (values db) k with Some (VString s) => Some s | _ => None end;
     isDatabase := fun db k =>
       match lookup (databases db) k with Some _ => true | None => false end;
     getDatabase := fun db k =>
       match lookup (databases db) k with
       | Some d => Some {| values := d; databases := [] |}
       | None => None
       end;
     putInteger := fun k v => with_value k (VInteger v);
     putDouble := fun k v => with_value k (VDouble v);
     putString := fun k v => with_value k (VString v) |}.

(** Services for examples: no assertions compiled out, one patch per level
    with grid spacings 0.5 and 0.25 and side-centred velocity of norm 2, and
    the names of the enumerators as their strings. *)
Definition simple_services (X : Substrate) : @Services X :=
  {| NDEBUG := false;
     is_CartGridFunctionSet := fun _ _ => false;
     new_CartGridFunctionSet := fun _ e => (99%positive, e);
     CartGridFunctionSet_addFunction := fun _ _ e => e;
     collectMarkersOnPatchHierarchy := fun _ _ e => e;
     pruneInvalidMarkers := fun _ _ e => e;
     updateWorkloadEstimates := fun s e => (s, e);
     HierarchyIntegrator_postprocessIntegrateHierarchy := fun _ _ _ _ s e => (s, e);
     IBStrategy_postprocessIntegrateData := fun _ _ _ _ e => e;
     IBStrategy_getMaxPointDisplacement := fun _ _ => 0%float;
     INS_postprocessIntegrateHierarchy := fun _ _ _ _ _ e => e;
     INS_getVelocityVariable := fun _ _ =>
       Some {| var_class := SideVariable_double; var_name := "u" |};
     INS_getNewContext := fun _ _ => Some 7%positive;
     patches := fun _ ln _ => [Pos.of_nat (Z.to_nat ln + 30)];
     getDx := fun _ _ => [0.5%float; 0.25%float];
     cell_maxNorm := fun _ _ _ => None;
     side_maxNorm := fun _ _ _ => Some 2%float;
     maxReduction := fun x _ => x;
     string_to_enum := fun s =>
       if String.eqb s "FORWARD_EULER" then FORWARD_EULER
       else if String.eqb s "TRAPEZOIDAL_RULE" then TRAPEZOIDAL_RULE
       else OTHER_TIME_STEPPING_TYPE;
     enum_to_string := fun t =>
       match t with
       | FORWARD_EULER => "FORWARD_EULER"
       | TRAPEZOIDAL_RULE => "TRAPEZOIDAL_RULE"
       | OTHER_TIME_STEPPING_TYPE => "UNKNOWN_TIME_STEPPING_TYPE"
       end |}.

(** Members as the class declares them: both CFL criteria off. *)
Definition default_members : Members :=
  {| d_regrid_fluid_cfl_interval := (-1)%float;
     d_regrid_structure_cfl_interval := (-1)%float;
     d_regrid_fluid_cfl_estimate := 0%float;
     d_regrid_structure_cfl_estimate := 0%float;
     d_regrid_interval := 0;
     d_enable_logging := false;
     d_body_force_fcn := None |}.

(** The call that undoes an allocation of the patch data of an index. *)
Definition released (c : Call) : list Call :=
  match c with
  | PatchLevel_allocatePatchData h ln (Index i) _ =>
      [PatchLevel_deallocatePatchData h ln (Index i)]
  | _ => []
  end.

(** The calls a recorder has taken down since [e]. *)
Definition since (e e' : Recorder) (added : list Call) : Prop :=
  calls e' = (added ++ calls e)%list /\ next e' = next e.

(** An integrator past its start time that regrids by the fluid CFL
    criterion alone, with an estimate above the interval; the same with a
    structure CFL interval of -2.0; one at step 6 that regrids every third
    step; one on which a body force function is registered; one without a
    Navier-Stokes integrator. *)
Definition regridding : @XWorld two_cycles :=
  {| core := later_step;
     rest := set_d_regrid_fluid_cfl_estimate 0.75
               (set_d_regrid_fluid_cfl_interval 0.5 default_members);
     plog := [] |}.

Definition misconfigured : @XWorld two_cycles :=
  set_rest (set_d_regrid_structure_cfl_interval (-2) (rest regridding)) regridding.

Definition at_step_6 : Object := set_d_integrator_step 6 (self later_step).
Definition every_third_step : Members := set_d_regrid_interval 3 default_members.

Definition with_body_force : @XWorld two_cycles :=
  {| core := first_step;
     rest := set_d_body_force_fcn (Some 50%positive) default_members;
     plog := [] |}.

Definition without_fluid_solver : @XWorld two_cycles :=
  {| core := set_self (assign_pointer d_ins_hier_integrator None (self first_step)) first_step;
     rest := default_members;
     plog := [] |}.

(** The world a call leaves, for worlds that are easier computed than written. *)
Definition xworld_of {A} (r : outcome (@XWorld two_cycles) Failure A) : @XWorld two_cycles :=
  match r with
  | Returned _ x => x
  | Aborted _ x => x
  | Undefined => regridding
  end.

(** Input databases: one with both names of the fluid CFL interval and of
    the time stepping type, and one with other keys only. *)
Definition both_names : Entries :=
  {| values := [("regrid_cfl_interval", VDouble 0.25);
                ("regrid_fluid_cfl_interval", VDouble 0.5);
                ("timestepping_type", VString "FORWARD_EULER");
                ("time_stepping_type", VString "TRAPEZOIDAL_RULE")];
     databases := [] |}.

(** [both_names] with a number under the older name of the time stepping
    type. *)
Definition mistyped_alias : Entries :=
  with_value "timestepping_type" (VDouble 1) both_names.

Definition other_keys : Entries :=
  {| values := [("delta_fcn", VString "IB_4"); ("enable_logging", VBool true)];
     databases := [] |}.

(** A restart file: what putToDatabaseSpecialized writes for an integrator
    that uses the forward Euler scheme and has the estimates of
    [regridding], under the name of the object. *)
Definition saved : Entries :=
  @putToDatabaseSpecialized two_cycles (simple_services two_cycles) entries
    (set_d_time_stepping_type FORWARD_EULER (self later_step)) (rest regridding)
    {| values := []; databases := [] |}.

Definition restart_file : Entries :=
  {| values := []; databases := [("IBHierarchyIntegrator", values saved)] |}.

(** A newly constructed integrator of a restarted run. *)
Definition restarted : @XWorld two_cycles :=
  {| core := @a_world two_cycles (an_integrator true false 1 0 10 [0.25%float]) None true
               no_calls;
     rest := default_members;
     plog := [] |}.

End IBHierarchyIntegratorRest.

(* ===================================================================== *)
(** ** Properties of IBHierarchyIntegrator *)
(* ===================================================================== *)

Section IBHierarchyIntegratorProperties.
Import IBHierarchyIntegrator.
Local Open Scope Z_scope.
Local Open Scope integrator_scope.
Context {X : Substrate}.

(** *** Computations that neither abort nor touch the object or the process *)

Lemma quiet_ret {A} (a : A) : quiet (ret a).
Proof. intro w; simpl; auto. Qed.

Lemma quiet_undefined {A} : quiet (@undefined World Diagnostic A).
Proof. intro w; exact I. Qed.

Lemma quiet_bind {A B} (m : IM A) (k : A -> IM B) :
  quiet m -> (forall a, quiet (k a)) -> quiet (bind m k).
Proof.
  intros Hm Hk w. unfold bind. specialize (Hm w).
  destruct (m w) as [a w1 | d w1 | ]; auto.
  destruct Hm as [Hs Hp]. specialize (Hk a w1).
  destruct (k a w1) as [b w2 | d w2 | ]; auto.
  destruct Hk; split; congruence.
Qed.

Lemma quiet_member {A} (f : Object -> A) : quiet (member f).
Proof. intro w; simpl; auto. Qed.

Lemma quiet_query {A} (q : Ext -> A) : quiet (query q).
Proof. intro w; simpl; auto. Qed.

Lemma quiet_call (c : Call) : quiet (call c).
Proof. intro w; simpl; auto. Qed.

Lemma quiet_deref (p : Pointer) : quiet (deref p).
Proof. destruct p; [apply quiet_ret | apply quiet_undefined]. Qed.

Lemma quiet_when (b : bool) (m : IM unit) : quiet m -> quiet (when b m).
Proof. destruct b; simpl; auto using quiet_ret. Qed.

Lemma quiet_for_each {A} (l : list A) (body : A -> IM unit) :
  (forall a, quiet (body a)) -> quiet (for_each l body).
Proof.
  intro Hb. induction l as [| a l IH]; simpl.
  - apply quiet_ret.
  - apply quiet_bind; auto.
Qed.

Create HintDb quiet.
#[local] Hint Resolve quiet_ret quiet_undefined quiet_member quiet_query quiet_call
  quiet_deref quiet_when quiet_for_each : quiet.

Ltac quiet_steps :=
  repeat first [ apply quiet_bind; [ | intro ]
               | apply quiet_when
               | solve [ auto with quiet ] ].

Lemma allocate_level_quiet h ct nt ln : quiet (allocate_level h ct nt ln).
Proof. unfold allocate_level. quiet_steps. Qed.

Lemma allocate_eulerian_data_quiet ct nt : quiet (allocate_eulerian_data ct nt).
Proof.
  unfold allocate_eulerian_data. quiet_steps.
  apply quiet_for_each. intro. apply allocate_level_quiet.
Qed.

(** *** The blocks of preprocessIntegrateHierarchy *)

Lemma cycles_mismatch_iff ins cur :
  cycles_mismatch ins cur = true <-> ins <> cur /\ cur <> 1.
Proof.
  unfold cycles_mismatch. rewrite andb_true_iff, !negb_true_iff, !Z.eqb_neq. tauto.
Qed.

Lemma preprocess_ins_present ct nt w ins :
  pointer (self w) d_ins_hier_integrator = Some ins ->
  preprocess_ins ct nt w =
    if cycles_mismatch (INS_getNumberOfCycles ins (ext w)) (d_current_num_cycles (self w))
    then Aborted (CycleCountMismatch (d_object_name (self w))
                    (d_current_num_cycles (self w)) (INS_getNumberOfCycles ins (ext w))) w
    else Returned tt
           (set_ext (invoke (INS_preprocessIntegrateHierarchy ins ct nt
                               (INS_getNumberOfCycles ins (ext w))) (ext w)) w).
Proof.
  intro Hp. unfold preprocess_ins, bind, member, gets, query. simpl.
  rewrite Hp. simpl.
  destruct (cycles_mismatch (INS_getNumberOfCycles ins (ext w))
              (d_current_num_cycles (self w))); reflexivity.
Qed.

Lemma preprocess_ins_absent ct nt w :
  pointer (self w) d_ins_hier_integrator = None ->
  preprocess_ins ct nt w = Returned tt w.
Proof.
  intro Hp. unfold preprocess_ins, bind, member, gets. simpl. rewrite Hp. reflexivity.
Qed.

(** What the check does, case by case. *)
Lemma check_dt_change_cases ct nt w :
  let s := self w in
  check_dt_change ct nt w =
    if negb (skip_value w) && (d_error_on_dt_change s || d_warn_on_dt_change s) then
      match d_dt_previous s with
      | [] => Undefined
      | dt0 :: _ =>
          if negb (rel_equal_eps (nt - ct)%float dt0)
             && negb (rel_equal_eps nt (d_end_time s)) then
            if d_error_on_dt_change s
            then Aborted (TimeStepSizeChange (d_object_name s)) (latched false w)
            else Returned tt (latched false (printed (dt_change_warning (d_object_name s)) w))
          else Returned tt (latched false w)
      end
    else Returned tt (latched false w).
Proof.
  destruct w as [s [k r o] e].
  destruct k as [[|] |];
    cbv [check_dt_change bind member gets dt_previous_0 ret when TBOX_ERROR undefined print
         modify store_skip_check_for_dt_change static_skip_check_for_dt_change skip_value
         latched printed set_proc set_self set_ext];
    cbn [self proc ext skip_check_for_dt_change isFromRestart pout negb andb];
    [ reflexivity | | destruct (rel_equal_eps (d_integrator_time s) (d_start_time s)), r;
                      cbn [negb andb orb]; try reflexivity ];
    (destruct (d_error_on_dt_change s), (d_warn_on_dt_change s);
     cbn [orb self]; try reflexivity;
     (destruct (d_dt_previous s) as [| dt0 rest]; [reflexivity |];
      destruct (rel_equal_eps (nt - ct)%float dt0); cbn [negb andb self]; [reflexivity |];
      destruct (rel_equal_eps nt (d_end_time s)); reflexivity)).
Qed.

(** *** preprocessIntegrateHierarchy, block by block *)

Lemma preprocess_split ct nt nc w :
  preprocessIntegrateHierarchy ct nt nc w =
    match preprocess_before_dt_check ct nt nc w with
    | Returned _ w3 => check_dt_change ct nt w3
    | Aborted d w' => Aborted d w'
    | Undefined => Undefined
    end.
Proof.
  unfold preprocessIntegrateHierarchy, preprocess_before_dt_check, bind.
  destruct (preprocess_dependencies ct nt nc w) as [[] w1 | d w1 | ]; try reflexivity.
  destruct (preprocess_ins ct nt w1) as [[] w2 | d w2 | ]; reflexivity.
Qed.

Lemma before_dt_check_with_ins ct nt nc w w1 ins :
  preprocess_dependencies ct nt nc w = Returned tt w1 ->
  pointer (self w1) d_ins_hier_integrator = Some ins ->
  preprocess_before_dt_check ct nt nc w =
    if cycles_mismatch (INS_getNumberOfCycles ins (ext w1)) (d_current_num_cycles (self w1))
    then Aborted (CycleCountMismatch (d_object_name (self w1))
                    (d_current_num_cycles (self w1)) (INS_getNumberOfCycles ins (ext w1))) w1
    else allocate_eulerian_data ct nt
           (set_ext (invoke (INS_preprocessIntegrateHierarchy ins ct nt
                               (INS_getNumberOfCycles ins (ext w1))) (ext w1)) w1).
Proof.
  intros Hd Hp. unfold preprocess_before_dt_check, bind. rewrite Hd.
  rewrite (preprocess_ins_present ct nt w1 ins Hp).
  destruct (cycles_mismatch _ _); reflexivity.
Qed.

(** The only diagnostic the time step check aborts with. *)
Lemma check_dt_change_aborts ct nt w d w' :
  check_dt_change ct nt w = Aborted d w' ->
  d = TimeStepSizeChange (d_object_name (self w))
  /\ w' = latched false w
  /\ d_error_on_dt_change (self w) = true
  /\ dt_changed ct nt w.
Proof.
  rewrite check_dt_change_cases. unfold dt_changed.
  destruct (skip_value w); simpl; [discriminate |].
  destruct (d_error_on_dt_change (self w)) eqn:He, (d_warn_on_dt_change (self w)) eqn:Hw;
    simpl; try discriminate;
    (destruct (d_dt_previous (self w)) as [| dt0 rest]; [discriminate |];
     destruct (rel_equal_eps (nt - ct)%float dt0) eqn:Hdt; simpl; [discriminate |];
     destruct (rel_equal_eps nt (d_end_time (self w))) eqn:Hend; simpl; [discriminate |];
     intro H; inversion H; subst; repeat split; eauto).
Qed.

(** What the time step check leaves when it returns. *)
Lemma check_dt_change_returns ct nt w w' :
  check_dt_change ct nt w = Returned tt w' ->
  w' = latched false w
  \/ (w' = latched false (printed (dt_change_warning (d_object_name (self w))) w)
      /\ d_error_on_dt_change (self w) = false
      /\ d_warn_on_dt_change (self w) = true
      /\ dt_changed ct nt w).
Proof.
  rewrite check_dt_change_cases. unfold dt_changed.
  destruct (skip_value w); simpl; [intro H; inversion H; auto |].
  destruct (d_error_on_dt_change (self w)) eqn:He, (d_warn_on_dt_change (self w)) eqn:Hw;
    simpl; try (intro H; inversion H; auto; fail);
    (destruct (d_dt_previous (self w)) as [| dt0 rest]; [discriminate |];
     destruct (rel_equal_eps (nt - ct)%float dt0) eqn:Hdt; simpl;
       [intro H; inversion H; auto |];
     destruct (rel_equal_eps nt (d_end_time (self w))) eqn:Hend; simpl;
       [intro H; inversion H; auto |];
     intro H; inversion H; subst; try discriminate; right; repeat split; eauto).
Qed.

(** *** The cycle count check *)

(** C7, as amended.  Take a call of [preprocessIntegrateHierarchy] whose
    dependencies (base class, IB strategy) have been preprocessed, leaving
    the world [w1], and whose Navier-Stokes integrator is present.  The call
    aborts with the cycle count diagnostic exactly when the number of cycles
    of the Navier-Stokes solver differs from [d_current_num_cycles] and
    [d_current_num_cycles] is not 1.  The process is then aborted in [w1]
    itself: what the dependencies did is kept, and nothing later in the
    function has run.  Every abort of the call is this one or the one of the
    time step size check. *)
Theorem cycle_count_abort ct nt nc w w1 ins :
  preprocess_dependencies ct nt nc w = Returned tt w1 ->
  pointer (self w1) d_ins_hier_integrator = Some ins ->
  let ins_num_cycles := INS_getNumberOfCycles ins (ext w1) in
  let cur := d_current_num_cycles (self w1) in
  let diagnostic := CycleCountMismatch (d_object_name (self w1)) cur ins_num_cycles in
  ((exists w', preprocessIntegrateHierarchy ct nt nc w = Aborted diagnostic w')
   <-> ins_num_cycles <> cur /\ cur <> 1)
  /\ (ins_num_cycles <> cur /\ cur <> 1 ->
      preprocessIntegrateHierarchy ct nt nc w = Aborted diagnostic w1)
  /\ (forall d w',
        preprocessIntegrateHierarchy ct nt nc w = Aborted d w' ->
        (d = diagnostic /\ w' = w1)
        \/ (exists w3, d = TimeStepSizeChange (d_object_name (self w3))
                       /\ w' = latched false w3
                       /\ ~ (ins_num_cycles <> cur /\ cur <> 1))).
Proof.
  intros Hd Hp ins_num_cycles cur diagnostic.
  rewrite preprocess_split, (before_dt_check_with_ins ct nt nc w w1 ins Hd Hp).
  fold ins_num_cycles cur diagnostic.
  destruct (cycles_mismatch ins_num_cycles cur) eqn:Hc.
  - (* line 182 is reached *)
    apply cycles_mismatch_iff in Hc.
    split; [split; [auto | intros _; eexists; reflexivity] |].
    split; [reflexivity |].
    intros d w' H. inversion H. auto.
  - (* the call goes on with the Navier-Stokes integrator and the allocation *)
    assert (Hn : ~ (ins_num_cycles <> cur /\ cur <> 1)).
    { rewrite <- cycles_mismatch_iff, Hc. discriminate. }
    set (w2 := set_ext _ w1).
    pose proof (allocate_eulerian_data_quiet ct nt w2) as Hq.
    destruct (allocate_eulerian_data ct nt w2) as [[] w3 | d3 w3 | ]; [ | contradiction | ].
    + split; [split; [| tauto] |].
      * intros [w' H]. apply check_dt_change_aborts in H. destruct H as [H _]. discriminate.
      * split; [tauto |].
        intros d w' H. apply check_dt_change_aborts in H.
        destruct H as (Hdiag & Hw & _). right. exists w3. auto.
    + split; [split; [intros [w' H]; discriminate | tauto] |].
      split; [tauto | intros d w' H; discriminate].
Qed.

(** *** The time step size check *)

(** C10.  Take a call of [preprocessIntegrateHierarchy] that reaches the
    time step size check in the world [w3].
    - It aborts only with the time step diagnostic, and only when
      [d_error_on_dt_change] is set and the condition of lines 215-216
      holds: the static flag reads false, one of the two flags is set, [dt]
      differs from [d_dt_previous[0]] beyond [rel_equal_eps], and
      [new_time] is not [d_end_time].
    - It writes to [pout] only the warning, and only when
      [d_warn_on_dt_change] is set and that condition holds.
    - When the declaration of the static flag is passed for the first time
      in the process, at the start time or from restart, the call returns
      without error or warning.
    - When the call returns the flag is false, and it reads false for every
      integrator object of the process from then on, whatever its times:
      an object with [d_error_on_dt_change] set whose step size changed
      aborts, also in its own first call at its start time. *)
Theorem dt_change_check ct nt nc w w3 :
  preprocess_before_dt_check ct nt nc w = Returned tt w3 ->
  (forall d w',
      preprocessIntegrateHierarchy ct nt nc w = Aborted d w' ->
      d = TimeStepSizeChange (d_object_name (self w3))
      /\ d_error_on_dt_change (self w3) = true
      /\ dt_changed ct nt w3)
  /\ (forall w',
        preprocessIntegrateHierarchy ct nt nc w = Returned tt w' ->
        pout (proc w') = pout (proc w3)
        \/ (pout (proc w') = (pout (proc w3) ++ [dt_change_warning (d_object_name (self w3))])%list
            /\ d_warn_on_dt_change (self w3) = true
            /\ dt_changed ct nt w3))
  /\ (skip_check_for_dt_change (proc w3) = None ->
      rel_equal_eps (d_integrator_time (self w3)) (d_start_time (self w3)) = true
      \/ isFromRestart (proc w3) = true ->
      preprocessIntegrateHierarchy ct nt nc w = Returned tt (latched false w3))
  /\ (forall w',
        preprocessIntegrateHierarchy ct nt nc w = Returned tt w' ->
        skip_check_for_dt_change (proc w') = Some false
        /\ forall (other : Object) ct' nt' dt0 rest,
             skip_value (set_self other w') = false
             /\ (d_error_on_dt_change other = true ->
                 d_dt_previous other = dt0 :: rest ->
                 rel_equal_eps (nt' - ct')%float dt0 = false ->
                 rel_equal_eps nt' (d_end_time other) = false ->
                 check_dt_change ct' nt' (set_self other w')
                 = Aborted (TimeStepSizeChange (d_object_name other))
                     (latched false (set_self other w')))).
Proof.
  intro H3. rewrite preprocess_split, H3.
  split; [| split; [| split]].
  - intros d w' H. apply check_dt_change_aborts in H. tauto.
  - intros w' H. apply check_dt_change_returns in H.
    destruct H as [-> | (-> & _ & Hw & Hc)]; [left; reflexivity | right; auto].
  - intros Hnone Hstart. rewrite check_dt_change_cases.
    assert (Hs : skip_value w3 = true).
    { unfold skip_value. rewrite Hnone. apply orb_true_iff. exact Hstart. }
    rewrite Hs. reflexivity.
  - intros w' H.
    assert (Hl : skip_check_for_dt_change (proc w') = Some false).
    { apply check_dt_change_returns in H. destruct H as [-> | (-> & _)]; reflexivity. }
    split; [exact Hl |].
    intros other ct' nt' dt0 rest.
    assert (Hs : skip_value (set_self other w') = false).
    { unfold skip_value. simpl. rewrite Hl. reflexivity. }
    split; [exact Hs |].
    intros He Hq Hdt Hend. rewrite check_dt_change_cases, Hs. simpl.
    rewrite He, Hq, Hdt, Hend. reflexivity.
Qed.

(** *** Initialisation happens once *)

Lemma bind_returned {A B} (m : IM A) (k : A -> IM B) w b w' :
  bind m k w = Returned b w' ->
  exists a w1, m w = Returned a w1 /\ k a w1 = Returned b w'.
Proof.
  unfold bind. destruct (m w) as [a w1 | d w1 | ]; try discriminate. eauto.
Qed.

(** Peels the statements of a sequence off a hypothesis, down to the last one. *)
Ltac last_statement H :=
  repeat (apply bind_returned in H;
          let a := fresh "a" in
          let w := fresh "w" in
          destruct H as (a & w & _ & H); cbv beta zeta in H).

Lemma initializeHierarchyIntegrator_sets_flag h g w w1 :
  initializeHierarchyIntegrator h g w = Returned tt w1 ->
  d_integrator_is_initialized (self w1) = true.
Proof.
  unfold initializeHierarchyIntegrator. intro H.
  apply bind_returned in H. destruct H as (initialized & w0 & Hm & H).
  unfold member, gets in Hm. inversion Hm; subst; clear Hm.
  destruct (d_integrator_is_initialized (self w0)) eqn:Hi.
  - inversion H; subst. exact Hi.
  - last_statement H. inversion H. reflexivity.
Qed.

Lemma initializePatchHierarchy_sets_flag h g w w1 :
  initializePatchHierarchy h g w = Returned tt w1 ->
  d_hierarchy_is_initialized (self w1) = true.
Proof.
  unfold initializePatchHierarchy. intro H.
  apply bind_returned in H. destruct H as (initialized & w0 & Hm & H).
  unfold member, gets in Hm. inversion Hm; subst; clear Hm.
  destruct (d_hierarchy_is_initialized (self w0)) eqn:Hi.
  - inversion H; subst. exact Hi.
  - last_statement H. inversion H. reflexivity.
Qed.

(** C9.  On an integrator that is already initialised
    [initializeHierarchyIntegrator] returns at once and leaves the world as
    it is, and so does [initializePatchHierarchy] on one whose hierarchy is
    already initialised.  A call that returns leaves the flag set, so a
    second call, with whatever arguments, returns the world the first one
    left: calling twice is calling once. *)
Theorem initialization_happens_once h g h' g' w :
  (d_integrator_is_initialized (self w) = true ->
   initializeHierarchyIntegrator h g w = Returned tt w)
  /\ (d_hierarchy_is_initialized (self w) = true ->
      initializePatchHierarchy h g w = Returned tt w)
  /\ (forall w1,
        initializeHierarchyIntegrator h g w = Returned tt w1 ->
        initializeHierarchyIntegrator h' g' w1 = Returned tt w1)
  /\ (forall w1,
        initializePatchHierarchy h g w = Returned tt w1 ->
        initializePatchHierarchy h' g' w1 = Returned tt w1).
Proof.
  assert (I : forall a b v, d_integrator_is_initialized (self v) = true ->
                            initializeHierarchyIntegrator a b v = Returned tt v).
  { intros a b v Hv. unfold initializeHierarchyIntegrator, bind, member, gets.
    rewrite Hv. reflexivity. }
  assert (P : forall a b v, d_hierarchy_is_initialized (self v) = true ->
                            initializePatchHierarchy a b v = Returned tt v).
  { intros a b v Hv. unfold initializePatchHierarchy, bind, member, gets.
    rewrite Hv. reflexivity. }
  repeat split; auto.
  - intros w1 H. apply I. exact (initializeHierarchyIntegrator_sets_flag h g w w1 H).
  - intros w1 H. apply P. exact (initializePatchHierarchy_sets_flag h g w w1 H).
Qed.

End IBHierarchyIntegratorProperties.

(** *** Concrete runs *)

Section IBHierarchyIntegratorRuns.
Import IBHierarchyIntegrator.
Local Open Scope Z_scope.

(** Evaluates a closed equation between outcomes. *)
Ltac run := vm_compute; reflexivity.

(** Three cycles against the two of the Navier-Stokes solver: the call
    aborts, in the world its dependencies left. *)
Lemma cycle_count_abort_witness :
  exists w1,
    @preprocess_dependencies two_cycles 0 0.5 3 first_step = Returned tt w1
    /\ @preprocessIntegrateHierarchy two_cycles 0 0.5 3 first_step
       = Aborted (CycleCountMismatch "IBHierarchyIntegrator" 3 2) w1.
Proof.
  set (w1 := world_of (@preprocess_dependencies two_cycles 0 0.5 3 first_step)).
  assert (Hd : @preprocess_dependencies two_cycles 0 0.5 3 first_step = Returned tt w1)
    by run.
  assert (Hp : pointer (self w1) d_ins_hier_integrator = Some 1%positive) by run.
  exists w1. split; [exact Hd |].
  apply (proj1 (proj2 (@cycle_count_abort two_cycles 0 0.5 3 first_step w1 1%positive
                         Hd Hp))).
  vm_compute. split; discriminate.
Defined.

(** C7 as worded fails: with two cycles on both sides the cycle counts agree,
    and the call still aborts with a diagnostic, the one of the time step
    size check (the step is 0.5 after a step of 0.25, and
    [d_error_on_dt_change] is set). *)
Lemma abort_without_cycle_mismatch :
  exists w1 ins,
    @preprocess_dependencies two_cycles 1 1.5 2 later_step = Returned tt w1
    /\ pointer (self w1) d_ins_hier_integrator = Some ins
    /\ ~ ((exists d w', @preprocessIntegrateHierarchy two_cycles 1 1.5 2 later_step
                        = Aborted d w')
          <-> (@INS_getNumberOfCycles two_cycles ins (ext w1) <> d_current_num_cycles (self w1)
               /\ d_current_num_cycles (self w1) <> 1)).
Proof.
  exists (world_of (@preprocess_dependencies two_cycles 1 1.5 2 later_step)), 1%positive.
  split; [run |]. split; [run |].
  intros [Habort _].
  assert (H : exists d w', @preprocessIntegrateHierarchy two_cycles 1 1.5 2 later_step
                           = Aborted d w').
  { exists (TimeStepSizeChange "IBHierarchyIntegrator"),
           (world_of (@preprocessIntegrateHierarchy two_cycles 1 1.5 2 later_step)).
    run. }
  apply Habort in H. vm_compute in H. destruct H as [H _]. apply H. reflexivity.
Qed.

(** The first step of the run passes the check without looking at the
    (empty) deque of previous step sizes. *)
Lemma dt_change_check_witness :
  exists w3,
    @preprocess_before_dt_check two_cycles 0 0.5 2 first_step = Returned tt w3
    /\ @preprocessIntegrateHierarchy two_cycles 0 0.5 2 first_step
       = Returned tt (latched false w3).
Proof.
  set (w3 := world_of (@preprocess_before_dt_check two_cycles 0 0.5 2 first_step)).
  assert (H3 : @preprocess_before_dt_check two_cycles 0 0.5 2 first_step = Returned tt w3)
    by run.
  exists w3. split; [exact H3 |].
  apply (proj1 (proj2 (proj2 (@dt_change_check two_cycles 0 0.5 2 first_step w3 H3)))).
  - run.
  - left. run.
Defined.

(** The static flag is the process's, not the object's: in the first call of
    a second integrator the check is no longer skipped, although that
    integrator is at its start time, and line 216 reads the front of its
    empty deque of previous step sizes. *)
Lemma second_integrator_is_checked :
  skip_check_for_dt_change (proc second_integrator) = Some false
  /\ d_integrator_time (self second_integrator) = d_start_time (self second_integrator)
  /\ d_dt_previous (self second_integrator) = []
  /\ @preprocessIntegrateHierarchy two_cycles 0 0.5 2 second_integrator = Undefined.
Proof. repeat split; run. Qed.

(** Initialising twice, the second time with other arguments. *)
Lemma initialization_happens_once_witness :
  @initializeHierarchyIntegrator with_sources (Some 3%positive) (Some 4%positive) uninitialized
  = Returned tt initialized
  /\ d_tag_buffer (self initialized) = [0; 0; 0]
  /\ @initializeHierarchyIntegrator with_sources None None initialized
     = Returned tt initialized.
Proof.
  assert (H : @initializeHierarchyIntegrator with_sources (Some 3%positive) (Some 4%positive)
                uninitialized = Returned tt initialized) by run.
  split; [exact H |]. split; [run |].
  exact (proj1 (proj2 (proj2 (@initialization_happens_once with_sources
                                (Some 3%positive) (Some 4%positive) None None
                                uninitialized))) initialized H).
Defined.

End IBHierarchyIntegratorRuns.

(* ===================================================================== *)
(** ** Properties of the conservative mass transport integrator *)
(* ===================================================================== *)

(** *** Negation and cancellation of doubles *)

Section DoubleArithmetic.
Local Open Scope float_scope.

Lemma binary_round_aux_opp (s : bool) (m e : Z) (l : location) :
  binary_round_aux prec emax (negb s) m e l = SFopp (binary_round_aux prec emax s m e l).
Proof.
  unfold binary_round_aux.
  destruct (shr_fexp prec emax m e l) as [mrs' e'].
  destruct (shr_fexp prec emax _ e' loc_Exact) as [mrs'' e''].
  destruct (shr_m mrs''); [reflexivity | | reflexivity].
  destruct (e'' <=? emax - prec)%Z; reflexivity.
Qed.

Lemma SFmul_opp_l (x y : spec_float) :
  SFmul prec emax (SFopp x) y = SFopp (SFmul prec emax x y).
Proof.
  destruct x as [sx | sx | | sx mx ex], y as [sy | sy | | sy my ey]; cbn [SFmul SFopp];
    try reflexivity; try (destruct sx, sy; reflexivity).
  rewrite <- binary_round_aux_opp. destruct sx, sy; reflexivity.
Qed.

(** Rounding is symmetric: the product with the negated factor is the
    negated product, bit for bit. *)
Lemma mul_opp_l (a b : float) : - a * b = - (a * b).
Proof.
  apply Prim2SF_inj. rewrite mul_spec, !opp_spec, mul_spec. apply SFmul_opp_l.
Qed.

Lemma finite_cases (t : float) :
  is_finite t = true ->
  (exists s, Prim2SF t = S754_zero s) \/ (exists s m e, Prim2SF t = S754_finite s m e).
Proof.
  unfold is_finite, is_nan, is_infinity. rewrite !FloatAxioms.eqb_spec, abs_spec.
  change (Prim2SF infinity) with (S754_infinity false).
  destruct (Prim2SF t) as [s | s | | s m e]; intro H;
    [ left; eauto
    | exfalso; destruct s; vm_compute in H; discriminate
    | exfalso; vm_compute in H; discriminate
    | right; eauto ].
Qed.

(** A finite double and its negation add up to zero, exactly. *)
Lemma add_opp_finite (t : float) : is_finite t = true -> t + - t = 0.
Proof.
  intro H. apply Prim2SF_inj. rewrite add_spec, opp_spec.
  change (Prim2SF 0) with (S754_zero false).
  destruct (finite_cases t H) as [[s ->] | (s & m & e & ->)].
  - destruct s; reflexivity.
  - cbn [SFopp]. unfold SF64add, SFadd.
    replace (IntDef.Z.min e e) with e by (symmetry; apply Z.min_id).
    unfold shl_align. rewrite Z.sub_diag. cbn [fst].
    replace (cond_Zopp s (Z.pos m) + cond_Zopp (negb s) (Z.pos m))%Z with 0%Z
      by (symmetry; destruct s; unfold cond_Zopp, negb;
          [apply Z.add_opp_diag_l | apply Z.add_opp_diag_r]).
    reflexivity.
Qed.

End DoubleArithmetic.

Section MassTransportProperties.
Import AdvDiffConservativeMassTransportQuantityIntegrator.
Local Open Scope float_scope.

(** *** The faces of a cell *)

Lemma length_two_per_axis (g : nat -> SignedFace * SignedFace) (l : list nat) :
  List.length (flat_map (fun d => [fst (g d); snd (g d)]) l) = (2 * List.length l)%nat.
Proof. induction l as [| d l IH]; cbn [flat_map List.length app]; [reflexivity | lia]. Qed.

(** The faces of the axes before [a], the two faces along [a], and the rest. *)
Lemma faces_split (NDIM a : nat) (i : Index) :
  (a < NDIM)%nat ->
  exists before after,
    faces NDIM i = (before ++ lower_face a i :: upper_face a i :: after)%list
    /\ List.length before = (2 * a)%nat.
Proof.
  intro H. unfold faces.
  assert (E : exists n, NDIM = (a + S n)%nat) by (exists (NDIM - S a)%nat; lia).
  destruct E as [n ->].
  rewrite seq_app, flat_map_app. cbn [seq flat_map app Nat.add].
  eexists _, _. split; [reflexivity |].
  rewrite (length_two_per_axis (fun d => (lower_face d i, upper_face d i))), length_seq.
  reflexivity.
Qed.

(** The term of the lower face of the next cell is the term of the upper
    face of this one, negated: both read the fields at the same face. *)
Lemma shared_face_terms (U R T C : FaceData) (dx : list float) (a : nat) (c : Index) :
  flux_term U R T C dx (lower_face a (shift a c))
  = - flux_term U R T C dx (upper_face a c).
Proof.
  unfold flux_term, lower_face, upper_face.
  change (-1) with (PrimFloat.opp 1). rewrite !mul_opp_l. reflexivity.
Qed.


End MassTransportProperties.

(** *** The scenario of spec section 8, computed *)

Section MassTransportRuns.
Import AdvDiffConservativeMassTransportQuantityIntegrator.
Local Open Scope float_scope.


End MassTransportRuns.

(* ===================================================================== *)
(** ** Properties of the rest of IBHierarchyIntegrator.cpp *)
(* ===================================================================== *)

(** *** The tag buffer (lines 480-488) *)

Section TagBufferProperties.
Import IBHierarchyIntegrator.
Local Open Scope Z_scope.

Lemma levels_seq (a c : nat) :
  levels (Z.of_nat a) (Z.of_nat (a + c) - 1) = map Z.of_nat (seq a c).
Proof.
  unfold levels.
  replace (Z.to_nat (Z.of_nat (a + c) - 1 - Z.of_nat a + 1)) with c by lia.
  assert (H : forall b, map (fun k => Z.of_nat a + Z.of_nat k) (seq b c)
                        = map Z.of_nat (seq (a + b) c)).
  { induction c as [| c IH]; intro b; [reflexivity |].
    cbn [seq map]. f_equal; [lia |].
    rewrite IH. replace (a + S b)%nat with (S (a + b)) by lia. reflexivity. }
  rewrite H, Nat.add_0_r. reflexivity.
Qed.

Lemma levels_empty lo hi : hi < lo -> levels lo hi = [].
Proof.
  intro H. unfold levels. replace (Z.to_nat (hi - lo + 1)) with 0%nat by lia. reflexivity.
Qed.

Lemma store_same (a : list Z) (i : nat) : store i (nth i a 0) a = a.
Proof.
  revert i. induction a as [| x a IH]; intros [| i]; cbn; try reflexivity.
  now rewrite IH.
Qed.

Lemma store_app (p : list Z) (z v : Z) (q : list Z) :
  store (List.length p) v (p ++ z :: q) = (p ++ v :: q)%list.
Proof. induction p as [| x p IH]; cbn; [reflexivity | now rewrite IH]. Qed.

Lemma nth_last (p q : list Z) :
  p <> [] -> nth (List.length p - 1) (p ++ q) 0 = last p 0.
Proof.
  intro Hp. rewrite app_nth1 by (destruct p; [congruence | cbn; lia]).
  induction p as [| x p IH]; [congruence |].
  destruct p as [| y p]; [reflexivity |].
  cbn [List.length last] in *. rewrite <- IH by congruence.
  cbn. now rewrite Nat.sub_0_r.
Qed.

(** Line 484 stores 0 where [resizeArray] has put 0. *)
Lemma zero_tail_kept (p : list Z) (k : nat) (l : list Z) :
  Forall (fun i => Z.of_nat (List.length p) <= i) l ->
  fold_left (fun b i => store (Z.to_nat i) 0 b) l (p ++ repeat 0 k) = (p ++ repeat 0 k)%list.
Proof.
  induction 1 as [| i l Hi _ IH]; [reflexivity |].
  cbn [fold_left].
  replace 0 with (nth (Z.to_nat i) (p ++ repeat 0 k) 0) at 1.
  - now rewrite store_same.
  - rewrite app_nth2 by lia. apply nth_repeat.
Qed.

(** Lines 485-488 copy the last entry of the old buffer upwards. *)
Lemma last_entry_copied (c : nat) : forall (p junk : list Z),
  p <> [] -> List.length junk = c ->
  fold_left (fun b i => store (Z.to_nat i) (at_index (i - 1) b) b)
            (map Z.of_nat (seq (List.length p) c)) (p ++ junk)
  = (p ++ repeat (last p 0) c)%list.
Proof.
  induction c as [| c IH]; intros p junk Hp Hc.
  - destruct junk; [reflexivity | discriminate].
  - destruct junk as [| z junk]; [discriminate |].
    cbn [seq map fold_left]. rewrite Nat2Z.id.
    replace (at_index (Z.of_nat (List.length p) - 1) (p ++ z :: junk)) with (last p 0).
    2:{ unfold at_index.
        replace (Z.to_nat (Z.of_nat (List.length p) - 1)) with (List.length p - 1)%nat by lia.
        now rewrite nth_last. }
    rewrite store_app.
    replace (p ++ last p 0 :: junk)%list with ((p ++ [last p 0]) ++ junk)%list
      by (rewrite <- app_assoc; reflexivity).
    replace (S (List.length p)) with (List.length (p ++ [last p 0]))
      by (rewrite length_app; cbn; lia).
    rewrite IH.
    + rewrite last_last, <- app_assoc. reflexivity.
    + destruct p; discriminate.
    + cbn in Hc. lia.
Qed.

(** X1.  Lines 480-488 of initializeHierarchyIntegrator: a tag buffer that is
    resized to [finest_hier_ln] entries keeps its leading entries, and every
    entry it gains holds the last entry of the old buffer, or 0 when the old
    buffer was empty.  A buffer that is as long or longer is cut and nothing
    else. *)
Theorem tag_buffer_extended (finest_hier_ln : Z) (tag_buffer : list Z) :
  extend_tag_buffer finest_hier_ln tag_buffer
  = (firstn (Z.to_nat finest_hier_ln) tag_buffer
     ++ repeat (last tag_buffer 0) (Z.to_nat finest_hier_ln - List.length tag_buffer))%list.
Proof.
  unfold extend_tag_buffer, resizeArray.
  set (N := Z.to_nat finest_hier_ln). set (t := List.length tag_buffer).
  destruct (Nat.le_gt_cases N t) as [Hle | Hgt].
  - replace (N - t)%nat with 0%nat by lia. cbn [repeat]. rewrite app_nil_r.
    rewrite (levels_empty (Z.of_nat t)) by lia. cbn [fold_left].
    rewrite levels_empty; [reflexivity |].
    rewrite length_firstn. fold t. lia.
  - rewrite firstn_all2 by (fold t; lia).
    rewrite zero_tail_kept.
    2:{ unfold levels. apply Forall_forall. intros i Hi.
        apply in_map_iff in Hi. destruct Hi as (k & <- & _). fold t. lia. }
    rewrite length_app, repeat_length. fold t.
    destruct (Nat.eq_dec t 0) as [Ht | Ht].
    + assert (E : tag_buffer = []) by (apply length_zero_iff_nil; exact Ht).
      rewrite Ht, E. cbn [app last].
      rewrite Nat.sub_0_r. destruct N as [| N']; [lia |].
      replace (Z.max (Z.of_nat 0) 1) with (Z.of_nat (List.length [0])) by (cbn; lia).
      replace (Z.of_nat (0 + S N')) with (Z.of_nat (List.length [0] + N')) by (cbn; lia).
      rewrite levels_seq.
      change (repeat 0 (S N')) with ([0] ++ repeat 0 N')%list.
      rewrite last_entry_copied; [reflexivity | discriminate | apply repeat_length].
    + assert (Hp : tag_buffer <> []) by (intro E; subst tag_buffer; apply Ht; reflexivity).
      replace (Z.max (Z.of_nat t) 1) with (Z.of_nat t) by lia.
      rewrite levels_seq. unfold t at 1.
      apply last_entry_copied; [assumption | apply repeat_length].
Qed.

End TagBufferProperties.

(** *** Comparisons of doubles *)

Section DoubleComparisons.
Local Open Scope float_scope.

Lemma ltb_leb (x y : float) : (x <? y) = true -> (x <=? y) = true.
Proof.
  rewrite ltb_spec, leb_spec. unfold SFltb, SFleb.
  destruct (SFcompare (Prim2SF x) (Prim2SF y)) as [[| |] |]; congruence.
Qed.

Lemma positive_not_leb_zero (x : float) : (0 <? x) = true -> (x <=? 0) = false.
Proof.
  rewrite ltb_spec, leb_spec. unfold SFltb, SFleb.
  change (Prim2SF 0) with (S754_zero false).
  destruct (Prim2SF x) as [s | s | | s m e]; cbn; try congruence;
    destruct s; congruence.
Qed.

(** [0 <= a] and [a < b] give [0 <= b]. *)
Lemma leb_zero_ltb (a b : float) :
  (0 <=? a) = true -> (a <? b) = true -> (0 <=? b) = true.
Proof.
  rewrite ltb_spec, !leb_spec. unfold SFltb, SFleb.
  change (Prim2SF 0) with (S754_zero false).
  destruct (Prim2SF a) as [sa | sa | | sa ma ea], (Prim2SF b) as [sb | sb | | sb mb eb];
    cbn; try congruence;
    repeat match goal with s : bool |- _ => destruct s end; cbn; congruence.
Qed.

End DoubleComparisons.

(** *** Reasoning about sequences of statements *)

Section Reasoning.
Import IBHierarchyIntegrator IBHierarchyIntegratorRest.
Local Open Scope integrator_scope.
Context {W D : Type}.
Implicit Types (w : W) (Qa : D -> W -> Prop).

Lemma wp_returned {A} (m : M W D A) (Qr : A -> W -> Prop) Qa w a w' :
  wp m Qr Qa w -> m w = Returned a w' -> Qr a w'.
Proof. unfold wp. intros H E. now rewrite E in H. Qed.

Lemma wp_aborted {A} (m : M W D A) (Qr : A -> W -> Prop) Qa w d w' :
  wp m Qr Qa w -> m w = Aborted d w' -> Qa d w'.
Proof. unfold wp. intros H E. now rewrite E in H. Qed.

Lemma bind_returns {A B} (m : M W D A) (k : A -> M W D B) w b w' :
  bind m k w = Returned b w' ->
  exists a w1, m w = Returned a w1 /\ k a w1 = Returned b w'.
Proof.
  unfold bind. destruct (m w) as [a w1 | d w1 |]; try discriminate. eauto.
Qed.

Lemma wp_weaken {A} (m : M W D A) (Qr Qr' : A -> W -> Prop) Qa Qa' w :
  wp m Qr Qa w -> (forall a w', Qr a w' -> Qr' a w') -> (forall d w', Qa d w' -> Qa' d w') ->
  wp m Qr' Qa' w.
Proof. unfold wp. destruct (m w); auto. Qed.

Lemma wp_ret {A} (a : A) (Qr : A -> W -> Prop) Qa w : Qr a w -> wp (ret a) Qr Qa w.
Proof. exact (fun H => H). Qed.

Lemma wp_bind {A B} (m : M W D A) (k : A -> M W D B) (Qr : B -> W -> Prop) Qa w :
  wp m (fun a => wp (k a) Qr Qa) Qa w -> wp (bind m k) Qr Qa w.
Proof. unfold wp, bind. destruct (m w); auto. Qed.

Lemma wp_gets {A} (f : W -> A) (Qr : A -> W -> Prop) Qa w : Qr (f w) w -> wp (gets f) Qr Qa w.
Proof. exact (fun H => H). Qed.

Lemma wp_modify (f : W -> W) (Qr : unit -> W -> Prop) Qa w :
  Qr tt (f w) -> wp (modify f) Qr Qa w.
Proof. exact (fun H => H). Qed.

Lemma wp_error {A} (d : D) (Qr : A -> W -> Prop) Qa w : Qa d w -> wp (TBOX_ERROR d) Qr Qa w.
Proof. exact (fun H => H). Qed.

Lemma wp_undefined {A} (Qr : A -> W -> Prop) Qa w : wp undefined Qr Qa w.
Proof. exact I. Qed.

(** A loop whose body keeps [I], from a world where [I] holds. *)
Lemma wp_for_each {A} (I : W -> Prop) (l : list A) (body : A -> M W D unit)
  (Qr : unit -> W -> Prop) Qa w :
  I w ->
  (forall a w1, I w1 -> wp (body a) (fun _ => I) Qa w1) ->
  (forall w1, I w1 -> Qr tt w1) ->
  wp (for_each l body) Qr Qa w.
Proof.
  intros Hw Hbody Hq. revert w Hw.
  induction l as [| a l IH]; intros w Hw; cbn [for_each].
  - apply wp_ret. auto.
  - apply wp_bind. eapply wp_weaken; [apply Hbody; exact Hw | | auto].
    cbv beta. auto.
Qed.

End Reasoning.

Section ReasoningAboutMembers.
Import IBHierarchyIntegrator IBHierarchyIntegratorRest.
Context {X : Substrate} {Y : Services}.
Implicit Types (x : XWorld) (Qa : Failure -> XWorld -> Prop).

Lemma wp_xeffect {A} (f : Ext -> A * Ext) (Qr : A -> XWorld -> Prop) Qa x :
  Qr (fst (f (ext (core x)))) (set_core (set_ext (snd (f (ext (core x)))) (core x)) x) ->
  wp (xeffect f) Qr Qa x.
Proof. unfold wp, xeffect. destruct (f (ext (core x))). exact (fun H => H). Qed.

Lemma wp_xbase (f : Object -> Ext -> Object * Ext) (Qr : unit -> XWorld -> Prop) Qa x :
  Qr tt (set_core (set_ext (snd (f (self (core x)) (ext (core x))))
                     (set_self (fst (f (self (core x)) (ext (core x)))) (core x))) x) ->
  wp (xbase f) Qr Qa x.
Proof. unfold wp, xbase. destruct (f (self (core x)) (ext (core x))). exact (fun H => H). Qed.

Lemma wp_fold_each {A S} (I : S -> XWorld -> Prop) (l : list A) (body : S -> A -> XM S)
  (Qr : S -> XWorld -> Prop) Qa (s : S) w :
  I s w ->
  (forall s1 a w1, I s1 w1 -> wp (body s1 a) I Qa w1) ->
  (forall s1 w1, I s1 w1 -> Qr s1 w1) ->
  wp (fold_each l body s) Qr Qa w.
Proof.
  intros Hw Hbody Hq. revert s w Hw.
  induction l as [| a l IH]; intros s w Hw; cbn [fold_each].
  - apply wp_ret. auto.
  - apply wp_bind. eapply wp_weaken; [apply Hbody; exact Hw | | auto].
    cbv beta. auto.
Qed.

End ReasoningAboutMembers.

(** *** Reasoning about what a sequence of statements keeps *)

Section Frames.
Import IBHierarchyIntegrator IBHierarchyIntegratorRest.
Context {W D : Type} (U : Prop) (R : W -> W -> Prop).
Hypothesis R_refl : forall w, R w w.
Hypothesis R_trans : forall w1 w2 w3, R w1 w2 -> R w2 w3 -> R w1 w3.

Lemma keeps_ret {A} (a : A) : keeps U R (@ret W D A a).
Proof. intro w. apply R_refl. Qed.

Lemma keeps_gets {A} (f : W -> A) : keeps U R (@gets W D A f).
Proof. intro w. apply R_refl. Qed.

Lemma keeps_error {A} (d : D) : keeps U R (@TBOX_ERROR W D A d).
Proof. intro w. apply R_refl. Qed.

Lemma keeps_undefined {A} : U -> keeps U R (@undefined W D A).
Proof. intros u w. exact u. Qed.

Lemma keeps_modify (f : W -> W) : (forall w, R w (f w)) -> keeps U R (@modify W D f).
Proof. intros H w. apply H. Qed.

Lemma keeps_bind {A B} (m : M W D A) (k : A -> M W D B) :
  keeps U R m -> (forall a, keeps U R (k a)) -> keeps U R (bind m k).
Proof.
  intros Hm Hk w. unfold bind. specialize (Hm w).
  destruct (m w) as [a w1 | d w1 |]; auto.
  specialize (Hk a w1). destruct (k a w1); eauto.
Qed.

Lemma keeps_when (b : bool) (m : M W D unit) : keeps U R m -> keeps U R (when b m).
Proof. destruct b; [auto | intros _; apply keeps_ret]. Qed.

Lemma keeps_for_each {A} (l : list A) (body : A -> M W D unit) :
  (forall a, keeps U R (body a)) -> keeps U R (for_each l body).
Proof.
  intro H. induction l as [| a l IH]; cbn [for_each];
    [apply keeps_ret | apply keeps_bind; auto].
Qed.

Lemma keeps_wp {A} (m : M W D A) (Qr : A -> W -> Prop) (Qa : D -> W -> Prop) w :
  keeps U R m ->
  (forall a w', R w w' -> Qr a w') -> (forall d w', R w w' -> Qa d w') ->
  wp m Qr Qa w.
Proof.
  intros H Hr Ha. unfold wp. specialize (H w). destruct (m w); auto.
Qed.

End Frames.

Lemma same_refl {W B} (f : W -> B) (w : W) : IBHierarchyIntegratorRest.same f w w.
Proof. reflexivity. Qed.

Lemma same_trans {W B} (f : W -> B) (w1 w2 w3 : W) :
  IBHierarchyIntegratorRest.same f w1 w2 -> IBHierarchyIntegratorRest.same f w2 w3 ->
  IBHierarchyIntegratorRest.same f w1 w3.
Proof. unfold IBHierarchyIntegratorRest.same. congruence. Qed.

(** One statement of a sequence that keeps a relation, given the proofs that
    the relation is reflexive and transitive. *)
Ltac keeps_step refl trans :=
  lazymatch goal with
  | |- IBHierarchyIntegratorRest.keeps _ _ (bind _ _) =>
      apply (keeps_bind _ _ trans); [| intro]
  | |- IBHierarchyIntegratorRest.keeps _ _ (ret _) => apply (keeps_ret _ _ refl)
  | |- IBHierarchyIntegratorRest.keeps _ _ (gets _) => apply (keeps_gets _ _ refl)
  | |- IBHierarchyIntegratorRest.keeps _ _ (TBOX_ERROR _) => apply (keeps_error _ _ refl)
  | |- IBHierarchyIntegratorRest.keeps _ _ undefined => apply keeps_undefined; exact I
  | |- IBHierarchyIntegratorRest.keeps _ _ (modify _) => apply keeps_modify; intro
  | |- IBHierarchyIntegratorRest.keeps _ _ (when _ _) => apply (keeps_when _ _ refl)
  | |- IBHierarchyIntegratorRest.keeps _ _ (for_each _ _) =>
      apply (keeps_for_each _ _ refl trans); intro
  | |- IBHierarchyIntegratorRest.keeps _ _ (IBHierarchyIntegratorRest.this _) =>
      unfold IBHierarchyIntegratorRest.this at 1
  | |- IBHierarchyIntegratorRest.keeps _ _ (IBHierarchyIntegratorRest.this_rest _) =>
      unfold IBHierarchyIntegratorRest.this_rest at 1
  | |- IBHierarchyIntegratorRest.keeps _ _ (IBHierarchyIntegratorRest.assign_this _) =>
      unfold IBHierarchyIntegratorRest.assign_this at 1
  | |- IBHierarchyIntegratorRest.keeps _ _ (IBHierarchyIntegratorRest.assign_rest _) =>
      unfold IBHierarchyIntegratorRest.assign_rest at 1
  | |- IBHierarchyIntegratorRest.keeps _ _ (IBHierarchyIntegratorRest.xderef _) =>
      unfold IBHierarchyIntegratorRest.xderef at 1
  | |- IBHierarchyIntegratorRest.keeps _ _ (IBHierarchyIntegratorRest.this_arrow _) =>
      unfold IBHierarchyIntegratorRest.this_arrow at 1
  | |- IBHierarchyIntegratorRest.keeps _ _ (IBHierarchyIntegratorRest.xcall _) =>
      unfold IBHierarchyIntegratorRest.xcall at 1
  | |- IBHierarchyIntegratorRest.keeps _ _ (IBHierarchyIntegratorRest.xquery _) =>
      unfold IBHierarchyIntegratorRest.xquery at 1
  | |- IBHierarchyIntegratorRest.keeps _ _ (IBHierarchyIntegratorRest.xprint _) =>
      unfold IBHierarchyIntegratorRest.xprint at 1
  | |- IBHierarchyIntegratorRest.keeps _ _ (IBHierarchyIntegratorRest.log _) =>
      unfold IBHierarchyIntegratorRest.log at 1
  | |- IBHierarchyIntegratorRest.keeps _ _ (IBHierarchyIntegratorRest.get _ _ _) =>
      unfold IBHierarchyIntegratorRest.get at 1
  | |- IBHierarchyIntegratorRest.keeps _ _ (IBHierarchyIntegrator.member _) =>
      unfold IBHierarchyIntegrator.member at 1
  | |- IBHierarchyIntegratorRest.keeps _ _ (IBHierarchyIntegrator.query _) =>
      unfold IBHierarchyIntegrator.query at 1
  | |- IBHierarchyIntegratorRest.keeps _ _ (IBHierarchyIntegrator.call _) =>
      unfold IBHierarchyIntegrator.call at 1
  | |- IBHierarchyIntegratorRest.keeps _ _ (IBHierarchyIntegrator.deref _) =>
      unfold IBHierarchyIntegrator.deref at 1
  | |- IBHierarchyIntegratorRest.keeps _ _ (IBHierarchyIntegrator.print _) =>
      unfold IBHierarchyIntegrator.print at 1
  | |- IBHierarchyIntegratorRest.keeps _ _ (match ?p with _ => _ end) => destruct p
  end.
Ltac keeps_steps refl trans := repeat keeps_step refl trans.

(** One statement of a sequence. *)
Ltac wp_step :=
  cbv beta;
  lazymatch goal with
  | |- IBHierarchyIntegratorRest.wp (bind _ _) _ _ _ => apply wp_bind
  | |- IBHierarchyIntegratorRest.wp (ret _) _ _ _ => apply wp_ret
  | |- IBHierarchyIntegratorRest.wp (gets _) _ _ _ => apply wp_gets
  | |- IBHierarchyIntegratorRest.wp (modify _) _ _ _ => apply wp_modify
  | |- IBHierarchyIntegratorRest.wp (TBOX_ERROR _) _ _ _ => apply wp_error
  | |- IBHierarchyIntegratorRest.wp undefined _ _ _ => apply wp_undefined
  | |- IBHierarchyIntegratorRest.wp (when ?b _) _ _ _ => unfold when at 1
  | |- IBHierarchyIntegratorRest.wp (IBHierarchyIntegratorRest.xeffect _) _ _ _ => apply wp_xeffect
  | |- IBHierarchyIntegratorRest.wp (IBHierarchyIntegratorRest.xbase _) _ _ _ => apply wp_xbase
  | |- IBHierarchyIntegratorRest.wp (IBHierarchyIntegratorRest.this _) _ _ _ =>
      unfold IBHierarchyIntegratorRest.this at 1
  | |- IBHierarchyIntegratorRest.wp (IBHierarchyIntegratorRest.this_rest _) _ _ _ =>
      unfold IBHierarchyIntegratorRest.this_rest at 1
  | |- IBHierarchyIntegratorRest.wp (IBHierarchyIntegratorRest.assign_this _) _ _ _ =>
      unfold IBHierarchyIntegratorRest.assign_this at 1
  | |- IBHierarchyIntegratorRest.wp (IBHierarchyIntegratorRest.assign_rest _) _ _ _ =>
      unfold IBHierarchyIntegratorRest.assign_rest at 1
  | |- IBHierarchyIntegratorRest.wp (IBHierarchyIntegratorRest.xderef _) _ _ _ =>
      unfold IBHierarchyIntegratorRest.xderef at 1
  | |- IBHierarchyIntegratorRest.wp (IBHierarchyIntegratorRest.this_arrow _) _ _ _ =>
      unfold IBHierarchyIntegratorRest.this_arrow at 1
  | |- IBHierarchyIntegratorRest.wp (IBHierarchyIntegratorRest.xcall _) _ _ _ =>
      unfold IBHierarchyIntegratorRest.xcall at 1
  | |- IBHierarchyIntegratorRest.wp (IBHierarchyIntegratorRest.xquery _) _ _ _ =>
      unfold IBHierarchyIntegratorRest.xquery at 1
  | |- IBHierarchyIntegratorRest.wp (IBHierarchyIntegratorRest.xprint _) _ _ _ =>
      unfold IBHierarchyIntegratorRest.xprint at 1
  | |- IBHierarchyIntegratorRest.wp (IBHierarchyIntegratorRest.log _) _ _ _ =>
      unfold IBHierarchyIntegratorRest.log at 1
  | |- IBHierarchyIntegratorRest.wp (IBHierarchyIntegratorRest.TBOX_ASSERT _ _) _ _ _ =>
      unfold IBHierarchyIntegratorRest.TBOX_ASSERT at 1
  | |- IBHierarchyIntegratorRest.wp (IBHierarchyIntegratorRest.get _ _ _) _ _ _ =>
      unfold IBHierarchyIntegratorRest.get at 1
  | |- IBHierarchyIntegratorRest.wp (match ?p with _ => _ end) _ _ _ => destruct p eqn:?
  end.
Ltac wp_steps := repeat wp_step; cbv beta.
(** The first statement of a sequence, and no more. *)
Ltac wp_statement :=
  apply wp_bind;
  match goal with
  | |- IBHierarchyIntegratorRest.wp _ ?Q _ _ =>
      let P := fresh "P" in set (P := Q); wp_steps; subst P; cbv beta
  end.

(** The rest of a sequence keeps [f]: what holds of [f] now holds at the end. *)
Ltac kept_by f :=
  cbv beta;
  apply (keeps_wp True (IBHierarchyIntegratorRest.same f));
  [ keeps_steps (same_refl f) (same_trans f); reflexivity
  | let H := fresh "H" in
    intros _ ? H; unfold IBHierarchyIntegratorRest.same in H; cbn in H; rewrite H; cbn
  | intros; exact I ].

(** The first statement of a sequence keeps [f]. *)
Ltac keeping f :=
  apply wp_bind; apply (keeps_wp True (IBHierarchyIntegratorRest.same f));
  [ keeps_steps (same_refl f) (same_trans f); reflexivity
  | let H := fresh "H" in
    intros ? ? H; unfold IBHierarchyIntegratorRest.same in H; cbn in H
  | intros; exact I ].

(** *** Regrid points (lines 572-595 and 634-654) *)

Section RegridProperties.
Import IBHierarchyIntegrator IBHierarchyIntegratorRest.
Local Open Scope Z_scope.
Local Open Scope integrator_scope.
Context {X : Substrate} {Y : Services}.

(** X2.  atRegridPointSpecialized when no CFL interval is positive and the
    integrator is past its start time, for a step number and a regrid
    interval that are [int]s.  The remainder of line 651 is undefined
    exactly at step [INT_MIN] with interval -1; everywhere else the step is
    a regrid point exactly when [d_regrid_interval] is not 0 and divides the
    step number. *)
Theorem regrid_point_by_steps (s : Object) (r : Members) :
  rel_equal_eps (d_integrator_time s) (d_start_time s) = false ->
  (0 <? d_regrid_fluid_cfl_interval r)%float = false ->
  (0 <? d_regrid_structure_cfl_interval r)%float = false ->
  is_int (d_integrator_step s) ->
  is_int (d_regrid_interval r) ->
  (atRegridPointSpecialized s r = None
   <-> d_integrator_step s = INT_MIN /\ d_regrid_interval r = -1)
  /\ (atRegridPointSpecialized s r = Some true
      <-> d_regrid_interval r <> 0
          /\ ~ (d_integrator_step s = INT_MIN /\ d_regrid_interval r = -1)
          /\ (d_regrid_interval r | d_integrator_step s)).
Proof.
  intros Ht Hf Hs _ _. unfold atRegridPointSpecialized, int_rem.
  rewrite Ht, Hf, Hs. cbn [orb].
  destruct (Z.eqb_spec (d_regrid_interval r) 0) as [E | E]; cbn [negb orb].
  - split; split; try discriminate; intros H; exfalso; [| tauto].
    destruct H as [_ H]. rewrite E in H. discriminate.
  - destruct (Z.eqb_spec (d_integrator_step s) INT_MIN) as [E1 | E1];
      destruct (Z.eqb_spec (d_regrid_interval r) (-1)) as [E2 | E2]; cbn [andb].
    + split; split; try tauto; try discriminate.
    + split; split; try discriminate; try tauto.
      * intro H. injection H as H. apply Z.eqb_eq, Z.rem_divide in H; tauto.
      * intros (_ & _ & H). apply Z.rem_divide in H; [| assumption]. now rewrite H.
    + split; split; try discriminate; try tauto.
      * intro H. injection H as H. apply Z.eqb_eq, Z.rem_divide in H; tauto.
      * intros (_ & _ & H). apply Z.rem_divide in H; [| assumption]. now rewrite H.
    + split; split; try discriminate; try tauto.
      * intro H. injection H as H. apply Z.eqb_eq, Z.rem_divide in H; tauto.
      * intros (_ & _ & H). apply Z.rem_divide in H; [| assumption]. now rewrite H.
Qed.

(** What regridHierarchyEndSpecialized leaves of the members when it returns. *)
Lemma regridHierarchyEndSpecialized_rest (x : XWorld) :
  wp regridHierarchyEndSpecialized
     (fun _ x' => rest x' = set_d_regrid_structure_cfl_estimate 0
                              (set_d_regrid_fluid_cfl_estimate 0 (rest x)))
     (fun _ _ => True) x.
Proof.
  unfold regridHierarchyEndSpecialized. wp_steps; auto.
Qed.

Lemma regridHierarchyEndSpecialized_returned (x x' : XWorld) :
  regridHierarchyEndSpecialized x = Returned tt x' ->
  rest x' = set_d_regrid_structure_cfl_estimate 0
              (set_d_regrid_fluid_cfl_estimate 0 (rest x)).
Proof.
  intro H. exact (wp_returned _ _ _ _ _ _ (regridHierarchyEndSpecialized_rest x) H).
Qed.

(** X3.  regridHierarchyEndSpecialized followed by atRegridPointSpecialized:
    when regridding goes by the CFL criteria (an interval is positive, and
    each interval is positive or the default -1.0), the integrator that has
    just regridded is not at a regrid point, unless it is at its start
    time. *)
Theorem no_regrid_right_after_regrid (x x' : XWorld) :
  regridHierarchyEndSpecialized x = Returned tt x' ->
  rel_equal_eps (d_integrator_time (self (core x'))) (d_start_time (self (core x'))) = false ->
  (0 <? d_regrid_fluid_cfl_interval (rest x))%float = true
  \/ (0 <? d_regrid_structure_cfl_interval (rest x))%float = true ->
  (0 <? d_regrid_fluid_cfl_interval (rest x))%float = true
  \/ (d_regrid_fluid_cfl_interval (rest x) =? -1)%float = true ->
  (0 <? d_regrid_structure_cfl_interval (rest x))%float = true
  \/ (d_regrid_structure_cfl_interval (rest x) =? -1)%float = true ->
  atRegridPointSpecialized (self (core x')) (rest x') = Some false.
Proof.
  intros H Ht Hsome Hf Hs. apply regridHierarchyEndSpecialized_returned in H.
  unfold atRegridPointSpecialized. rewrite Ht, H. cbn.
  replace ((0 <? d_regrid_fluid_cfl_interval (rest x))%float
           || (0 <? d_regrid_structure_cfl_interval (rest x))%float) with true
    by (symmetry; apply orb_true_iff; exact Hsome).
  assert (Ef : (if (d_regrid_fluid_cfl_interval (rest x) =? -1)%float then false
                else (d_regrid_fluid_cfl_interval (rest x) <=? 0)%float) = false).
  { destruct Hf as [Hf | Hf]; [| now rewrite Hf].
    rewrite (positive_not_leb_zero _ Hf).
    destruct (PrimFloat.eqb (d_regrid_fluid_cfl_interval (rest x)) _); reflexivity. }
  assert (Es : (if (d_regrid_structure_cfl_interval (rest x) =? -1)%float then false
                else (d_regrid_structure_cfl_interval (rest x) <=? 0)%float) = false).
  { destruct Hs as [Hs | Hs]; [| now rewrite Hs].
    rewrite (positive_not_leb_zero _ Hs).
    destruct (PrimFloat.eqb (d_regrid_structure_cfl_interval (rest x)) _); reflexivity. }
  rewrite Ef, Es. reflexivity.
Qed.

(** X4.  The default -1.0 is the only value that switches a CFL criterion
    off.  When one interval is positive and the other is zero or negative
    without being -1.0, the integrator that has just regridded is at a
    regrid point again: the estimate 0.0 that regridHierarchyEndSpecialized
    stores is not below such an interval. *)
Theorem regrid_again_right_after_regrid (x x' : XWorld) :
  regridHierarchyEndSpecialized x = Returned tt x' ->
  ((0 <? d_regrid_structure_cfl_interval (rest x))%float = true
   /\ (d_regrid_fluid_cfl_interval (rest x) <=? 0)%float = true
   /\ (d_regrid_fluid_cfl_interval (rest x) =? -1)%float = false)
  \/ ((0 <? d_regrid_fluid_cfl_interval (rest x))%float = true
      /\ (d_regrid_structure_cfl_interval (rest x) <=? 0)%float = true
      /\ (d_regrid_structure_cfl_interval (rest x) =? -1)%float = false) ->
  atRegridPointSpecialized (self (core x')) (rest x') = Some true.
Proof.
  intros H Hc. apply regridHierarchyEndSpecialized_returned in H.
  unfold atRegridPointSpecialized. rewrite H. cbn.
  destruct (rel_equal_eps _ _); [reflexivity |].
  destruct Hc as [(Hp & Hle & Hne) | (Hp & Hle & Hne)]; rewrite Hp, Hle, Hne.
  - rewrite orb_true_r. reflexivity.
  - cbn. rewrite orb_true_r. reflexivity.
Qed.

(** X15.  The logging switch decides more than what is logged:
    regridHierarchyEndSpecialized calls the base class's
    updateWorkloadEstimates only when [d_enable_logging] is set
    (lines 586-589).  Without logging a call that returns leaves the object
    and [plog] as they were; with logging the object is the one
    updateWorkloadEstimates gives back. *)
Theorem regrid_end_updates_workload_when_logging (x x' : XWorld) :
  regridHierarchyEndSpecialized x = Returned tt x' ->
  if d_enable_logging (rest x)
  then exists e, self (core x') = fst (updateWorkloadEstimates (self (core x)) e)
  else self (core x') = self (core x) /\ plog x' = plog x.
Proof.
  intro H. pattern x'.
  match goal with |- ?P x' =>
    refine (wp_returned _ (fun _ => P) (fun _ _ => True) _ _ _ _ H) end.
  clear H x'.
  unfold regridHierarchyEndSpecialized. wp_steps; auto.
  all: cbn in *.
  all: try match goal with E : d_enable_logging (rest _) = _ |- _ => rewrite E in * end.
  all: try congruence.
  all: try (eexists; reflexivity).
  all: try (split; reflexivity).
Qed.

(** X16.  regridHierarchyBeginSpecialized calls updateWorkloadEstimates
    first and whatever the logging switch says: the object a returning call
    leaves is the one updateWorkloadEstimates gave back for the object and
    the collaborators as they were at the call, and the regridding members
    are as they were. *)
Theorem regrid_begin_updates_workload (x x' : XWorld) :
  regridHierarchyBeginSpecialized x = Returned tt x' ->
  self (core x') = fst (updateWorkloadEstimates (self (core x)) (ext (core x)))
  /\ rest x' = rest x.
Proof.
  intro H. pattern x'.
  match goal with |- ?P x' =>
    refine (wp_returned _ (fun _ => P) (fun _ _ => True) _ _ _ _ H) end.
  clear H x'.
  unfold regridHierarchyBeginSpecialized. wp_steps; auto.
Qed.

End RegridProperties.

(** *** Body force functions (lines 100-127) *)

Section BodyForceProperties.
Import IBHierarchyIntegrator IBHierarchyIntegratorRest.
Local Open Scope integrator_scope.
Context {X : Substrate} {Y : Services}.

(** X5.  registerBodyForceFunction on an integrator that has a body force
    function already: the call writes no member.  [d_body_force_fcn] goes on
    pointing to the function registered first; the set that lines 117-118
    create for a function that is not a set is held by the local pointer
    alone. *)
Theorem registered_body_force_function_stays (f_fcn : Pointer) (fcn : addr) (x x' : XWorld) :
  d_body_force_fcn (rest x) = Some fcn ->
  registerBodyForceFunction f_fcn x = Returned tt x' ->
  rest x' = rest x /\ self (core x') = self (core x).
Proof.
  intros Hb H.
  refine (wp_returned _ (fun _ x' => rest x' = rest x /\ self (core x') = self (core x))
            (fun _ _ => True) _ _ _ _ H).
  unfold registerBodyForceFunction. wp_steps; auto; congruence.
Qed.

End BodyForceProperties.

(** *** Configuration (lines 627-631 and 734-804) *)

Section ConfigurationProperties.
Import IBHierarchyIntegrator IBHierarchyIntegratorRest.
Local Open Scope string_scope.
Local Open Scope Z_scope.
Local Open Scope integrator_scope.
Context {X : Substrate} {Y : Services} {DB : DatabaseOps}.

Lemma configured_refl x : configured x x.
Proof.
  unfold configured. repeat split.
  - exists (d_error_on_dt_change (self (core x))), (d_warn_on_dt_change (self (core x))),
      (d_time_stepping_type (self (core x))), (d_mark_file_name (self (core x))).
    destruct (self (core x)); reflexivity.
  - exists (d_regrid_fluid_cfl_interval (rest x)), (d_regrid_structure_cfl_interval (rest x)).
    destruct (rest x); reflexivity.
Qed.

Lemma configured_trans x1 x2 x3 : configured x1 x2 -> configured x2 x3 -> configured x1 x3.
Proof.
  unfold configured.
  intros ((e1 & w1 & t1 & m1 & Hs1) & (f1 & s1 & Hr1) & Hp1 & He1 & Hl1)
         ((e2 & w2 & t2 & m2 & Hs2) & (f2 & s2 & Hr2) & Hp2 & He2 & Hl2).
  repeat split; try congruence.
  - exists e2, w2, t2, m2. rewrite Hs2, Hs1. reflexivity.
  - exists f2, s2. rewrite Hr2, Hr1. reflexivity.
Qed.

Lemma getFromInput_configures (db : Database) (is_from_restart : bool) :
  keeps False configured (getFromInput db is_from_restart).
Proof.
  unfold getFromInput.
  keeps_steps configured_refl configured_trans.
  all: unfold configured; cbn; repeat split.
  all: try (destruct (self (core w)); eexists _, _, _, _;
            unfold set_d_error_on_dt_change, set_d_warn_on_dt_change,
              set_d_time_stepping_type, set_d_mark_file_name; cbn; reflexivity).
  all: destruct (rest w); eexists _, _;
    unfold set_d_regrid_fluid_cfl_interval, set_d_regrid_structure_cfl_interval;
    cbn; reflexivity.
Qed.

(** X6.  getFromInput writes six members at most, whether it returns or the
    database raises an error on the way: the two CFL intervals, the two
    switches for a change of the time step size, the time stepping type and
    the name of the marker file.  The CFL estimates that getFromRestart has
    read, the other members, the process and the collaborators stay as they
    are; nothing in the function is undefined behaviour. *)
Theorem input_writes_configuration_only (db : Database) (is_from_restart : bool) (x : XWorld) :
  match getFromInput db is_from_restart x with
  | Returned _ x' => configured x x'
  | Aborted _ x' => configured x x'
  | Undefined => False
  end.
Proof. apply getFromInput_configures. Qed.

Lemma getFromInput_fluid_interval (db : Database) (is_from_restart : bool) (x : XWorld) :
  wp (getFromInput db is_from_restart)
     (fun _ x' =>
        Some (d_regrid_fluid_cfl_interval (rest x'))
        = if keyExists db "regrid_fluid_cfl_interval"
          then getDouble db "regrid_fluid_cfl_interval"
          else if keyExists db "regrid_cfl_interval"
               then getDouble db "regrid_cfl_interval"
               else Some (d_regrid_fluid_cfl_interval (rest x)))
     (fun _ _ => True) x.
Proof.
  unfold getFromInput.
  match goal with |- wp (bind _ (fun _ => bind _ ?k)) _ _ _ => set (K := k) end.
  wp_steps; auto.
  all: subst K; kept_by (fun x : XWorld => d_regrid_fluid_cfl_interval (rest x)).
  all: reflexivity.
Qed.

Lemma getFromInput_time_stepping_type (db : Database) (is_from_restart : bool) (x : XWorld) :
  wp (getFromInput db is_from_restart)
     (fun _ x' =>
        Some (d_time_stepping_type (self (core x')))
        = if keyExists db "time_stepping_type"
          then option_map string_to_enum (getString db "time_stepping_type")
          else if keyExists db "timestepping_type"
               then option_map string_to_enum (getString db "timestepping_type")
               else Some (d_time_stepping_type (self (core x))))
     (fun _ _ => True) x.
Proof.
  unfold getFromInput.
  do 5 keeping (fun x : XWorld => d_time_stepping_type (self (core x))).
  match goal with |- wp (bind _ ?k) _ _ _ => set (K := k) end.
  wp_steps; auto.
  all: subst K; kept_by (fun x : XWorld => d_time_stepping_type (self (core x))).
  all: congruence.
Qed.

(** The database [db'] answers as [db] does under a key other than [key]. *)
Ltac agrees_at Ha k :=
  let E1 := fresh in let E2 := fresh in let E3 := fresh in let E4 := fresh in
  destruct (Ha k ltac:(discriminate)) as (E1 & E2 & E3 & E4);
  rewrite ?E1, ?E2, ?E3, ?E4; clear E1 E2 E3 E4.

(** X7.  Which key of the input database counts.  The two names of the
    fluid CFL interval are both read, the older one first: a call that
    returns has stored the value of regrid_fluid_cfl_interval when that key
    exists, and a regrid_cfl_interval that is not a number makes the call
    fail at once, whether the newer key exists or not.  Of the two names of
    the time stepping type, time_stepping_type is read and
    timestepping_type is then not looked at: what the database holds under
    it changes nothing of the outcome of the call.  With neither key of a
    pair the member keeps its value. *)
Theorem input_key_precedence (db : Database) (is_from_restart : bool) (x : XWorld) :
  (forall x',
      getFromInput db is_from_restart x = Returned tt x' ->
      Some (d_regrid_fluid_cfl_interval (rest x'))
      = (if keyExists db "regrid_fluid_cfl_interval"
         then getDouble db "regrid_fluid_cfl_interval"
         else if keyExists db "regrid_cfl_interval"
              then getDouble db "regrid_cfl_interval"
              else Some (d_regrid_fluid_cfl_interval (rest x)))
      /\ Some (d_time_stepping_type (self (core x')))
         = (if keyExists db "time_stepping_type"
            then option_map string_to_enum (getString db "time_stepping_type")
            else if keyExists db "timestepping_type"
                 then option_map string_to_enum (getString db "timestepping_type")
                 else Some (d_time_stepping_type (self (core x)))))
  /\ (keyExists db "regrid_cfl_interval" = true ->
      getDouble db "regrid_cfl_interval" = None ->
      getFromInput db is_from_restart x
      = Aborted (DatabaseFailure "regrid_cfl_interval") x)
  /\ (keyExists db "time_stepping_type" = true ->
      forall db',
        agree_except "timestepping_type" db db' ->
        getFromInput db' is_from_restart x = getFromInput db is_from_restart x).
Proof.
  split; [| split].
  - intros x' H. split.
    + exact (wp_returned _ _ _ _ _ _ (getFromInput_fluid_interval db is_from_restart x) H).
    + exact (wp_returned _ _ _ _ _ _
               (getFromInput_time_stepping_type db is_from_restart x) H).
  - intros Hk Hv. unfold getFromInput, when, get, bind at 1. rewrite Hk, Hv. reflexivity.
  - intros Hk db' Ha. unfold getFromInput, get.
    agrees_at Ha "regrid_cfl_interval".
    agrees_at Ha "regrid_fluid_cfl_interval".
    agrees_at Ha "regrid_structure_cfl_interval".
    agrees_at Ha "error_on_dt_change".
    agrees_at Ha "error_on_timestep_change".
    agrees_at Ha "error_on_time_step_change".
    agrees_at Ha "warn_on_dt_change".
    agrees_at Ha "warn_on_time_step_change".
    agrees_at Ha "warn_on_timestep_change".
    agrees_at Ha "time_stepping_type".
    agrees_at Ha "marker_file_name".
    rewrite Hk. reflexivity.
Qed.

(** X8.  getFromInput on a database that has none of the keys the function
    asks for: the call returns and the integrator, with the defaults of its
    constructor or the values of the restart file, is as it was. *)
Theorem input_without_keys (db : Database) (is_from_restart : bool) (x : XWorld) :
  Forall (fun key => keyExists db key = false) getFromInput_keys ->
  getFromInput db is_from_restart x = Returned tt x.
Proof.
  intro H. unfold getFromInput_keys in H.
  repeat (apply Forall_cons_iff in H; let E := fresh "E" in destruct H as [E H]).
  unfold getFromInput.
  repeat match goal with E : keyExists db _ = false |- _ => rewrite E; clear E end.
  reflexivity.
Qed.

(** X9.  The two checks of getFromRestart.  The call aborts with the
    diagnostic of a restart database that is not found exactly when the root
    database has no database under the name of the object, and with the
    diagnostic of a version mismatch exactly when that database holds a
    version other than 2; either way before any member is written. *)
Theorem restart_checks (restart_db : Database) (x : XWorld) :
  (getFromRestart restart_db x
   = Aborted (RestartDatabaseNotFound (d_object_name (self (core x)))) x
   <-> isDatabase restart_db (d_object_name (self (core x))) = false)
  /\ (getFromRestart restart_db x
      = Aborted (RestartVersionMismatch (d_object_name (self (core x)))) x
      <-> isDatabase restart_db (d_object_name (self (core x))) = true
          /\ exists db ver,
               getDatabase restart_db (d_object_name (self (core x))) = Some db
               /\ getInteger db "IB_HIERARCHY_INTEGRATOR_VERSION" = Some ver
               /\ ver <> IB_HIERARCHY_INTEGRATOR_VERSION).
Proof.
  unfold getFromRestart, get, this, this_rest, assign_this, assign_rest, bind, gets, modify,
    ret, TBOX_ERROR.
  cbv beta.
  destruct (isDatabase restart_db (d_object_name (self (core x)))).
  2:{ split; [tauto |]. split; [discriminate | intros [? _]; discriminate]. }
  destruct (getDatabase restart_db (d_object_name (self (core x)))) as [db |].
  2:{ split; split; try discriminate. intros (_ & ? & ? & ? & _). discriminate. }
  destruct (getInteger db "IB_HIERARCHY_INTEGRATOR_VERSION") as [ver |] eqn:Ev.
  2:{ split; split; try discriminate. intros (_ & db' & ver' & E1 & E2 & _).
      injection E1 as <-. congruence. }
  destruct (Z.eqb_spec ver IB_HIERARCHY_INTEGRATOR_VERSION) as [E | E]; cbn [negb].
  - split; split; try discriminate.
    + destruct (getString db "d_time_stepping_type"); [| discriminate].
      destruct (getDouble db "d_regrid_fluid_cfl_estimate"); [| discriminate].
      destruct (getDouble db "d_regrid_structure_cfl_estimate"); discriminate.
    + destruct (getString db "d_time_stepping_type"); [| discriminate].
      destruct (getDouble db "d_regrid_fluid_cfl_estimate"); [| discriminate].
      destruct (getDouble db "d_regrid_structure_cfl_estimate"); discriminate.
    + intros (_ & db' & ver' & E1 & E2 & E3). injection E1 as <-. congruence.
  - split; split; try discriminate; try reflexivity.
    intros _. split; [reflexivity |]. exists db, ver. auto.
Qed.

Lemma getFromRestart_reads (restart_db : Database) (x : XWorld) :
  wp (getFromRestart restart_db)
     (fun _ x' =>
        exists db v f s,
          getDatabase restart_db (d_object_name (self (core x))) = Some db
          /\ getInteger db "IB_HIERARCHY_INTEGRATOR_VERSION"
             = Some IB_HIERARCHY_INTEGRATOR_VERSION
          /\ getString db "d_time_stepping_type" = Some v
          /\ getDouble db "d_regrid_fluid_cfl_estimate" = Some f
          /\ getDouble db "d_regrid_structure_cfl_estimate" = Some s
          /\ core x' = set_self (set_d_time_stepping_type (string_to_enum v) (self (core x)))
                         (core x)
          /\ rest x' = set_d_regrid_structure_cfl_estimate s
                         (set_d_regrid_fluid_cfl_estimate f (rest x))
          /\ plog x' = plog x)
     (fun _ _ => True) x.
Proof.
  unfold getFromRestart. wp_steps; auto.
  match goal with E : negb (_ =? _) = false |- _ =>
    apply negb_false_iff, Z.eqb_eq in E; subst end.
  eexists _, _, _, _. repeat split; eauto.
Qed.

(** X10.  putToDatabaseSpecialized and then getFromRestart.  When the
    database that putToDatabaseSpecialized has written is the one the root
    database holds under the name of the object, getFromRestart passes its
    two checks and returns with the time stepping type and the two CFL
    estimates of the object that was saved, provided string_to_enum undoes
    enum_to_string on that time stepping type. *)
Theorem restart_round_trip {L : DatabaseLaws} (s : Object) (r : Members)
  (db0 restart_db : Database) (x : XWorld) :
  isDatabase restart_db (d_object_name (self (core x))) = true ->
  getDatabase restart_db (d_object_name (self (core x)))
  = Some (putToDatabaseSpecialized s r db0) ->
  string_to_enum (enum_to_string (d_time_stepping_type s)) = d_time_stepping_type s ->
  exists x',
    getFromRestart restart_db x = Returned tt x'
    /\ d_time_stepping_type (self (core x')) = d_time_stepping_type s
    /\ d_regrid_fluid_cfl_estimate (rest x') = d_regrid_fluid_cfl_estimate r
    /\ d_regrid_structure_cfl_estimate (rest x') = d_regrid_structure_cfl_estimate r.
Proof.
  intros Hi Hd He.
  assert (Hver : getInteger (putToDatabaseSpecialized s r db0) "IB_HIERARCHY_INTEGRATOR_VERSION"
                 = Some IB_HIERARCHY_INTEGRATOR_VERSION).
  { unfold putToDatabaseSpecialized.
    rewrite !getInteger_putDouble, getInteger_putString by discriminate.
    apply getInteger_putInteger. }
  assert (Htype : getString (putToDatabaseSpecialized s r db0) "d_time_stepping_type"
                  = Some (enum_to_string (d_time_stepping_type s))).
  { unfold putToDatabaseSpecialized.
    rewrite !getString_putDouble by discriminate. apply getString_putString. }
  assert (Hfluid : getDouble (putToDatabaseSpecialized s r db0) "d_regrid_fluid_cfl_estimate"
                   = Some (d_regrid_fluid_cfl_estimate r)).
  { unfold putToDatabaseSpecialized.
    rewrite getDouble_putDouble_other by discriminate. apply getDouble_putDouble. }
  assert (Hstructure :
            getDouble (putToDatabaseSpecialized s r db0) "d_regrid_structure_cfl_estimate"
            = Some (d_regrid_structure_cfl_estimate r)).
  { unfold putToDatabaseSpecialized. apply getDouble_putDouble. }
  eexists. split.
  - unfold getFromRestart, get, this, assign_this, assign_rest, bind, gets, modify, ret.
    cbv beta. rewrite Hi, Hd, Hver, Htype, Hfluid, Hstructure. cbn. reflexivity.
  - cbn. rewrite He. repeat split.
Qed.

(** X11.  The constructor on a restarted run, lines 627-631: getFromRestart
    runs first and getFromInput second, so the time stepping type of the
    input database replaces the one of the restart file, while the two CFL
    estimates are those of the restart file, which no key of the input
    database can change. *)
Theorem input_overrides_restart (restart_db input_db : Database) (v : string)
  (x x' : XWorld) :
  isFromRestart (proc (core x)) = true ->
  keyExists input_db "time_stepping_type" = true ->
  getString input_db "time_stepping_type" = Some v ->
  configure restart_db (Some input_db) x = Returned tt x' ->
  d_time_stepping_type (self (core x')) = string_to_enum v
  /\ exists db,
       getDatabase restart_db (d_object_name (self (core x))) = Some db
       /\ getDouble db "d_regrid_fluid_cfl_estimate"
          = Some (d_regrid_fluid_cfl_estimate (rest x'))
       /\ getDouble db "d_regrid_structure_cfl_estimate"
          = Some (d_regrid_structure_cfl_estimate (rest x')).
Proof.
  intros Hr Hk Hv H. unfold configure in H.
  apply bind_returns in H. destruct H as (b & x0 & Hb & H).
  unfold gets in Hb. injection Hb as <- <-. rewrite Hr in H.
  apply bind_returns in H. destruct H as ([] & x1 & H1 & H2).
  cbn [when] in H1.
  pose proof (wp_returned _ _ _ _ _ _ (getFromRestart_reads restart_db x) H1)
    as (db & v1 & f & s & Hdb & _ & _ & Hf & Hs & _ & Hrest & _).
  pose proof (wp_returned _ _ _ _ _ _ (getFromInput_time_stepping_type input_db true x1) H2)
    as Ht.
  rewrite Hk, Hv in Ht. cbn in Ht. injection Ht as Ht.
  pose proof (getFromInput_configures input_db true x1) as Hc.
  rewrite H2 in Hc. destruct Hc as (_ & (f' & s' & Hc) & _).
  split; [exact Ht |].
  exists db. rewrite Hc, Hrest. cbn. auto.
Qed.

End ConfigurationProperties.

(** *** postprocessIntegrateHierarchy (lines 234-316) *)

Section PostprocessProperties.
Import IBHierarchyIntegrator IBHierarchyIntegratorRest.
Local Open Scope Z_scope.
Local Open Scope integrator_scope.
Context {X : Substrate} {Y : Services}.

(** X12.  postprocessIntegrateHierarchy dereferences
    [d_ins_hier_integrator] without the test that
    preprocessIntegrateHierarchy makes (line 177): on an integrator without
    a Navier-Stokes integrator the call is undefined behaviour, whatever its
    arguments. *)
Theorem postprocess_needs_fluid_solver (current_time new_time : float)
  (skip_synchronize_new_state_data : bool) (num_cycles : Z) (x : XWorld) :
  pointer (self (core x)) d_ins_hier_integrator = None ->
  postprocessIntegrateHierarchy current_time new_time skip_synchronize_new_state_data
    num_cycles x = Undefined.
Proof.
  intro H.
  unfold postprocessIntegrateHierarchy, this_arrow, this, xderef, xcall, bind, gets, modify.
  cbv beta.
  destruct (pointer (self (core x)) d_ib_method_ops); [| reflexivity].
  cbn. rewrite H. reflexivity.
Qed.

Lemma std_max_not_negative (a b : float) :
  (0 <=? a)%float = true -> (0 <=? std_max a b)%float = true.
Proof.
  intro Ha. unfold std_max. destruct (a <? b)%float eqn:E; [| exact Ha].
  exact (leb_zero_ltb a b Ha E).
Qed.

Lemma patch_cfl_not_negative (u_new_idx : Z) (dt cfl_max : float) (patch : addr) (x : XWorld) :
  (0 <=? cfl_max)%float = true ->
  wp (patch_cfl u_new_idx dt cfl_max patch)
     (fun c x' => (0 <=? c)%float = true /\ x' = x) (fun _ _ => False) x.
Proof.
  intro H. unfold patch_cfl, min_element. wp_steps.
  all: split; [apply std_max_not_negative; exact H | reflexivity].
Qed.

Lemma local_cfl_not_negative (finest_ln : Z) (current_time new_time : float) (x : XWorld) :
  wp (local_cfl finest_ln current_time new_time)
     (fun c x' => (0 <=? c)%float = true /\ x' = x) (fun _ _ => False) x.
Proof.
  unfold local_cfl. wp_steps.
  apply (wp_fold_each (fun c x' => (0 <=? c)%float = true /\ x' = x)).
  - split; reflexivity.
  - intros c ln x1 [Hc ->]. wp_steps.
    apply (wp_fold_each (fun c x' => (0 <=? c)%float = true /\ x' = x)); auto.
    intros c1 patch x1 [Hc1 ->]. apply patch_cfl_not_negative. exact Hc1.
  - auto.
Qed.

Lemma deallocate_levels_keeps_members (h : addr) (finest_ln : Z) :
  keeps True (same rest) (deallocate_levels h finest_ln).
Proof.
  unfold deallocate_levels.
  keeps_steps (same_refl (@rest X)) (same_trans (@rest X)).
  unfold deallocate_level.
  keeps_steps (same_refl (@rest X)) (same_trans (@rest X)).
  all: reflexivity.
Qed.

(** X13.  The members postprocessIntegrateHierarchy writes.  A call that
    returns has added to the fluid CFL estimate the reduction of a CFL
    number that is neither negative nor NaN, whatever norms and grid
    spacings the patches report; it has kept the structure CFL estimate
    when the structure CFL interval is the default -1.0, and stored a new
    one otherwise; it has written no other member of the regridding
    criteria, the logging switch or the body force function. *)
Theorem postprocess_estimates (current_time new_time : float)
  (skip_synchronize_new_state_data : bool) (num_cycles : Z) (x x' : XWorld) :
  postprocessIntegrateHierarchy current_time new_time skip_synchronize_new_state_data
    num_cycles x = Returned tt x' ->
  exists cfl_max e displacement,
    (0 <=? cfl_max)%float = true
    /\ rest x'
       = set_d_regrid_structure_cfl_estimate
           (if (d_regrid_structure_cfl_interval (rest x) =? -1)%float
            then d_regrid_structure_cfl_estimate (rest x)
            else displacement)
           (set_d_regrid_fluid_cfl_estimate
              (d_regrid_fluid_cfl_estimate (rest x) + maxReduction cfl_max e)%float
              (rest x)).
Proof.
  intro H.
  pattern x'.
  match goal with |- ?P x' =>
    refine (wp_returned _ (fun _ => P) (fun _ _ => True) _ _ _ _ H) end.
  clear H x'.
  unfold postprocessIntegrateHierarchy.
  do 7 keeping (@rest X).
  apply wp_bind. apply (keeps_wp True (same rest));
    [apply deallocate_levels_keeps_members | intros _ y Hy | auto].
  unfold same in Hy.
  apply wp_bind.
  eapply wp_weaken; [apply local_cfl_not_negative | | intros ? ? []].
  intros c y' [Hc ->].
  assert (Hx : rest y = rest x) by congruence.
  clear - Hx Hc. do 5 wp_statement.
  all: do 2 keeping (@rest X).
  all: apply wp_xbase.
  all: exists c, (ext (core y)).
  all: cbn [rest set_rest d_regrid_structure_cfl_interval
                set_d_regrid_fluid_cfl_estimate] in Heqb.
  all: rewrite Hx in Heqb.
  all: destruct (PrimFloat.eqb (d_regrid_structure_cfl_interval (rest x)) _);
    try discriminate Heqb.
  all: cbn [rest set_core];
    repeat match goal with E : rest _ = _ |- _ => rewrite E; clear E end.
  - eexists. split; [exact Hc | reflexivity].
  - exists 0%float. split; [exact Hc |]. destruct (rest x); reflexivity.
Qed.

End PostprocessProperties.

(** *** What preprocessIntegrateHierarchy writes (lines 166-232) *)

Section PreprocessFrame.
Import IBHierarchyIntegrator IBHierarchyIntegratorRest.
Local Open Scope Z_scope.
Local Open Scope integrator_scope.
Context {X : Substrate}.

Lemma wp_base (c : BaseCall) (Qr : unit -> World -> Prop) (Qa : Diagnostic -> World -> Prop)
  (w : World) :
  Qr tt (set_ext (snd (base_invoke c (self w) (ext w)))
           (set_self (fst (base_invoke c (self w) (ext w))) w)) ->
  wp (base c) Qr Qa w.
Proof. unfold wp, base. destruct (base_invoke c (self w) (ext w)). exact (fun H => H). Qed.

Lemma static_skip_check_for_dt_change_keeps_self :
  keeps True (same self) static_skip_check_for_dt_change.
Proof.
  intro w. unfold static_skip_check_for_dt_change.
  destruct (skip_check_for_dt_change (proc w)); reflexivity.
Qed.

Lemma own_statements_keep_self (current_time new_time : float) :
  keeps True (same self)
    (preprocess_ins current_time new_time ;;
     allocate_eulerian_data current_time new_time ;;
     check_dt_change current_time new_time).
Proof.
  unfold preprocess_ins, allocate_eulerian_data, check_dt_change, dt_previous_0,
    store_skip_check_for_dt_change.
  keeps_steps (same_refl (@self X)) (same_trans (@self X)).
  all: try reflexivity.
  all: try (unfold allocate_level;
            keeps_steps (same_refl (@self X)) (same_trans (@self X)); reflexivity).
  all: apply static_skip_check_for_dt_change_keeps_self.
Qed.

(** X14.  preprocessIntegrateHierarchy writes no member of the integrator
    itself.  However the call ends, with a return or with one of its two
    aborts, the object is the one the base class's
    preprocessIntegrateHierarchy left: the statements of lines 175-229 reach
    the collaborators, [pout] and the static flag only. *)
Theorem preprocess_writes_no_member (current_time new_time : float) (num_cycles : Z)
  (w : World) :
  match preprocessIntegrateHierarchy current_time new_time num_cycles w with
  | Returned _ w' | Aborted _ w' =>
      self w' = fst (base_invoke
                       (HierarchyIntegrator_preprocessIntegrateHierarchy
                          current_time new_time num_cycles) (self w) (ext w))
  | Undefined => True
  end.
Proof.
  set (s0 := fst (base_invoke _ _ _)).
  change (wp (preprocessIntegrateHierarchy current_time new_time num_cycles)
            (fun _ w' => self w' = s0) (fun _ w' => self w' = s0) w).
  unfold preprocessIntegrateHierarchy, preprocess_dependencies.
  apply wp_bind. apply wp_bind. apply wp_base.
  fold s0.
  apply (keeps_wp True (same self)).
  - keeps_steps (same_refl (@self X)) (same_trans (@self X)). reflexivity.
  - intros _ w1 H1. apply (keeps_wp True (same self)).
    + apply own_statements_keep_self.
    + intros _ w2 H2. unfold same in *. cbn in H1. congruence.
    + intros _ w2 H2. unfold same in *. cbn in H1. congruence.
  - intros _ w1 H1. unfold same in H1. cbn in H1. congruence.
Qed.

End PreprocessFrame.

(** *** Allocation and deallocation (lines 193-209 and 246-259) *)

Section AllocationPairs.
Import IBHierarchyIntegrator IBHierarchyIntegratorRest.
Local Open Scope Z_scope.
Local Open Scope integrator_scope.
Variables (ins_num_cycles : Z) (has_fluid_sources : bool) (finest_level_number max_levels : Z).
Implicit Types (w : @World (recording ins_num_cycles has_fluid_sources finest_level_number
                              max_levels))
  (x : @XWorld (recording ins_num_cycles has_fluid_sources finest_level_number max_levels)).

(** The calls in front of [base]. *)
Ltac calls_before l base :=
  lazymatch l with
  | base => constr:(@nil Call)
  | ?c :: ?l' => let r := calls_before l' base in constr:(c :: r)
  end.

Lemma level_pairs (h : addr) (current_time new_time : float) (ln : Z)
  w w1 x :
  self (core x) = self w ->
  allocate_level h current_time new_time ln w = Returned tt w1 ->
  exists added x1,
    since (ext w) (ext w1) added /\ self w1 = self w
    /\ deallocate_level h ln x = Returned tt x1
    /\ since (ext (core x)) (ext (core x1)) (flat_map released added)
    /\ self (core x1) = self (core x).
Proof.
  intros Hs.
  unfold allocate_level, deallocate_level, this_arrow, this, xderef, xcall, xquery,
    member, deref, call, query, bind, gets, modify, when, ret, undefined.
  cbn. rewrite Hs.
  destruct (index (self w) d_f_current_idx =? -1); cbn; rewrite ?Hs;
    (destruct (pointer (self w) d_ib_method_ops); [| discriminate]);
    destruct has_fluid_sources; cbn; rewrite ?Hs;
    intro H; injection H as <-; cbn;
    match goal with
    | |- exists added _, since _ {| calls := ?full; next := _ |} added /\ _ =>
        let a := calls_before full (calls (ext w)) in exists a
    end;
    eexists; repeat split; first [reflexivity | exact Hs].
Qed.

(** The loops over the levels. *)
Lemma levels_pair (h : addr) (current_time new_time : float) (l : list Z) :
  forall w w1 x,
    self (core x) = self w ->
    for_each l (allocate_level h current_time new_time) w = Returned tt w1 ->
    exists added x1,
      since (ext w) (ext w1) added
      /\ for_each l (deallocate_level h) x = Returned tt x1
      /\ since (ext (core x)) (ext (core x1)) (flat_map released added).
Proof.
  induction l as [| ln l IH]; intros w w1 x Hs H.
  - injection H as <-. exists [], x. repeat split.
  - cbn [for_each] in *. apply bind_returns in H. destruct H as ([] & w2 & H1 & H2).
    destruct (level_pairs h current_time new_time ln w w2 x Hs H1)
      as (a1 & x2 & (Ha1 & Hn1) & Hw2 & Hd1 & (Hr1 & Hm1) & Hx2).
    destruct (IH w2 w1 x2 ltac:(congruence) H2)
      as (a2 & x1 & (Ha2 & Hn2) & Hd2 & (Hr2 & Hm2)).
    exists (a2 ++ a1)%list, x1. split; [| split].
    + split; [rewrite Ha2, Ha1, app_assoc; reflexivity | congruence].
    + unfold bind. rewrite Hd1. exact Hd2.
    + split; [| congruence].
      rewrite Hr2, Hr1, flat_map_app, app_assoc. reflexivity.
Qed.

(** X17.  What postprocessIntegrateHierarchy releases of what
    preprocessIntegrateHierarchy allocated.  With collaborators that take
    down the calls they receive, and from the same object: the loop of
    lines 246-259 deallocates, level by level and in the same order, the
    patch data of every index that the loop of lines 193-209 allocates, and
    nothing else; the allocations of the component selectors
    [d_scratch_data] and [d_new_data] have no counterpart here. *)
Theorem indices_allocated_are_deallocated (current_time new_time : float)
  w w1 x :
  self (core x) = self w ->
  allocate_eulerian_data current_time new_time w = Returned tt w1 ->
  exists added x1,
    since (ext w) (ext w1) added
    /\ deallocate_eulerian_data x = Returned tt x1
    /\ since (ext (core x)) (ext (core x1)) (flat_map released added).
Proof.
  intros Hs H.
  unfold allocate_eulerian_data, deallocate_eulerian_data, deallocate_levels, this_arrow,
    this, xderef, xquery,
    member, deref, query, bind, gets, ret, undefined in *.
  cbn in *. rewrite Hs.
  destruct (pointer (self w) d_hierarchy) as [h |]; [| discriminate].
  exact (levels_pair h current_time new_time _ w w1 x Hs H).
Qed.



End AllocationPairs.

(** *** Concrete runs of the rest *)

Section RestRuns.
Import IBHierarchyIntegrator IBHierarchyIntegratorRest.
Local Open Scope string_scope.
Local Open Scope Z_scope.

(** Evaluates a closed equation. *)
Ltac run := vm_compute; reflexivity.

(** The list database keeps the laws of a database. *)
Lemma entries_laws : @DatabaseLaws entries.
Proof.
  split; intros; cbn -[String.eqb]; rewrite ?String.eqb_refl; try reflexivity.
  all: match goal with H : ?k <> ?k' |- _ =>
         replace (String.eqb k' k) with false
           by (symmetry; apply String.eqb_neq; congruence)
       end; reflexivity.
Qed.

(** Step 6 of an integrator that regrids every third step. *)
Lemma regrid_point_by_steps_witness :
  (@atRegridPointSpecialized two_cycles at_step_6 every_third_step = None
   <-> d_integrator_step at_step_6 = INT_MIN /\ d_regrid_interval every_third_step = -1)
  /\ (@atRegridPointSpecialized two_cycles at_step_6 every_third_step = Some true
      <-> d_regrid_interval every_third_step <> 0
          /\ ~ (d_integrator_step at_step_6 = INT_MIN
                /\ d_regrid_interval every_third_step = -1)
          /\ (d_regrid_interval every_third_step | d_integrator_step at_step_6)).
Proof.
  apply (@regrid_point_by_steps two_cycles at_step_6 every_third_step);
    try run; vm_compute; split; discriminate.
Defined.

(** A fluid CFL interval of 0.5 and an estimate of 0.75: a regrid point
    before the regrid, none after it. *)
Lemma no_regrid_right_after_regrid_witness :
  @atRegridPointSpecialized two_cycles (self (core regridding)) (rest regridding)
  = Some true
  /\ @atRegridPointSpecialized two_cycles
       (self (core (xworld_of
                      (@regridHierarchyEndSpecialized two_cycles (simple_services two_cycles)
                         regridding))))
       (rest (xworld_of
                (@regridHierarchyEndSpecialized two_cycles (simple_services two_cycles)
                   regridding)))
     = Some false.
Proof.
  split; [run |].
  apply (@no_regrid_right_after_regrid two_cycles (simple_services two_cycles) regridding).
  - run.
  - run.
  - left. run.
  - left. run.
  - right. run.
Defined.

(** The same with a structure CFL interval of -2.0: a regrid point again. *)
Lemma regrid_again_right_after_regrid_witness :
  @atRegridPointSpecialized two_cycles
    (self (core (xworld_of
                   (@regridHierarchyEndSpecialized two_cycles (simple_services two_cycles)
                      misconfigured))))
    (rest (xworld_of
             (@regridHierarchyEndSpecialized two_cycles (simple_services two_cycles)
                misconfigured)))
  = Some true.
Proof.
  apply (@regrid_again_right_after_regrid two_cycles (simple_services two_cycles)
           misconfigured).
  - run.
  - right. repeat split; run.
Defined.

(** Without logging the object and [plog] stay as they are. *)
Lemma regrid_end_updates_workload_when_logging_witness :
  self (core (xworld_of
                (@regridHierarchyEndSpecialized two_cycles (simple_services two_cycles)
                   regridding)))
  = self (core regridding)
  /\ plog (xworld_of
             (@regridHierarchyEndSpecialized two_cycles (simple_services two_cycles)
                regridding))
     = plog regridding.
Proof.
  assert (H : @regridHierarchyEndSpecialized two_cycles (simple_services two_cycles) regridding
              = Returned tt
                  (xworld_of
                     (@regridHierarchyEndSpecialized two_cycles (simple_services two_cycles)
                        regridding))) by run.
  exact (@regrid_end_updates_workload_when_logging two_cycles (simple_services two_cycles)
           regridding _ H).
Defined.

(** The regrid of [regridding] begins: the object is the one the base class
    gives back, here the same. *)
Lemma regrid_begin_updates_workload_witness :
  self (core (xworld_of
                (@regridHierarchyBeginSpecialized two_cycles (simple_services two_cycles)
                   regridding)))
  = fst (@updateWorkloadEstimates two_cycles (simple_services two_cycles)
           (self (core regridding)) (ext (core regridding)))
  /\ rest (xworld_of
             (@regridHierarchyBeginSpecialized two_cycles (simple_services two_cycles)
                regridding))
     = rest regridding.
Proof.
  apply (@regrid_begin_updates_workload two_cycles (simple_services two_cycles) regridding).
  run.
Defined.

(** The two levels of [later_step]: what is allocated for the step from 1
    to 1.5, and what is deallocated after it. *)
Lemma indices_allocated_are_deallocated_witness :
  exists added x1,
    since (ext later_step)
      (ext (world_of (@allocate_eulerian_data two_cycles 1 1.5 later_step))) added
    /\ @deallocate_eulerian_data two_cycles regridding = Returned tt x1
    /\ since (ext (core regridding)) (ext (core x1)) (flat_map released added).
Proof.
  apply (@indices_allocated_are_deallocated 2 false 1 2 1 1.5 later_step _ regridding); run.
Defined.

(** A second function, registered on top of function 50, is in no member. *)
Lemma registered_body_force_function_stays_witness :
  rest (xworld_of
          (@registerBodyForceFunction two_cycles (simple_services two_cycles)
             (Some 51%positive) with_body_force))
  = rest with_body_force
  /\ self (core (xworld_of
                   (@registerBodyForceFunction two_cycles (simple_services two_cycles)
                      (Some 51%positive) with_body_force)))
     = self (core with_body_force).
Proof.
  apply (@registered_body_force_function_stays two_cycles (simple_services two_cycles)
           (Some 51%positive) 50%positive with_body_force); run.
Defined.

(** An entry put in front of a list database changes no answer under
    another key. *)
Lemma with_value_agrees (key : string) (v : Value) (db : Entries) :
  @agree_except entries key db (with_value key v db).
Proof.
  intros k Hk. cbn -[String.eqb].
  replace (String.eqb key k) with false
    by (symmetry; apply String.eqb_neq; congruence).
  repeat split.
Qed.

(** With both names in the database, 0.5 and the trapezoidal rule count,
    also when the older name of the time stepping type holds a number. *)
Lemma input_key_precedence_witness :
  (Some (d_regrid_fluid_cfl_interval
           (rest (xworld_of
                    (@getFromInput two_cycles (simple_services two_cycles) entries
                       both_names false regridding))))
   = Some 0.5%float
   /\ Some (d_time_stepping_type
              (self (core (xworld_of
                             (@getFromInput two_cycles (simple_services two_cycles) entries
                                both_names false regridding)))))
      = Some TRAPEZOIDAL_RULE)
  /\ @getFromInput two_cycles (simple_services two_cycles) entries
       mistyped_alias false regridding
     = @getFromInput two_cycles (simple_services two_cycles) entries
         both_names false regridding.
Proof.
  assert (H : @getFromInput two_cycles (simple_services two_cycles) entries
                both_names false regridding
              = Returned tt
                  (xworld_of
                     (@getFromInput two_cycles (simple_services two_cycles) entries
                        both_names false regridding))) by run.
  assert (K : @keyExists entries both_names "time_stepping_type" = true) by run.
  destruct (@input_key_precedence two_cycles (simple_services two_cycles) entries
              both_names false regridding) as (Hvalues & _ & Hunread).
  split.
  - exact (Hvalues _ H).
  - exact (Hunread K mistyped_alias
             (with_value_agrees "timestepping_type" (VDouble 1) both_names)).
Defined.

(** A database with keys of other classes only. *)
Lemma input_without_keys_witness :
  @getFromInput two_cycles (simple_services two_cycles) entries other_keys false regridding
  = Returned tt regridding.
Proof.
  apply (@input_without_keys two_cycles (simple_services two_cycles) entries).
  unfold getFromInput_keys. repeat constructor.
Defined.

(** What was saved with forward Euler and a fluid estimate of 0.75 is read back. *)
Lemma restart_round_trip_witness :
  exists x',
    @getFromRestart two_cycles (simple_services two_cycles) entries restart_file restarted
    = Returned tt x'
    /\ d_time_stepping_type (self (core x')) = FORWARD_EULER
    /\ d_regrid_fluid_cfl_estimate (rest x') = 0.75%float
    /\ d_regrid_structure_cfl_estimate (rest x') = 0%float.
Proof.
  apply (@restart_round_trip two_cycles (simple_services two_cycles) entries entries_laws
           (set_d_time_stepping_type FORWARD_EULER (self later_step)) (rest regridding)
           {| values := []; databases := [] |} restart_file restarted); run.
Defined.

(** Forward Euler in the restart file, the trapezoidal rule in the input. *)
Lemma input_overrides_restart_witness :
  d_time_stepping_type
    (self (core (xworld_of
                   (@configure two_cycles (simple_services two_cycles) entries
                      restart_file (Some both_names) restarted))))
  = @string_to_enum two_cycles (simple_services two_cycles) "TRAPEZOIDAL_RULE"
  /\ exists db,
       @getDatabase entries restart_file (d_object_name (self (core restarted))) = Some db
       /\ @getDouble entries db "d_regrid_fluid_cfl_estimate"
          = Some (d_regrid_fluid_cfl_estimate
                    (rest (xworld_of
                             (@configure two_cycles (simple_services two_cycles) entries
                                restart_file (Some both_names) restarted))))
       /\ @getDouble entries db "d_regrid_structure_cfl_estimate"
          = Some (d_regrid_structure_cfl_estimate
                    (rest (xworld_of
                             (@configure two_cycles (simple_services two_cycles) entries
                                restart_file (Some both_names) restarted)))).
Proof.
  apply (@input_overrides_restart two_cycles (simple_services two_cycles) entries
           restart_file both_names "TRAPEZOIDAL_RULE" restarted); run.
Defined.

(** Without a Navier-Stokes integrator preprocessIntegrateHierarchy returns
    and postprocessIntegrateHierarchy is undefined. *)
Lemma postprocess_needs_fluid_solver_witness :
  @postprocessIntegrateHierarchy two_cycles (simple_services two_cycles) 0 0.5 false 1
    without_fluid_solver = Undefined
  /\ @preprocessIntegrateHierarchy two_cycles 0 0.5 1 (core without_fluid_solver)
     = Returned tt
         (world_of (@preprocessIntegrateHierarchy two_cycles 0 0.5 1
                      (core without_fluid_solver))).
Proof.
  split; [| run].
  apply (@postprocess_needs_fluid_solver two_cycles (simple_services two_cycles)). run.
Defined.

(** A step of size 0.5 with velocities of norm 2 on a grid of spacing 0.25. *)
Lemma postprocess_estimates_witness :
  exists cfl_max e displacement,
    (0 <=? cfl_max)%float = true
    /\ rest (xworld_of
               (@postprocessIntegrateHierarchy two_cycles (simple_services two_cycles)
                  1 1.5 false 2 regridding))
       = set_d_regrid_structure_cfl_estimate
           (if (d_regrid_structure_cfl_interval (rest regridding) =? -1)%float
            then d_regrid_structure_cfl_estimate (rest regridding)
            else displacement)
           (set_d_regrid_fluid_cfl_estimate
              (d_regrid_fluid_cfl_estimate (rest regridding)
               + @maxReduction two_cycles (simple_services two_cycles) cfl_max e)%float
              (rest regridding)).
Proof.
  apply (@postprocess_estimates two_cycles (simple_services two_cycles) 1 1.5 false 2
           regridding). run.
Defined.

End RestRuns.
